(** * JoinMarket coinjoin coordination: Maker and Taker

    A shallow embedding of [jmclient/maker.py] and [jmclient/taker.py]:
    the Maker's authorisation and unsigned-transaction checks, and the
    Taker's [initialize], [receive_utxos] and [on_sig] entry points.

    Python objects are records, dictionaries are insertion-ordered
    association lists, integers are [Z], floats are IEEE binary64 values
    ([spec_float] with [prec = 53], [emax = 1024]), exceptions are values of
    [exn], and methods that mutate [self] are state transformers that
    return the state reached even when they raise. *)

From Stdlib Require Import ZArith List String Ascii Bool Lia QArith Qround.
From Stdlib Require Import Floats.SpecFloat DecimalString.
From Stdlib Require Import RelationClasses Permutation.
Import ListNotations.
Local Open Scope string_scope.
Local Open Scope Z_scope.

Set Implicit Arguments.
Set Warnings "-register-all".

(** ** Python runtime: exceptions, results, [str], dictionaries *)

Module Py.

Inductive exn : Type :=
| KeyError (key : string)
| IndexError
| ValueError (msg : string)
| TypeError
| OverflowError
| AssertionError
| NotImplementedError
| EngineError
| PoDLEError (msg : string)
| OtherError (msg : string).

(** The outcome of evaluating an expression that may raise. *)
Inductive res (A : Type) : Type :=
| Ok (a : A)
| Raise (e : exn).
Arguments Ok {A} a.
Arguments Raise {A} e.

Definition rbind {A B} (r : res A) (k : A -> res B) : res B :=
  match r with
  | Ok a => k a
  | Raise e => Raise e
  end.

(** The line feed, [\n] in a Python string literal. *)
Definition newline : string := String (ascii_of_nat 10) EmptyString.

(** [str(n)] for a Python int. *)
Definition str (n : Z) : string := NilZero.string_of_int (Z.to_int n).

(** [sum(l)] for a list of ints. *)
Definition sum (l : list Z) : Z := fold_left Z.add l 0.

(** Keys of a dictionary: a type with a boolean equality. *)
Class Key (K : Type) : Type := { keqb : K -> K -> bool }.

(** The equality test of a key type decides equality. *)
Class KeyOk (K : Type) {HK : Key K} : Prop := {
  keqb_eq : forall x y : K, keqb x y = true <-> x = y
}.
Arguments KeyOk K {HK}.

#[export] Instance string_Key : Key string := {| keqb := String.eqb |}.

(** [self.utxos] is keyed by [None] (the taker) or by a nick. *)
#[export] Instance option_string_Key : Key (option string) :=
  {| keqb := fun x y =>
       match x, y with
       | Some a, Some b => String.eqb a b
       | None, None => true
       | _, _ => false
       end |}.

(** [x in l] for a list. *)
Definition mem {K} `{Key K} (x : K) (l : list K) : bool :=
  existsb (keqb x) l.

(** [l.remove(x)]: drops the first occurrence, [ValueError] when absent. *)
Fixpoint list_remove {K} `{Key K} (x : K) (l : list K) : option (list K) :=
  match l with
  | [] => None
  | y :: l' =>
      if keqb x y then Some l'
      else option_map (cons y) (list_remove x l')
  end.

(** A dictionary, in insertion order. *)
Definition dict (K V : Type) : Type := list (K * V).

Definition keys {K V} (d : dict K V) : list K := map fst d.
Definition values {K V} (d : dict K V) : list V := map snd d.

(** [d[k]], [None] standing for [KeyError]. *)
Fixpoint get {K V} `{Key K} (k : K) (d : dict K V) : option V :=
  match d with
  | [] => None
  | (k', v) :: d' => if keqb k k' then Some v else get k d'
  end.

(** [d[k] = v]: overwrites in place, or appends a new entry. *)
Fixpoint set {K V} `{Key K} (k : K) (v : V) (d : dict K V) : dict K V :=
  match d with
  | [] => [(k, v)]
  | (k', v') :: d' =>
      if keqb k k' then (k', v) :: d' else (k', v') :: set k v d'
  end.

(** [del d[k]], [None] standing for [KeyError]. *)
Fixpoint del {K V} `{Key K} (k : K) (d : dict K V) : option (dict K V) :=
  match d with
  | [] => None
  | (k', v') :: d' =>
      if keqb k k' then Some d'
      else option_map (cons (k', v')) (del k d')
  end.

(** [list(set(l))]: one copy of each element (Python leaves the order
    unspecified; the first occurrences are kept here). *)
Fixpoint dedup {K} `{Key K} (l : list K) : list K :=
  match l with
  | [] => []
  | x :: l' => if mem x l' then dedup l' else x :: dedup l'
  end.

#[export] Instance Z_Key : Key Z := {| keqb := Z.eqb |}.

(** [l[i]] with Python's negative indices; [None] stands for
    [IndexError]. *)
Definition item {A} (l : list A) (i : Z) : option A :=
  let n := Z.of_nat (List.length l) in
  if i <? 0 then
    if n + i <? 0 then None else nth_error l (Z.to_nat (n + i))
  else nth_error l (Z.to_nat i).

(** [enumerate(l)], counting from [i]. *)
Fixpoint enumerate_from {A} (i : nat) (l : list A) : list (nat * A) :=
  match l with
  | [] => []
  | x :: l' => (i, x) :: enumerate_from (S i) l'
  end.

Definition enumerate {A} (l : list A) : list (nat * A) := enumerate_from 0 l.

(** [l[i] = f(l[i])]; nothing changes when [i] is out of range. *)
Fixpoint update_nth {A} (i : nat) (f : A -> A) (l : list A) : list A :=
  match l, i with
  | [], _ => []
  | x :: l', O => f x :: l'
  | x :: l', S i' => x :: update_nth i' f l'
  end.

Definition lower_ascii (c : ascii) : ascii :=
  let n := nat_of_ascii c in
  if Nat.leb 65 n && Nat.leb n 90 then ascii_of_nat (n + 32) else c.

(** [s.lower()] on ASCII text. *)
Fixpoint lower (s : string) : string :=
  match s with
  | EmptyString => EmptyString
  | String c s' => String (lower_ascii c) (lower s')
  end.

(** Methods of an object whose attributes are a record [S]: the result,
    or the exception raised, together with the attributes at that point. *)
Definition M (S A : Type) : Type := S -> res A * S.

Definition ret {S A} (a : A) : M S A := fun s => (Ok a, s).

Definition bind {S A B} (m : M S A) (k : A -> M S B) : M S B :=
  fun s =>
    match m s with
    | (Ok a, s') => k a s'
    | (Raise e, s') => (Raise e, s')
    end.

Definition raise {S A} (e : exn) : M S A := fun s => (Raise e, s).

Definition lift {S A} (r : res A) : M S A := fun s => (r, s).

Definition get_state {S} : M S S := fun s => (Ok s, s).

Definition modify {S} (f : S -> S) : M S unit := fun s => (Ok tt, f s).

(** [for x in l: body(x)]. *)
Fixpoint for_each {S A} (l : list A) (body : A -> M S unit) : M S unit :=
  match l with
  | [] => ret tt
  | x :: l' => bind (body x) (fun _ => for_each l' body)
  end.

(** A relation between the attributes before and after that a method
    maintains, whether it returns or raises. *)
Definition keeps {S A} (R : S -> S -> Prop) (m : M S A) : Prop :=
  forall s, R s (snd (m s)).

(** The attribute (or any function of the attributes) [p] is the same
    before and after. *)
Definition same {S X} (p : S -> X) : S -> S -> Prop :=
  fun s s' => p s' = p s.

(** The list [p] of the attributes has gained nothing but elements of
    [extra]. *)
Definition within {S X} (p : S -> list X) (extra : list X) : S -> S -> Prop :=
  fun s s' => incl (p s') (extra ++ p s).

Module Notations.
Notation "x <- c ;; k" := (bind c (fun x => k))
  (at level 61, c at next level, right associativity).
Notation "c ;;; k" := (bind c (fun _ => k))
  (at level 61, right associativity).
End Notations.

End Py.
Import Py.
Import Py.Notations.

(** ** IEEE binary64 arithmetic, as Python's [float] uses it *)

Module Float.

Definition prec : Z := 53.
Definition emax : Z := 1024.

Definition float : Type := spec_float.

(** [float(n)] for an int: correctly rounded (ties to even),
    [OverflowError] when [n] is out of range. *)
Definition of_int (n : Z) : res float :=
  match binary_normalize prec emax n 0 false with
  | S754_infinity _ => Raise OverflowError
  | f => Ok f
  end.

(** [int(f)]: truncation toward zero. *)
Definition to_int (f : float) : res Z :=
  match f with
  | S754_zero _ => Ok 0
  | S754_finite s m e =>
      let a := match e with
               | Z0 => Zpos m
               | Zpos _ => Z.shiftl (Zpos m) e
               | Zneg p => Z.shiftr (Zpos m) (Zpos p)
               end in
      Ok (if s then - a else a)
  | S754_infinity _ => Raise OverflowError
  | S754_nan => Raise (ValueError "cannot convert float NaN to integer")
  end.

Definition is_zero (f : float) : bool :=
  match f with
  | S754_zero _ => true
  | _ => false
  end.

(** [a / b] on floats. *)
Definition div (a b : float) : res float :=
  if is_zero b then Raise (OtherError "float division by zero")
  else Ok (SFdiv prec emax a b).

(** [a * b] on floats. *)
Definition mul (a b : float) : float := SFmul prec emax a b.

(** The literal [100.0]. *)
Definition f100 : float := S754_finite false 7036874417766400 (-46).

(** [int(n / 100.0)] for an int [n]. *)
Definition int_div_100 (n : Z) : res Z :=
  rbind (of_int n) (fun x => rbind (div x f100) to_int).

(** [int(f * n)] for a float [f] and an int [n]. *)
Definition int_mul (f : float) (n : Z) : res Z :=
  rbind (of_int n) (fun x => to_int (mul f x)).

End Float.

(** ** Transactions, offers and UTXO records *)

Inductive ordertype : Type := reloffer | absoffer | swreloffer | swabsoffer.

(** An offer; [cjfee] is an exact decimal (an integer for absolute
    offers, a fraction for relative ones). *)
Record offer : Type := {
  oid : Z;
  otype : ordertype;
  minsize : Z;
  maxsize : Z;
  txfee : Z;
  cjfee : Q;
  counterparty : string
}.

Record outpoint : Type := { hash : string; index : Z }.

Record txin : Type := {
  in_outpoint : outpoint;
  in_script : string;
  in_witness : option (list string);
  in_sequence : Z
}.

Record txout : Type := { out_script : string; out_value : Z }.

(** A deserialized transaction, [{'ins': [...], 'outs': [...]}]. *)
Record txdict : Type := {
  ins : list txin;
  outs : list txout;
  locktime : Z;
  version : Z
}.

(** The key under which an input is known to the wallets:
    [ins['outpoint']['hash'] + ':' + str(ins['outpoint']['index'])]. *)
Definition utxo_key (i : txin) : string :=
  hash (in_outpoint i) ++ ":" ++ str (index (in_outpoint i)).

(** An entry of a wallet's utxo dictionary. *)
Record wallet_utxo : Type := { address : string; value : Z }.

(** A record returned by [query_utxo_set]. *)
Record utxo_record : Type := {
  u_value : Z;
  u_address : string;
  u_script : string;
  u_confirms : Z
}.

(** Modelled from the spec: [calc_cj_fee] of [jmclient.support] is not
    part of the sources; section 4.2 gives [real_cj_fee(ordertype, cjfee,
    amount) = cjfee] for absolute types and [floor(amount * cjfee)] for
    relative types. *)
Definition real_cj_fee (t : ordertype) (fee : Q) (amount : Z) : Z :=
  match t with
  | absoffer | swabsoffer => Qfloor fee
  | reloffer | swreloffer => Qfloor (inject_Z amount * fee)
  end.

(** Functions of [jmbitcoin] and [jmclient.support] that the Maker's
    checks call. *)
Class MakerLib : Type := {
  address_to_script : string -> string;
  calc_cj_fee : ordertype -> Q -> Z -> Z
}.

(** ** The Maker *)

Module Maker.

(** The offer-info envelope kept per active order. *)
Record offerinfo : Type := {
  oi_offer : offer;
  oi_utxos : dict string wallet_utxo;
  oi_cjaddr : string;
  oi_changeaddr : string;
  oi_amount : Z
}.

Section VerifyUnsignedTx.
Context {L : MakerLib}.

(** [my_total_in - amount - txfee + real_cjfee] of [verify_unsigned_tx]. *)
Definition expected_change_value (oi : offerinfo) : Z :=
  let my_total_in := sum (map value (values (oi_utxos oi))) in
  let real_cjfee :=
    calc_cj_fee (otype (oi_offer oi)) (cjfee (oi_offer oi)) (oi_amount oi) in
  my_total_in - oi_amount oi - txfee (oi_offer oi) + real_cjfee.

(** The loop over [txd['outs']]: either it returns from the function
    ([inl]) or it ends with the two counters ([inr]). *)
Fixpoint scan_outs (cjaddr_script changeaddr_script : string)
    (amount expected : Z) (l : list txout) (seen_cj seen_change : Z)
    : (bool * option string) + (Z * Z) :=
  match l with
  | [] => inr (seen_cj, seen_change)
  | o :: l' =>
      let is_cj := String.eqb (out_script o) cjaddr_script in
      let is_change := String.eqb (out_script o) changeaddr_script in
      let seen_cj' := if is_cj then seen_cj + 1 else seen_cj in
      if is_cj && negb (Z.eqb (out_value o) amount) then
        inl (false, Some ("Wrong cj_amount. I expect " ++ str amount))
      else
        let seen_change' :=
          if is_change then seen_change + 1 else seen_change in
        if is_change && negb (Z.eqb (out_value o) expected) then
          inl (false, Some ("wrong change, i expect " ++ str expected))
        else
          scan_outs cjaddr_script changeaddr_script amount expected l'
            seen_cj' seen_change'
  end.

Definition verify_unsigned_tx (txd : txdict) (oi : offerinfo)
    : bool * option string :=
  let tx_utxo_set := map utxo_key (ins txd) in
  let cjaddr_script := address_to_script (oi_cjaddr oi) in
  let changeaddr_script := address_to_script (oi_changeaddr oi) in
  let amount := oi_amount oi in
  let my_utxo_set := keys (oi_utxos oi) in
  if negb (forallb (fun k => mem k tx_utxo_set) my_utxo_set) then
    (false, Some "my utxos are not contained")
  else
    let expected := expected_change_value oi in
    match scan_outs cjaddr_script changeaddr_script amount expected
            (outs txd) 0 0 with
    | inl r => r
    | inr (times_seen_cj_addr, times_seen_change_addr) =>
        if negb (Z.eqb times_seen_cj_addr 1)
           || negb (Z.eqb times_seen_change_addr 1) then
          (false,
           Some ("cj or change addr not in tx outputs once, #cjaddr="
                 ++ str times_seen_cj_addr ++ ", #chaddr="
                 ++ str times_seen_change_addr))
        else (true, None)
    end.

(** Whether an output pays to the script of address [a]. *)
Definition pays_to (a : string) (o : txout) : bool :=
  String.eqb (out_script o) (address_to_script a).

End VerifyUnsignedTx.

(** The opened commitment, as [PoDLE.deserialize_revelation] returns it. *)
Record revelation : Type := {
  rev_utxo : string;
  rev_P : string;
  rev_P2 : string;
  rev_sig : string;
  rev_e : string
}.

(** What [on_auth_received] consults outside the Maker: the POLICY
    section of the configuration, the PoDLE module, the blockchain
    interface, the wallet (of type [W]), [jmbitcoin], and the subclass
    hook [oid_to_order]. *)
Class World (W : Type) : Type := {
  taker_utxo_retries : Z;
  taker_utxo_age : Z;
  taker_utxo_amtpercent : Z;
  deserialize_revelation : string -> res revelation;
  verify_podle : string -> string -> string -> string -> string -> Z -> bool;
  query_utxo_set : list string -> bool -> list (option utxo_record);
  unhexlify : string -> res string;
  pubkey_has_script : W -> string -> string -> res bool;
  oid_to_order : W -> offer -> Z -> dict string wallet_utxo * string * string;
  update_cache_index : W -> W;
  get_key_from_addr : W -> string -> string;
  privtopub : string -> string;
  ecdsa_sign : string -> string -> string
}.

(** [(False,)], or [(True, utxos, auth_pub, cj_addr, change_addr,
    btc_sig)]. *)
Inductive auth_result : Type :=
| AuthRejected
| AuthAccepted (utxos : dict string wallet_utxo)
    (auth_pub cj_addr change_addr btc_sig : string).

Section OnAuthReceived.
Context {W : Type} {MW : World W}.

(** [int(amount * getint("POLICY", "taker_utxo_amtpercent") / 100.0)]. *)
Definition reqd_amt (amount : Z) : res Z :=
  Float.int_div_100 (amount * taker_utxo_amtpercent).

(** The [try] block around [pubkey_has_script]: [true] when the pubkey
    matches, [false] when [EngineError] was raised or caught. *)
Definition podle_pubkey_ok (w : W) (P script : string) : res bool :=
  match unhexlify P with
  | Raise EngineError => Ok false
  | Raise e => Raise e
  | Ok Pbin =>
      match unhexlify script with
      | Raise EngineError => Ok false
      | Raise e => Raise e
      | Ok sbin =>
          match pubkey_has_script w Pbin sbin with
          | Raise EngineError => Ok false
          | Raise e => Raise e
          | Ok b => Ok b
          end
      end
  end.

(** The part of [on_auth_received] after the taker is authorised. *)
Definition fill_order (w : W) (o : offer) (amount : Z) (kphex : string)
    : res auth_result * W :=
  let '(utxos, cj_addr, change_addr) := oid_to_order w o amount in
  match utxos with
  | [] => (Ok AuthRejected, w)
  | (_, first) :: _ =>
      let w' := update_cache_index w in
      let auth_address := address first in
      let auth_key := get_key_from_addr w' auth_address in
      let auth_pub := privtopub auth_key in
      let btc_sig := ecdsa_sign kphex auth_key in
      (Ok (AuthAccepted utxos auth_pub cj_addr change_addr btc_sig), w')
  end.

Definition on_auth_received (w : W) (nick : string) (o : offer)
    (commitment cr : string) (amount : Z) (kphex : string)
    : res auth_result * W :=
  let tries := taker_utxo_retries in
  let reject := (Ok AuthRejected, w) in
  match deserialize_revelation cr with
  | Raise (PoDLEError _) => reject
  | Raise e => (Raise e, w)
  | Ok cr_dict =>
      if negb (verify_podle (rev_P cr_dict) (rev_P2 cr_dict)
                 (rev_sig cr_dict) (rev_e cr_dict) commitment tries)
      then reject
      else
        match query_utxo_set [rev_utxo cr_dict] true with
        | [Some r] =>
            let age := taker_utxo_age in
            if u_confirms r <? age then reject
            else
              match reqd_amt amount with
              | Raise e => (Raise e, w)
              | Ok reqd =>
                  if u_value r <? reqd then reject
                  else
                    match podle_pubkey_ok w (rev_P cr_dict) (u_script r) with
                    | Raise e => (Raise e, w)
                    | Ok false => reject
                    | Ok true => fill_order w o amount kphex
                    end
              end
        | _ => reject
        end
  end.

End OnAuthReceived.

(** What [on_tx_received] consults besides: [btc.deserialize] (on the
    hex text and on the bytes), [repr], the wallet's [addr_to_script] and
    [sign_tx], [jmbitcoin]'s script helpers and [base64.b64encode].
    [SerializationError] and [SerializationTruncationError] are the
    values [OtherError "SerializationError"] and
    [OtherError "SerializationTruncationError"]. *)
Class Signer (W : Type) : Type := {
  deserialize : string -> res txdict;
  repr : exn -> string;
  addr_to_script : W -> string -> string;
  sign_tx : W -> txdict -> dict nat (string * Z) -> res txdict;
  pubkey_to_p2wpkh_script : string -> string;
  serialize_script_unit : string -> string;
  b64encode : string -> string
}.

(** [(False, errmsg)] or [(True, sigs)]. *)
Inductive tx_result : Type :=
| TxRejected (errmsg : option string)
| TxSigned (sigs : list string).

Section OnTxReceived.
Context {L : MakerLib} {W : Type} {MW : World W} {SW : Signer W}.

(** The exceptions that the [try] around [btc.deserialize(txhex)]
    catches. *)
Definition malformed (e : exn) : bool :=
  match e with
  | IndexError => true
  | OtherError m =>
      String.eqb m "SerializationError"
      || String.eqb m "SerializationTruncationError"
  | _ => false
  end.

(** The loop that fills [our_inputs]: the index of every input whose
    outpoint is a key of [utxos], with its script and amount. *)
Definition our_inputs (w : W) (utxos : dict string wallet_utxo)
    (tx : txdict) : dict nat (string * Z) :=
  flat_map (fun '(idx, i) =>
              match get (utxo_key i) utxos with
              | None => []
              | Some u => [(idx, (addr_to_script w (address u), value u))]
              end)
    (enumerate (ins tx)).

(** The signature message for input [index] of the signed transaction:
    the script, or for an input with a witness of two items or more the
    witness followed by the witness program. *)
Definition sigmsg_of (txs : txdict) (index : nat) : res string :=
  match nth_error (ins txs) index with
  | None => Raise IndexError
  | Some i =>
      rbind (unhexlify (in_script i))
        (fun sigmsg =>
           match in_witness i with
           | None => Ok sigmsg
           | Some witness =>
               match nth_error witness 1 with
               | None => Ok sigmsg
               | Some pub =>
                   let scriptSig := pubkey_to_p2wpkh_script pub in
                   Ok (String.concat ""
                         (map serialize_script_unit
                            (witness ++ [scriptSig])%list))
               end
           end)
  end.

(** [for index in our_inputs: ... sigs.append(...)]. *)
Fixpoint collect_sigs (txs : txdict) (indices : list nat)
    (sigs : list string) : res (list string) :=
  match indices with
  | [] => Ok sigs
  | index :: rest =>
      rbind (sigmsg_of txs index)
        (fun sigmsg =>
           collect_sigs txs rest (sigs ++ [b64encode sigmsg])%list)
  end.

Definition on_tx_received (w : W) (nick txhex : string) (oi : offerinfo)
    : res tx_result :=
  match deserialize txhex with
  | Raise e =>
      if malformed e then
        Ok (TxRejected (Some ("malformed txhex. " ++ repr e)))
      else Raise e
  | Ok tx =>
      let '(goodtx, errmsg) := verify_unsigned_tx tx oi in
      if negb goodtx then Ok (TxRejected errmsg)
      else
        let inputs := our_inputs w (oi_utxos oi) tx in
        rbind (unhexlify txhex)
          (fun raw =>
             rbind (deserialize raw)
               (fun tx_bin =>
                  rbind (sign_tx w tx_bin inputs)
                    (fun txs =>
                       rbind (collect_sigs txs (keys inputs) [])
                         (fun sigs => Ok (TxSigned sigs)))))
  end.

End OnTxReceived.

(** The attributes of a [Maker] object; [sync_wait_loop] is whether the
    polling loop is running, and [offerlist] is [None] until the offers
    are created. *)
Record maker (W : Type) : Type := {
  active_orders : dict string offerinfo;
  wallet : W;
  nextoid : Z;
  offerlist : option (list offer);
  sync_wait_loop : bool;
  aborted : bool
}.
Arguments active_orders {W} m.
Arguments wallet {W} m.
Arguments nextoid {W} m.
Arguments offerlist {W} m.
Arguments sync_wait_loop {W} m.
Arguments aborted {W} m.

Definition set_offerlist {W} (v : option (list offer)) (s : maker W)
    : maker W :=
  {| active_orders := active_orders s; wallet := wallet s;
     nextoid := nextoid s; offerlist := v;
     sync_wait_loop := sync_wait_loop s; aborted := aborted s |}.

Definition ordertype_eqb (a b : ordertype) : bool :=
  match a, b with
  | reloffer, reloffer | absoffer, absoffer
  | swreloffer, swreloffer | swabsoffer, swabsoffer => true
  | _, _ => false
  end.

(** [a == b] for two offers: the same value under every key. *)
Definition offer_eqb (a b : offer) : bool :=
  (oid a =? oid b) && ordertype_eqb (otype a) (otype b)
  && (minsize a =? minsize b) && (maxsize a =? maxsize b)
  && (txfee a =? txfee b) && Qeq_bool (cjfee a) (cjfee b)
  && String.eqb (counterparty a) (counterparty b).

Definition offer_Key : Key offer := {| keqb := offer_eqb |}.

Section ModifyOrders.
Context {W : Type}.

(** [[o for o in self.offerlist if o['oid'] == oid]]; iterating [None]
    is a [TypeError]. *)
Definition orders_with (oid0 : Z) : M (maker W) (list offer) :=
  s <- get_state ;;
  match offerlist s with
  | None => raise TypeError
  | Some l => ret (filter (fun o => oid o =? oid0) l)
  end.

(** [self.offerlist.remove(o)]. *)
Definition remove_offer (o : offer) : M (maker W) unit :=
  s <- get_state ;;
  match offerlist s with
  | None => raise (OtherError "AttributeError: remove")
  | Some l =>
      match @list_remove offer offer_Key o l with
      | Some l' => modify (set_offerlist (Some l'))
      | None => raise (ValueError "list.remove(x): x not in list")
      end
  end.

(** The body of the loop over [to_cancel]: [order[0]] is an
    [IndexError] when no offer has the oid. *)
Definition cancel_order (oid0 : Z) : M (maker W) unit :=
  order <- orders_with oid0 ;;
  match order with
  | [] => raise IndexError
  | o :: _ => remove_offer o
  end.

(** The body of the loop over [to_announce]. *)
Definition replace_order (ann : offer) : M (maker W) unit :=
  oldorder_s <- orders_with (oid ann) ;;
  match oldorder_s with
  | [] => ret tt
  | o :: _ => remove_offer o
  end.

Definition modify_orders (to_cancel : list Z) (to_announce : list offer)
    : M (maker W) unit :=
  for_each to_cancel cancel_order ;;;
  match to_announce with
  | [] => ret tt
  | _ =>
      for_each to_announce replace_order ;;;
      s <- get_state ;;
      match offerlist s with
      | None => raise TypeError
      | Some l => modify (set_offerlist (Some (l ++ to_announce)%list))
      end
  end.

End ModifyOrders.

End Maker.

(** ** The Taker *)

Module Taker.

(** A schedule amount: satoshis, or a fraction of the mixdepth balance. *)
Inductive amount_t : Type :=
| AmtInt (n : Z)
| AmtFloat (f : Float.float).

(** A schedule entry [(mixdepth, cjamount, n_counterparties, destination,
    waittime, ...)]. *)
Record schedule_entry : Type := {
  se_mixdepth : Z;
  se_amount : amount_t;
  se_makercount : Z;
  se_destaddr : string;
  se_waittime : Float.float;
  se_completed : Z
}.

(** Python values, as far as schedule entries and the replies of the
    entry points contain them; [POpaque] stands for an object that is not
    modelled further (an orderbook, a serialized transaction).  [==]
    between them is [py_eqb]; a [bool] compares as the int it is. *)
Inductive pyval : Type :=
| PNone
| PBool (b : bool)
| PInt (n : Z)
| PFloat (f : Float.float)
| PStr (s : string)
| PList (l : list pyval)
| PTuple (l : list pyval)
| POpaque.

(** [n == f] for an int and a float: exact comparison of the values. *)
Definition int_eq_float (n : Z) (f : Float.float) : bool :=
  match f with
  | S754_zero _ => n =? 0
  | S754_finite sg m e =>
      let v := if sg then Zneg m else Zpos m in
      match e with
      | Zneg p => n * Z.pow 2 (Zpos p) =? v
      | _ => n =? v * Z.pow 2 e
      end
  | _ => false
  end.

Definition int_of_bool (b : bool) : Z := if b then 1 else 0.

Fixpoint py_eqb (a b : pyval) : bool :=
  match a, b with
  | PNone, PNone => true
  | PBool x, PBool y => Bool.eqb x y
  | PBool x, PInt y => int_of_bool x =? y
  | PInt x, PBool y => x =? int_of_bool y
  | PBool x, PFloat f => int_eq_float (int_of_bool x) f
  | PFloat f, PBool x => int_eq_float (int_of_bool x) f
  | PInt x, PInt y => x =? y
  | PInt x, PFloat f => int_eq_float x f
  | PFloat f, PInt x => int_eq_float x f
  | PFloat f, PFloat g => SFeqb f g
  | PStr x, PStr y => String.eqb x y
  | PList l, PList m =>
      (fix all2 (l m : list pyval) : bool :=
         match l, m with
         | [], [] => true
         | x :: l', y :: m' => py_eqb x y && all2 l' m'
         | _, _ => false
         end) l m
  | PTuple l, PTuple m =>
      (fix all2 (l m : list pyval) : bool :=
         match l, m with
         | [], [] => true
         | x :: l', y :: m' => py_eqb x y && all2 l' m'
         | _, _ => false
         end) l m
  | _, _ => false
  end.

Definition py_of_amount (a : amount_t) : pyval :=
  match a with
  | AmtInt n => PInt n
  | AmtFloat f => PFloat f
  end.

(** A schedule entry as the Python list it is. *)
Definition py_of_entry (e : schedule_entry) : pyval :=
  PList [PInt (se_mixdepth e); py_of_amount (se_amount e);
         PInt (se_makercount e); PStr (se_destaddr e);
         PFloat (se_waittime e); PInt (se_completed e)].

(** An entry of [self.outputs]. *)
Record output : Type := { o_address : string; o_value : Z }.

(** [self.orderbook]: unset, the offer list kept for a sweep, or the
    chosen offers by counterparty. *)
Inductive orderbook_t : Type :=
| ObNone
| ObList (l : list offer)
| ObDict (d : dict string offer).

(** What the Taker tells the outside: the two callbacks, address imports,
    notification requests, the debug file, and log lines (log text that
    pretty-prints whole structures is cut at its fixed part). *)
Inductive event : Type :=
| TakerInfo (kind msg : string)
| OnFinished (result : bool) (fromtx : option string)
| ImportAddresses (addrs : list string)
| AddTxNotify (tx : txdict) (notify_addr : string)
| WriteFile (name contents : string)
| Log (level msg : string).

(** The attributes of a [Taker] object.  Attributes that [__init__] does
    not create ([mixdepth], [cjamount], ...) start from a default. *)
Record taker (W : Type) : Type := {
  aborted : bool;
  wallet : W;
  schedule : list schedule_entry;
  ignored_makers : list string;
  honest_makers : list string;
  honest_only : bool;
  nonrespondants : list string;
  waiting_for_conf : bool;
  txid : option string;
  schedule_index : Z;
  utxos : dict (option string) (list string);
  mixdepth : Z;
  cjamount : Z;
  mixdepthbal : option Z;
  n_counterparties : Z;
  my_cj_addr : string;
  outputs : list output;
  cjfee_total : Z;
  maker_txfee_contributions : Z;
  txfee_default : Z;
  latest_tx : option txdict;
  orderbook : orderbook_t;
  total_cj_fee : Z;
  my_change_addr : option string;
  total_txfee : Z;
  input_utxos : dict string wallet_utxo;
  maker_utxo_data : dict string (list utxo_record);
  utxo_tx : list string;
  trace : list event
}.

Definition set_aborted {W} (v : bool) (s : taker W) : taker W :=
  {| aborted := v; wallet := wallet s; schedule := schedule s;
     ignored_makers := ignored_makers s; honest_makers := honest_makers s;
     honest_only := honest_only s; nonrespondants := nonrespondants s;
     waiting_for_conf := waiting_for_conf s; txid := txid s;
     schedule_index := schedule_index s; utxos := utxos s; mixdepth :=
     mixdepth s; cjamount := cjamount s; mixdepthbal := mixdepthbal s;
     n_counterparties := n_counterparties s; my_cj_addr := my_cj_addr s;
     outputs := outputs s; cjfee_total := cjfee_total s;
     maker_txfee_contributions := maker_txfee_contributions s;
     txfee_default := txfee_default s; latest_tx := latest_tx s; orderbook
     := orderbook s; total_cj_fee := total_cj_fee s; my_change_addr :=
     my_change_addr s; total_txfee := total_txfee s; input_utxos :=
     input_utxos s; maker_utxo_data := maker_utxo_data s; utxo_tx :=
     utxo_tx s; trace := trace s |}.

Definition set_wallet {W} (v : W) (s : taker W) : taker W :=
  {| aborted := aborted s; wallet := v; schedule := schedule s;
     ignored_makers := ignored_makers s; honest_makers := honest_makers s;
     honest_only := honest_only s; nonrespondants := nonrespondants s;
     waiting_for_conf := waiting_for_conf s; txid := txid s;
     schedule_index := schedule_index s; utxos := utxos s; mixdepth :=
     mixdepth s; cjamount := cjamount s; mixdepthbal := mixdepthbal s;
     n_counterparties := n_counterparties s; my_cj_addr := my_cj_addr s;
     outputs := outputs s; cjfee_total := cjfee_total s;
     maker_txfee_contributions := maker_txfee_contributions s;
     txfee_default := txfee_default s; latest_tx := latest_tx s; orderbook
     := orderbook s; total_cj_fee := total_cj_fee s; my_change_addr :=
     my_change_addr s; total_txfee := total_txfee s; input_utxos :=
     input_utxos s; maker_utxo_data := maker_utxo_data s; utxo_tx :=
     utxo_tx s; trace := trace s |}.

Definition set_schedule {W} (v : list schedule_entry) (s : taker W) : taker W :=
  {| aborted := aborted s; wallet := wallet s; schedule := v;
     ignored_makers := ignored_makers s; honest_makers := honest_makers s;
     honest_only := honest_only s; nonrespondants := nonrespondants s;
     waiting_for_conf := waiting_for_conf s; txid := txid s;
     schedule_index := schedule_index s; utxos := utxos s; mixdepth :=
     mixdepth s; cjamount := cjamount s; mixdepthbal := mixdepthbal s;
     n_counterparties := n_counterparties s; my_cj_addr := my_cj_addr s;
     outputs := outputs s; cjfee_total := cjfee_total s;
     maker_txfee_contributions := maker_txfee_contributions s;
     txfee_default := txfee_default s; latest_tx := latest_tx s; orderbook
     := orderbook s; total_cj_fee := total_cj_fee s; my_change_addr :=
     my_change_addr s; total_txfee := total_txfee s; input_utxos :=
     input_utxos s; maker_utxo_data := maker_utxo_data s; utxo_tx :=
     utxo_tx s; trace := trace s |}.

Definition set_ignored_makers {W} (v : list string) (s : taker W) : taker W :=
  {| aborted := aborted s; wallet := wallet s; schedule := schedule s;
     ignored_makers := v; honest_makers := honest_makers s; honest_only :=
     honest_only s; nonrespondants := nonrespondants s; waiting_for_conf
     := waiting_for_conf s; txid := txid s; schedule_index :=
     schedule_index s; utxos := utxos s; mixdepth := mixdepth s; cjamount
     := cjamount s; mixdepthbal := mixdepthbal s; n_counterparties :=
     n_counterparties s; my_cj_addr := my_cj_addr s; outputs := outputs s;
     cjfee_total := cjfee_total s; maker_txfee_contributions :=
     maker_txfee_contributions s; txfee_default := txfee_default s;
     latest_tx := latest_tx s; orderbook := orderbook s; total_cj_fee :=
     total_cj_fee s; my_change_addr := my_change_addr s; total_txfee :=
     total_txfee s; input_utxos := input_utxos s; maker_utxo_data :=
     maker_utxo_data s; utxo_tx := utxo_tx s; trace := trace s |}.

Definition set_honest_makers {W} (v : list string) (s : taker W) : taker W :=
  {| aborted := aborted s; wallet := wallet s; schedule := schedule s;
     ignored_makers := ignored_makers s; honest_makers := v; honest_only
     := honest_only s; nonrespondants := nonrespondants s;
     waiting_for_conf := waiting_for_conf s; txid := txid s;
     schedule_index := schedule_index s; utxos := utxos s; mixdepth :=
     mixdepth s; cjamount := cjamount s; mixdepthbal := mixdepthbal s;
     n_counterparties := n_counterparties s; my_cj_addr := my_cj_addr s;
     outputs := outputs s; cjfee_total := cjfee_total s;
     maker_txfee_contributions := maker_txfee_contributions s;
     txfee_default := txfee_default s; latest_tx := latest_tx s; orderbook
     := orderbook s; total_cj_fee := total_cj_fee s; my_change_addr :=
     my_change_addr s; total_txfee := total_txfee s; input_utxos :=
     input_utxos s; maker_utxo_data := maker_utxo_data s; utxo_tx :=
     utxo_tx s; trace := trace s |}.

Definition set_honest_only {W} (v : bool) (s : taker W) : taker W :=
  {| aborted := aborted s; wallet := wallet s; schedule := schedule s;
     ignored_makers := ignored_makers s; honest_makers := honest_makers s;
     honest_only := v; nonrespondants := nonrespondants s;
     waiting_for_conf := waiting_for_conf s; txid := txid s;
     schedule_index := schedule_index s; utxos := utxos s; mixdepth :=
     mixdepth s; cjamount := cjamount s; mixdepthbal := mixdepthbal s;
     n_counterparties := n_counterparties s; my_cj_addr := my_cj_addr s;
     outputs := outputs s; cjfee_total := cjfee_total s;
     maker_txfee_contributions := maker_txfee_contributions s;
     txfee_default := txfee_default s; latest_tx := latest_tx s; orderbook
     := orderbook s; total_cj_fee := total_cj_fee s; my_change_addr :=
     my_change_addr s; total_txfee := total_txfee s; input_utxos :=
     input_utxos s; maker_utxo_data := maker_utxo_data s; utxo_tx :=
     utxo_tx s; trace := trace s |}.

Definition set_nonrespondants {W} (v : list string) (s : taker W) : taker W :=
  {| aborted := aborted s; wallet := wallet s; schedule := schedule s;
     ignored_makers := ignored_makers s; honest_makers := honest_makers s;
     honest_only := honest_only s; nonrespondants := v; waiting_for_conf
     := waiting_for_conf s; txid := txid s; schedule_index :=
     schedule_index s; utxos := utxos s; mixdepth := mixdepth s; cjamount
     := cjamount s; mixdepthbal := mixdepthbal s; n_counterparties :=
     n_counterparties s; my_cj_addr := my_cj_addr s; outputs := outputs s;
     cjfee_total := cjfee_total s; maker_txfee_contributions :=
     maker_txfee_contributions s; txfee_default := txfee_default s;
     latest_tx := latest_tx s; orderbook := orderbook s; total_cj_fee :=
     total_cj_fee s; my_change_addr := my_change_addr s; total_txfee :=
     total_txfee s; input_utxos := input_utxos s; maker_utxo_data :=
     maker_utxo_data s; utxo_tx := utxo_tx s; trace := trace s |}.

Definition set_waiting_for_conf {W} (v : bool) (s : taker W) : taker W :=
  {| aborted := aborted s; wallet := wallet s; schedule := schedule s;
     ignored_makers := ignored_makers s; honest_makers := honest_makers s;
     honest_only := honest_only s; nonrespondants := nonrespondants s;
     waiting_for_conf := v; txid := txid s; schedule_index :=
     schedule_index s; utxos := utxos s; mixdepth := mixdepth s; cjamount
     := cjamount s; mixdepthbal := mixdepthbal s; n_counterparties :=
     n_counterparties s; my_cj_addr := my_cj_addr s; outputs := outputs s;
     cjfee_total := cjfee_total s; maker_txfee_contributions :=
     maker_txfee_contributions s; txfee_default := txfee_default s;
     latest_tx := latest_tx s; orderbook := orderbook s; total_cj_fee :=
     total_cj_fee s; my_change_addr := my_change_addr s; total_txfee :=
     total_txfee s; input_utxos := input_utxos s; maker_utxo_data :=
     maker_utxo_data s; utxo_tx := utxo_tx s; trace := trace s |}.

Definition set_txid {W} (v : option string) (s : taker W) : taker W :=
  {| aborted := aborted s; wallet := wallet s; schedule := schedule s;
     ignored_makers := ignored_makers s; honest_makers := honest_makers s;
     honest_only := honest_only s; nonrespondants := nonrespondants s;
     waiting_for_conf := waiting_for_conf s; txid := v; schedule_index :=
     schedule_index s; utxos := utxos s; mixdepth := mixdepth s; cjamount
     := cjamount s; mixdepthbal := mixdepthbal s; n_counterparties :=
     n_counterparties s; my_cj_addr := my_cj_addr s; outputs := outputs s;
     cjfee_total := cjfee_total s; maker_txfee_contributions :=
     maker_txfee_contributions s; txfee_default := txfee_default s;
     latest_tx := latest_tx s; orderbook := orderbook s; total_cj_fee :=
     total_cj_fee s; my_change_addr := my_change_addr s; total_txfee :=
     total_txfee s; input_utxos := input_utxos s; maker_utxo_data :=
     maker_utxo_data s; utxo_tx := utxo_tx s; trace := trace s |}.

Definition set_schedule_index {W} (v : Z) (s : taker W) : taker W :=
  {| aborted := aborted s; wallet := wallet s; schedule := schedule s;
     ignored_makers := ignored_makers s; honest_makers := honest_makers s;
     honest_only := honest_only s; nonrespondants := nonrespondants s;
     waiting_for_conf := waiting_for_conf s; txid := txid s;
     schedule_index := v; utxos := utxos s; mixdepth := mixdepth s;
     cjamount := cjamount s; mixdepthbal := mixdepthbal s;
     n_counterparties := n_counterparties s; my_cj_addr := my_cj_addr s;
     outputs := outputs s; cjfee_total := cjfee_total s;
     maker_txfee_contributions := maker_txfee_contributions s;
     txfee_default := txfee_default s; latest_tx := latest_tx s; orderbook
     := orderbook s; total_cj_fee := total_cj_fee s; my_change_addr :=
     my_change_addr s; total_txfee := total_txfee s; input_utxos :=
     input_utxos s; maker_utxo_data := maker_utxo_data s; utxo_tx :=
     utxo_tx s; trace := trace s |}.

Definition set_utxos {W} (v : dict (option string) (list string)) (s : taker W) : taker W :=
  {| aborted := aborted s; wallet := wallet s; schedule := schedule s;
     ignored_makers := ignored_makers s; honest_makers := honest_makers s;
     honest_only := honest_only s; nonrespondants := nonrespondants s;
     waiting_for_conf := waiting_for_conf s; txid := txid s;
     schedule_index := schedule_index s; utxos := v; mixdepth := mixdepth
     s; cjamount := cjamount s; mixdepthbal := mixdepthbal s;
     n_counterparties := n_counterparties s; my_cj_addr := my_cj_addr s;
     outputs := outputs s; cjfee_total := cjfee_total s;
     maker_txfee_contributions := maker_txfee_contributions s;
     txfee_default := txfee_default s; latest_tx := latest_tx s; orderbook
     := orderbook s; total_cj_fee := total_cj_fee s; my_change_addr :=
     my_change_addr s; total_txfee := total_txfee s; input_utxos :=
     input_utxos s; maker_utxo_data := maker_utxo_data s; utxo_tx :=
     utxo_tx s; trace := trace s |}.

Definition set_mixdepth {W} (v : Z) (s : taker W) : taker W :=
  {| aborted := aborted s; wallet := wallet s; schedule := schedule s;
     ignored_makers := ignored_makers s; honest_makers := honest_makers s;
     honest_only := honest_only s; nonrespondants := nonrespondants s;
     waiting_for_conf := waiting_for_conf s; txid := txid s;
     schedule_index := schedule_index s; utxos := utxos s; mixdepth := v;
     cjamount := cjamount s; mixdepthbal := mixdepthbal s;
     n_counterparties := n_counterparties s; my_cj_addr := my_cj_addr s;
     outputs := outputs s; cjfee_total := cjfee_total s;
     maker_txfee_contributions := maker_txfee_contributions s;
     txfee_default := txfee_default s; latest_tx := latest_tx s; orderbook
     := orderbook s; total_cj_fee := total_cj_fee s; my_change_addr :=
     my_change_addr s; total_txfee := total_txfee s; input_utxos :=
     input_utxos s; maker_utxo_data := maker_utxo_data s; utxo_tx :=
     utxo_tx s; trace := trace s |}.

Definition set_cjamount {W} (v : Z) (s : taker W) : taker W :=
  {| aborted := aborted s; wallet := wallet s; schedule := schedule s;
     ignored_makers := ignored_makers s; honest_makers := honest_makers s;
     honest_only := honest_only s; nonrespondants := nonrespondants s;
     waiting_for_conf := waiting_for_conf s; txid := txid s;
     schedule_index := schedule_index s; utxos := utxos s; mixdepth :=
     mixdepth s; cjamount := v; mixdepthbal := mixdepthbal s;
     n_counterparties := n_counterparties s; my_cj_addr := my_cj_addr s;
     outputs := outputs s; cjfee_total := cjfee_total s;
     maker_txfee_contributions := maker_txfee_contributions s;
     txfee_default := txfee_default s; latest_tx := latest_tx s; orderbook
     := orderbook s; total_cj_fee := total_cj_fee s; my_change_addr :=
     my_change_addr s; total_txfee := total_txfee s; input_utxos :=
     input_utxos s; maker_utxo_data := maker_utxo_data s; utxo_tx :=
     utxo_tx s; trace := trace s |}.

Definition set_mixdepthbal {W} (v : option Z) (s : taker W) : taker W :=
  {| aborted := aborted s; wallet := wallet s; schedule := schedule s;
     ignored_makers := ignored_makers s; honest_makers := honest_makers s;
     honest_only := honest_only s; nonrespondants := nonrespondants s;
     waiting_for_conf := waiting_for_conf s; txid := txid s;
     schedule_index := schedule_index s; utxos := utxos s; mixdepth :=
     mixdepth s; cjamount := cjamount s; mixdepthbal := v;
     n_counterparties := n_counterparties s; my_cj_addr := my_cj_addr s;
     outputs := outputs s; cjfee_total := cjfee_total s;
     maker_txfee_contributions := maker_txfee_contributions s;
     txfee_default := txfee_default s; latest_tx := latest_tx s; orderbook
     := orderbook s; total_cj_fee := total_cj_fee s; my_change_addr :=
     my_change_addr s; total_txfee := total_txfee s; input_utxos :=
     input_utxos s; maker_utxo_data := maker_utxo_data s; utxo_tx :=
     utxo_tx s; trace := trace s |}.

Definition set_n_counterparties {W} (v : Z) (s : taker W) : taker W :=
  {| aborted := aborted s; wallet := wallet s; schedule := schedule s;
     ignored_makers := ignored_makers s; honest_makers := honest_makers s;
     honest_only := honest_only s; nonrespondants := nonrespondants s;
     waiting_for_conf := waiting_for_conf s; txid := txid s;
     schedule_index := schedule_index s; utxos := utxos s; mixdepth :=
     mixdepth s; cjamount := cjamount s; mixdepthbal := mixdepthbal s;
     n_counterparties := v; my_cj_addr := my_cj_addr s; outputs := outputs
     s; cjfee_total := cjfee_total s; maker_txfee_contributions :=
     maker_txfee_contributions s; txfee_default := txfee_default s;
     latest_tx := latest_tx s; orderbook := orderbook s; total_cj_fee :=
     total_cj_fee s; my_change_addr := my_change_addr s; total_txfee :=
     total_txfee s; input_utxos := input_utxos s; maker_utxo_data :=
     maker_utxo_data s; utxo_tx := utxo_tx s; trace := trace s |}.

Definition set_my_cj_addr {W} (v : string) (s : taker W) : taker W :=
  {| aborted := aborted s; wallet := wallet s; schedule := schedule s;
     ignored_makers := ignored_makers s; honest_makers := honest_makers s;
     honest_only := honest_only s; nonrespondants := nonrespondants s;
     waiting_for_conf := waiting_for_conf s; txid := txid s;
     schedule_index := schedule_index s; utxos := utxos s; mixdepth :=
     mixdepth s; cjamount := cjamount s; mixdepthbal := mixdepthbal s;
     n_counterparties := n_counterparties s; my_cj_addr := v; outputs :=
     outputs s; cjfee_total := cjfee_total s; maker_txfee_contributions :=
     maker_txfee_contributions s; txfee_default := txfee_default s;
     latest_tx := latest_tx s; orderbook := orderbook s; total_cj_fee :=
     total_cj_fee s; my_change_addr := my_change_addr s; total_txfee :=
     total_txfee s; input_utxos := input_utxos s; maker_utxo_data :=
     maker_utxo_data s; utxo_tx := utxo_tx s; trace := trace s |}.

Definition set_outputs {W} (v : list output) (s : taker W) : taker W :=
  {| aborted := aborted s; wallet := wallet s; schedule := schedule s;
     ignored_makers := ignored_makers s; honest_makers := honest_makers s;
     honest_only := honest_only s; nonrespondants := nonrespondants s;
     waiting_for_conf := waiting_for_conf s; txid := txid s;
     schedule_index := schedule_index s; utxos := utxos s; mixdepth :=
     mixdepth s; cjamount := cjamount s; mixdepthbal := mixdepthbal s;
     n_counterparties := n_counterparties s; my_cj_addr := my_cj_addr s;
     outputs := v; cjfee_total := cjfee_total s; maker_txfee_contributions
     := maker_txfee_contributions s; txfee_default := txfee_default s;
     latest_tx := latest_tx s; orderbook := orderbook s; total_cj_fee :=
     total_cj_fee s; my_change_addr := my_change_addr s; total_txfee :=
     total_txfee s; input_utxos := input_utxos s; maker_utxo_data :=
     maker_utxo_data s; utxo_tx := utxo_tx s; trace := trace s |}.

Definition set_cjfee_total {W} (v : Z) (s : taker W) : taker W :=
  {| aborted := aborted s; wallet := wallet s; schedule := schedule s;
     ignored_makers := ignored_makers s; honest_makers := honest_makers s;
     honest_only := honest_only s; nonrespondants := nonrespondants s;
     waiting_for_conf := waiting_for_conf s; txid := txid s;
     schedule_index := schedule_index s; utxos := utxos s; mixdepth :=
     mixdepth s; cjamount := cjamount s; mixdepthbal := mixdepthbal s;
     n_counterparties := n_counterparties s; my_cj_addr := my_cj_addr s;
     outputs := outputs s; cjfee_total := v; maker_txfee_contributions :=
     maker_txfee_contributions s; txfee_default := txfee_default s;
     latest_tx := latest_tx s; orderbook := orderbook s; total_cj_fee :=
     total_cj_fee s; my_change_addr := my_change_addr s; total_txfee :=
     total_txfee s; input_utxos := input_utxos s; maker_utxo_data :=
     maker_utxo_data s; utxo_tx := utxo_tx s; trace := trace s |}.

Definition set_maker_txfee_contributions {W} (v : Z) (s : taker W) : taker W :=
  {| aborted := aborted s; wallet := wallet s; schedule := schedule s;
     ignored_makers := ignored_makers s; honest_makers := honest_makers s;
     honest_only := honest_only s; nonrespondants := nonrespondants s;
     waiting_for_conf := waiting_for_conf s; txid := txid s;
     schedule_index := schedule_index s; utxos := utxos s; mixdepth :=
     mixdepth s; cjamount := cjamount s; mixdepthbal := mixdepthbal s;
     n_counterparties := n_counterparties s; my_cj_addr := my_cj_addr s;
     outputs := outputs s; cjfee_total := cjfee_total s;
     maker_txfee_contributions := v; txfee_default := txfee_default s;
     latest_tx := latest_tx s; orderbook := orderbook s; total_cj_fee :=
     total_cj_fee s; my_change_addr := my_change_addr s; total_txfee :=
     total_txfee s; input_utxos := input_utxos s; maker_utxo_data :=
     maker_utxo_data s; utxo_tx := utxo_tx s; trace := trace s |}.

Definition set_txfee_default {W} (v : Z) (s : taker W) : taker W :=
  {| aborted := aborted s; wallet := wallet s; schedule := schedule s;
     ignored_makers := ignored_makers s; honest_makers := honest_makers s;
     honest_only := honest_only s; nonrespondants := nonrespondants s;
     waiting_for_conf := waiting_for_conf s; txid := txid s;
     schedule_index := schedule_index s; utxos := utxos s; mixdepth :=
     mixdepth s; cjamount := cjamount s; mixdepthbal := mixdepthbal s;
     n_counterparties := n_counterparties s; my_cj_addr := my_cj_addr s;
     outputs := outputs s; cjfee_total := cjfee_total s;
     maker_txfee_contributions := maker_txfee_contributions s;
     txfee_default := v; latest_tx := latest_tx s; orderbook := orderbook
     s; total_cj_fee := total_cj_fee s; my_change_addr := my_change_addr
     s; total_txfee := total_txfee s; input_utxos := input_utxos s;
     maker_utxo_data := maker_utxo_data s; utxo_tx := utxo_tx s; trace :=
     trace s |}.

Definition set_latest_tx {W} (v : option txdict) (s : taker W) : taker W :=
  {| aborted := aborted s; wallet := wallet s; schedule := schedule s;
     ignored_makers := ignored_makers s; honest_makers := honest_makers s;
     honest_only := honest_only s; nonrespondants := nonrespondants s;
     waiting_for_conf := waiting_for_conf s; txid := txid s;
     schedule_index := schedule_index s; utxos := utxos s; mixdepth :=
     mixdepth s; cjamount := cjamount s; mixdepthbal := mixdepthbal s;
     n_counterparties := n_counterparties s; my_cj_addr := my_cj_addr s;
     outputs := outputs s; cjfee_total := cjfee_total s;
     maker_txfee_contributions := maker_txfee_contributions s;
     txfee_default := txfee_default s; latest_tx := v; orderbook :=
     orderbook s; total_cj_fee := total_cj_fee s; my_change_addr :=
     my_change_addr s; total_txfee := total_txfee s; input_utxos :=
     input_utxos s; maker_utxo_data := maker_utxo_data s; utxo_tx :=
     utxo_tx s; trace := trace s |}.

Definition set_orderbook {W} (v : orderbook_t) (s : taker W) : taker W :=
  {| aborted := aborted s; wallet := wallet s; schedule := schedule s;
     ignored_makers := ignored_makers s; honest_makers := honest_makers s;
     honest_only := honest_only s; nonrespondants := nonrespondants s;
     waiting_for_conf := waiting_for_conf s; txid := txid s;
     schedule_index := schedule_index s; utxos := utxos s; mixdepth :=
     mixdepth s; cjamount := cjamount s; mixdepthbal := mixdepthbal s;
     n_counterparties := n_counterparties s; my_cj_addr := my_cj_addr s;
     outputs := outputs s; cjfee_total := cjfee_total s;
     maker_txfee_contributions := maker_txfee_contributions s;
     txfee_default := txfee_default s; latest_tx := latest_tx s; orderbook
     := v; total_cj_fee := total_cj_fee s; my_change_addr :=
     my_change_addr s; total_txfee := total_txfee s; input_utxos :=
     input_utxos s; maker_utxo_data := maker_utxo_data s; utxo_tx :=
     utxo_tx s; trace := trace s |}.

Definition set_total_cj_fee {W} (v : Z) (s : taker W) : taker W :=
  {| aborted := aborted s; wallet := wallet s; schedule := schedule s;
     ignored_makers := ignored_makers s; honest_makers := honest_makers s;
     honest_only := honest_only s; nonrespondants := nonrespondants s;
     waiting_for_conf := waiting_for_conf s; txid := txid s;
     schedule_index := schedule_index s; utxos := utxos s; mixdepth :=
     mixdepth s; cjamount := cjamount s; mixdepthbal := mixdepthbal s;
     n_counterparties := n_counterparties s; my_cj_addr := my_cj_addr s;
     outputs := outputs s; cjfee_total := cjfee_total s;
     maker_txfee_contributions := maker_txfee_contributions s;
     txfee_default := txfee_default s; latest_tx := latest_tx s; orderbook
     := orderbook s; total_cj_fee := v; my_change_addr := my_change_addr
     s; total_txfee := total_txfee s; input_utxos := input_utxos s;
     maker_utxo_data := maker_utxo_data s; utxo_tx := utxo_tx s; trace :=
     trace s |}.

Definition set_my_change_addr {W} (v : option string) (s : taker W) : taker W :=
  {| aborted := aborted s; wallet := wallet s; schedule := schedule s;
     ignored_makers := ignored_makers s; honest_makers := honest_makers s;
     honest_only := honest_only s; nonrespondants := nonrespondants s;
     waiting_for_conf := waiting_for_conf s; txid := txid s;
     schedule_index := schedule_index s; utxos := utxos s; mixdepth :=
     mixdepth s; cjamount := cjamount s; mixdepthbal := mixdepthbal s;
     n_counterparties := n_counterparties s; my_cj_addr := my_cj_addr s;
     outputs := outputs s; cjfee_total := cjfee_total s;
     maker_txfee_contributions := maker_txfee_contributions s;
     txfee_default := txfee_default s; latest_tx := latest_tx s; orderbook
     := orderbook s; total_cj_fee := total_cj_fee s; my_change_addr := v;
     total_txfee := total_txfee s; input_utxos := input_utxos s;
     maker_utxo_data := maker_utxo_data s; utxo_tx := utxo_tx s; trace :=
     trace s |}.

Definition set_total_txfee {W} (v : Z) (s : taker W) : taker W :=
  {| aborted := aborted s; wallet := wallet s; schedule := schedule s;
     ignored_makers := ignored_makers s; honest_makers := honest_makers s;
     honest_only := honest_only s; nonrespondants := nonrespondants s;
     waiting_for_conf := waiting_for_conf s; txid := txid s;
     schedule_index := schedule_index s; utxos := utxos s; mixdepth :=
     mixdepth s; cjamount := cjamount s; mixdepthbal := mixdepthbal s;
     n_counterparties := n_counterparties s; my_cj_addr := my_cj_addr s;
     outputs := outputs s; cjfee_total := cjfee_total s;
     maker_txfee_contributions := maker_txfee_contributions s;
     txfee_default := txfee_default s; latest_tx := latest_tx s; orderbook
     := orderbook s; total_cj_fee := total_cj_fee s; my_change_addr :=
     my_change_addr s; total_txfee := v; input_utxos := input_utxos s;
     maker_utxo_data := maker_utxo_data s; utxo_tx := utxo_tx s; trace :=
     trace s |}.

Definition set_input_utxos {W} (v : dict string wallet_utxo) (s : taker W) : taker W :=
  {| aborted := aborted s; wallet := wallet s; schedule := schedule s;
     ignored_makers := ignored_makers s; honest_makers := honest_makers s;
     honest_only := honest_only s; nonrespondants := nonrespondants s;
     waiting_for_conf := waiting_for_conf s; txid := txid s;
     schedule_index := schedule_index s; utxos := utxos s; mixdepth :=
     mixdepth s; cjamount := cjamount s; mixdepthbal := mixdepthbal s;
     n_counterparties := n_counterparties s; my_cj_addr := my_cj_addr s;
     outputs := outputs s; cjfee_total := cjfee_total s;
     maker_txfee_contributions := maker_txfee_contributions s;
     txfee_default := txfee_default s; latest_tx := latest_tx s; orderbook
     := orderbook s; total_cj_fee := total_cj_fee s; my_change_addr :=
     my_change_addr s; total_txfee := total_txfee s; input_utxos := v;
     maker_utxo_data := maker_utxo_data s; utxo_tx := utxo_tx s; trace :=
     trace s |}.

Definition set_maker_utxo_data {W} (v : dict string (list utxo_record)) (s : taker W) : taker W :=
  {| aborted := aborted s; wallet := wallet s; schedule := schedule s;
     ignored_makers := ignored_makers s; honest_makers := honest_makers s;
     honest_only := honest_only s; nonrespondants := nonrespondants s;
     waiting_for_conf := waiting_for_conf s; txid := txid s;
     schedule_index := schedule_index s; utxos := utxos s; mixdepth :=
     mixdepth s; cjamount := cjamount s; mixdepthbal := mixdepthbal s;
     n_counterparties := n_counterparties s; my_cj_addr := my_cj_addr s;
     outputs := outputs s; cjfee_total := cjfee_total s;
     maker_txfee_contributions := maker_txfee_contributions s;
     txfee_default := txfee_default s; latest_tx := latest_tx s; orderbook
     := orderbook s; total_cj_fee := total_cj_fee s; my_change_addr :=
     my_change_addr s; total_txfee := total_txfee s; input_utxos :=
     input_utxos s; maker_utxo_data := v; utxo_tx := utxo_tx s; trace :=
     trace s |}.

Definition set_utxo_tx {W} (v : list string) (s : taker W) : taker W :=
  {| aborted := aborted s; wallet := wallet s; schedule := schedule s;
     ignored_makers := ignored_makers s; honest_makers := honest_makers s;
     honest_only := honest_only s; nonrespondants := nonrespondants s;
     waiting_for_conf := waiting_for_conf s; txid := txid s;
     schedule_index := schedule_index s; utxos := utxos s; mixdepth :=
     mixdepth s; cjamount := cjamount s; mixdepthbal := mixdepthbal s;
     n_counterparties := n_counterparties s; my_cj_addr := my_cj_addr s;
     outputs := outputs s; cjfee_total := cjfee_total s;
     maker_txfee_contributions := maker_txfee_contributions s;
     txfee_default := txfee_default s; latest_tx := latest_tx s; orderbook
     := orderbook s; total_cj_fee := total_cj_fee s; my_change_addr :=
     my_change_addr s; total_txfee := total_txfee s; input_utxos :=
     input_utxos s; maker_utxo_data := maker_utxo_data s; utxo_tx := v;
     trace := trace s |}.

Definition set_trace {W} (v : list event) (s : taker W) : taker W :=
  {| aborted := aborted s; wallet := wallet s; schedule := schedule s;
     ignored_makers := ignored_makers s; honest_makers := honest_makers s;
     honest_only := honest_only s; nonrespondants := nonrespondants s;
     waiting_for_conf := waiting_for_conf s; txid := txid s;
     schedule_index := schedule_index s; utxos := utxos s; mixdepth :=
     mixdepth s; cjamount := cjamount s; mixdepthbal := mixdepthbal s;
     n_counterparties := n_counterparties s; my_cj_addr := my_cj_addr s;
     outputs := outputs s; cjfee_total := cjfee_total s;
     maker_txfee_contributions := maker_txfee_contributions s;
     txfee_default := txfee_default s; latest_tx := latest_tx s; orderbook
     := orderbook s; total_cj_fee := total_cj_fee s; my_change_addr :=
     my_change_addr s; total_txfee := total_txfee s; input_utxos :=
     input_utxos s; maker_utxo_data := maker_utxo_data s; utxo_tx :=
     utxo_tx s; trace := v |}.

Record podle_data : Type := {
  pd_utxo : string;
  pd_P : string;
  pd_P2 : string;
  pd_sig : string;
  pd_e : string;
  pd_commit : string
}.

(** The answer of [filter_orders_callback]: [True], [False] or
    ['retry']. *)
Inductive cb_answer : Type := CbTrue | CbFalse | CbRetry.

(** An item of a deserialized script: an int, [None], or a hex string. *)
Inductive script_item : Type :=
| SInt (n : Z)
| SNone
| SHex (s : string).

(** What the Taker consults outside itself.  [W] is the wallet and [H]
    the serialized form of a transaction.  The functions stand for one
    run of the entry point: the configuration, the wallet and blockchain
    interfaces, the order choosers of [jmclient.support] (closed over
    [order_chooser] and [max_cj_fee]), the PoDLE module, [jmbitcoin],
    Python's [binascii], [base64] and [random], and the client's
    [filter_orders_callback]. *)
Class World (W H : Type) : Type := {
  mincjamount : Z;
  DUST_THRESHOLD : Z;
  BITCOIN_DUST_THRESHOLD : Z;
  minimum_makers : Z;
  policy_segwit : string;
  tx_broadcast : string;
  taker_utxo_retries : Z;
  taker_utxo_age : Z;
  taker_utxo_amtpercent : Z;
  get_balance_by_mixdepth : W -> dict Z Z;
  wallet_mixdepth : W -> Z;
  get_internal_addr : W -> Z -> res (string * W);
  select_utxos : W -> Z -> Z -> res (dict string wallet_utxo);
  get_utxos_by_mixdepth : W -> dict Z (dict string wallet_utxo);
  get_utxos_by_mixdepth_ : W -> dict Z (dict string wallet_utxo);
  get_txtype : W -> string;
  pubkey_has_script : W -> string -> string -> res bool;
  addr_to_script : W -> string -> string;
  get_key_from_addr : W -> string -> option string;
  sign_tx : W -> txdict -> dict nat (string * Z) -> res txdict;
  query_utxo_set : list string -> bool -> list (option utxo_record);
  has_import_addresses : bool;
  has_get_wallet_name : bool;
  pushtx : H -> bool;
  validate_address : string -> bool;
  calc_cj_fee : ordertype -> Q -> Z -> Z;
  estimate_tx_fee : Z -> Z -> string -> Z;
  choose_orders :
    list offer -> Z -> Z -> list string -> list ordertype ->
    option (dict string offer) * Z;
  choose_sweep_orders :
    orderbook_t -> Z -> Z -> Z -> list string -> list ordertype ->
    option (dict string offer) * Z * Z;
  filter_orders_callback : option (dict string offer -> Z -> Z -> cb_answer);
  generate_podle :
    list (string * string) -> Z -> option (list string) -> option podle_data;
  get_podle_commitments : list string;
  serialize_revelation : podle_data -> string;
  generate_podle_error_string :
    list (string * string) -> list string -> list string -> Z ->
    string * string;
  ecdsa_verify : string -> string -> string -> res bool;
  mktx : list string -> list output -> res H;
  deserialize : H -> res txdict;
  serialize : txdict -> H;
  txhash : H -> string;
  deserialize_script : string -> res (list script_item);
  verify_tx_input :
    H -> nat -> string -> string -> string -> option string -> option Z ->
    bool;
  pubkey_to_p2pkh_script : string -> bool -> string;
  pubkey_to_p2wpkh_script : string -> string;
  serialize_script_unit : string -> string;
  is_segwit_native_script : string -> bool;
  address_to_script : string -> string;
  unhexlify : string -> res string;
  hexlify : string -> string;
  b64decode : string -> res string;
  shuffle_utxo_tx : list string -> list string;
  shuffle_outputs : list output -> list output;
  randrange : Z -> Z
}.

(** [(False,)], [("commitment-failure",)], or
    [(True, cjamount, commitment, revelation, orderbook)]. *)
Inductive init_result : Type :=
| InitFalse
| InitCommitmentFailure
| InitOk (cjamount : Z) (commitment revelation : string)
    (orderbook : orderbook_t).

(** [(False, msg)] or [(True, nicks, tx)]. *)
Inductive utxos_result (H : Type) : Type :=
| RuFalse (msg : string)
| RuOk (nicks : list string) (tx : H).
Arguments RuFalse {H} msg.
Arguments RuOk {H} nicks tx.

(** [False], [None], or the [(nick_to_use, tx)] that [push] returns. *)
Inductive sig_result (H : Type) : Type :=
| SigFalse
| SigNone
| SigPeer (nick : string) (tx : H).
Arguments SigFalse {H}.
Arguments SigNone {H}.
Arguments SigPeer {H} nick tx.

(** What [make_commitment] returns: [(commitment, revelation, msg)], or
    [(None, (priv_utxo_pairs, too_old, too_small), msg)]. *)
Inductive commitment_result : Type :=
| Committed (commitment revelation msg : string)
| NoCommitment (priv_utxo_pairs : list (string * string))
    (too_old too_small : list string) (msg : string).

(** A maker's answer in [ioauth_data]:
    [(utxo_list, auth_pub, cj_addr, change_addr, btc_sig, maker_pk)]. *)
Record nickdata : Type := {
  utxo_list : list string;
  auth_pub : string;
  cj_addr : string;
  change_addr : string;
  btc_sig : string;
  maker_pk : string
}.

Section Methods.
Context {W H : Type} {TW : World W H}.

Local Abbreviation T := (M (taker W)).

Definition emit (e : event) : T unit :=
  modify (fun s => set_trace (trace s ++ [e])%list s).

Definition jlog (level msg : string) : T unit := emit (Log level msg).

Definition taker_info_callback (kind msg : string) : T unit :=
  emit (TakerInfo kind msg).

Definition on_finished_callback (r : bool) (fromtx : option string)
    : T unit :=
  emit (OnFinished r fromtx).

Definition add_ignored_makers (makers : list string) : T unit :=
  modify (fun s => set_ignored_makers
                     (dedup (ignored_makers s ++ makers)%list) s).

Definition add_honest_makers (makers : list string) : T unit :=
  modify (fun s => set_honest_makers
                     (dedup (honest_makers s ++ makers)%list) s).

Definition set_honest_only_ (truefalse : bool) : T unit :=
  s <- get_state ;;
  if truefalse && (Z.of_nat (List.length (honest_makers s)) =? 0) then
    jlog "debug" "Attempt to set honest-only without any honest makers; ignored."
  else modify (set_honest_only truefalse).

Definition import_new_addresses (addr_list : list string) : T unit :=
  if negb has_import_addresses then ret tt
  else if negb has_get_wallet_name then raise AssertionError
  else emit (ImportAddresses addr_list).

(** [["reloffer", "absoffer"] if config.get("POLICY", "segwit") ==
    "false" else ["swreloffer", "swabsoffer"]]. *)
Definition allowed_types : list ordertype :=
  if String.eqb policy_segwit "false" then [reloffer; absoffer]
  else [swreloffer; swabsoffer].

Definition filter_orderbook (ob : list offer) (sweep : bool) : T bool :=
  s <- get_state ;;
  let ob :=
    if honest_only s then
      filter (fun o => mem (counterparty o) (honest_makers s)) ob
    else ob in
  if sweep then modify (set_orderbook (ObList ob)) ;;; ret true
  else
    let '(chosen, fee) :=
      choose_orders ob (cjamount s) (n_counterparties s) (ignored_makers s)
        allowed_types in
    modify (set_total_cj_fee fee) ;;;
    match chosen with
    | None => modify (set_orderbook ObNone) ;;; ret false
    | Some d =>
        modify (set_orderbook (ObDict d)) ;;;
        match filter_orders_callback with
        | None => ret true
        | Some cb =>
            match cb d fee (cjamount s) with
            | CbRetry => ret false
            | CbFalse => ret false
            | CbTrue => ret true
            end
        end
    end.

(** [try: body except: handler], for a handler that catches everything. *)
Definition try_except {A} (body : T A) (handler : exn -> T A) : T A :=
  fun s =>
    match body s with
    | (Ok a, s') => (Ok a, s')
    | (Raise e, s') => handler e s'
    end.

(** The non-sweep branch of [prepare_my_bitcoin_data]. *)
Definition prepare_change_and_inputs : T bool :=
  got <- try_except
           (s <- get_state ;;
            r <- lift (get_internal_addr (wallet s) (mixdepth s)) ;;
            modify (fun s => set_my_change_addr (Some (fst r))
                               (set_wallet (snd r) s)) ;;;
            import_new_addresses [fst r] ;;;
            ret true)
           (fun _ =>
              taker_info_callback "ABORT" "Failed to get a change address" ;;;
              ret false) ;;
  if negb got then ret false
  else
    s <- get_state ;;
    let total_txfee := 2 * txfee_default s * n_counterparties s in
    modify (set_total_txfee total_txfee) ;;;
    let total_amount := cjamount s + total_cj_fee s + total_txfee in
    jlog "info" ("total estimated amount spent = " ++ str total_amount) ;;;
    match select_utxos (wallet s) (mixdepth s) total_amount with
    | Ok u => modify (set_input_utxos u) ;;; ret true
    | Raise _ =>
        taker_info_callback "ABORT" "Unable to select sufficient coins: " ;;;
        ret false
    end.

(** The sweep branch of [prepare_my_bitcoin_data]. *)
Definition prepare_sweep : T bool :=
  s <- get_state ;;
  match get (mixdepth s) (get_utxos_by_mixdepth (wallet s)) with
  | None => raise (KeyError (str (mixdepth s)))
  | Some u =>
      modify (set_input_utxos u) ;;;
      let n := n_counterparties s in
      let est_ins := Z.of_nat (List.length u) + 3 * n in
      jlog "debug" ("Estimated ins: " ++ str est_ins) ;;;
      let est_outs := 2 * n + 1 in
      jlog "debug" ("Estimated outs: " ++ str est_outs) ;;;
      let estimated_fee :=
        estimate_tx_fee est_ins est_outs (get_txtype (wallet s)) in
      jlog "debug" ("We have a fee estimate: " ++ str estimated_fee) ;;;
      jlog "debug" ("And a requested fee of: " ++ str (txfee_default s * n)) ;;;
      let total_txfee := Z.max estimated_fee (n * txfee_default s) in
      modify (set_total_txfee total_txfee) ;;;
      let total_value := sum (map value (values u)) in
      let '(chosen, cjamt, fee) :=
        choose_sweep_orders (orderbook s) total_value total_txfee n
          (ignored_makers s) allowed_types in
      modify (fun s => set_orderbook
                         (match chosen with
                          | Some d => ObDict d
                          | None => ObNone
                          end)
                         (set_cjamount cjamt (set_total_cj_fee fee s))) ;;;
      match chosen with
      | None | Some [] =>
          taker_info_callback "ABORT"
            "Could not find orders to complete transaction" ;;;
          ret false
      | Some d =>
          match filter_orders_callback with
          | None => ret true
          | Some cb =>
              match cb d fee cjamt with
              | CbFalse => ret false
              | _ => ret true
              end
          end
      end
  end.

Definition prepare_my_bitcoin_data : T bool :=
  s <- get_state ;;
  if String.eqb (my_cj_addr s) "" then raise NotImplementedError
  else
    modify (set_my_change_addr None) ;;;
    ok <- (if negb (cjamount s =? 0) then prepare_change_and_inputs
           else prepare_sweep) ;;
    if negb ok then ret false
    else
      modify (fun s => set_utxos [(None, keys (input_utxos s))] s) ;;;
      ret true.

(** [filter_by_coin_age_amt] of [make_commitment]: the loop over
    [enumerate(results)], reading [utxos[i]]. *)
Fixpoint filter_by_coin_age_amt_loop (utxos : list string)
    (results : list (nat * option utxo_record)) (age amt : Z)
    (acc : list string * list string * list string)
    : res (list string * list string * list string) :=
  match results with
  | [] => Ok acc
  | (_, None) :: rest => filter_by_coin_age_amt_loop utxos rest age amt acc
  | (i, Some r) :: rest =>
      let valid_age := age <=? u_confirms r in
      let valid_amt := amt <=? u_value r in
      if valid_age && valid_amt then
        match nth_error utxos i with
        | None => Raise IndexError
        | Some u =>
            let '(newresults, too_old, too_small) := acc in
            filter_by_coin_age_amt_loop utxos rest age amt
              ((newresults ++ [u])%list, too_old, too_small)
        end
      else
        match nth_error utxos i with
        | None => Raise IndexError
        | Some u =>
            let '(newresults, too_old, too_small) := acc in
            filter_by_coin_age_amt_loop utxos rest age amt
              (newresults,
               if valid_age then too_old else (too_old ++ [u])%list,
               if valid_amt then too_small else (too_small ++ [u])%list)
        end
  end.

Definition filter_by_coin_age_amt (utxos : list string) (age amt : Z)
    : res (list string * list string * list string) :=
  filter_by_coin_age_amt_loop utxos (enumerate (query_utxo_set utxos true))
    age amt ([], [], []).

(** [priv_utxo_pairs_from_utxos] of [make_commitment]. *)
Definition priv_utxo_pairs_from_utxos (w : W)
    (utxos : dict string wallet_utxo) (age amt : Z)
    : res (list (string * string) * list string * list string) :=
  rbind (filter_by_coin_age_amt (keys utxos) age amt)
    (fun '(new_utxos, too_old, too_small) =>
       let new_utxos_dict := filter (fun kv => mem (fst kv) new_utxos) utxos in
       let priv_utxo_pairs :=
         flat_map (fun kv =>
                     match get_key_from_addr w (address (snd kv)) with
                     | Some priv => [(priv, fst kv)]
                     | None => []
                     end) new_utxos_dict in
       Ok (priv_utxo_pairs, too_old, too_small)).

(** [utxos.update(mdutxo)] for each mixdepth of the wallet. *)
Definition all_wallet_utxos (w : W) : dict string wallet_utxo :=
  fold_left (fun acc mdutxo =>
               fold_left (fun acc kv => set (fst kv) (snd kv) acc) mdutxo acc)
    (values (get_utxos_by_mixdepth w)) [].

(** The second round of [make_commitment]: the whole wallet and the
    external commitments. *)
Definition second_round_podle (w : W)
    (first : list (string * string) * list string * list string)
    (tries age amt : Z)
    : res (option podle_data
           * (list (string * string) * list string * list string)) :=
  let any_utxos :=
    existsb (fun d => negb (Z.of_nat (List.length d) =? 0))
      (values (get_utxos_by_mixdepth_ w)) in
  rbind (if any_utxos then
           priv_utxo_pairs_from_utxos w (all_wallet_utxos w) age amt
         else Ok first)
    (fun cand =>
       let extdict := get_podle_commitments in
       rbind (match extdict with
              | [] => Ok None
              | _ =>
                  rbind (filter_by_coin_age_amt extdict age amt)
                    (fun r => Ok (Some (fst (fst r))))
              end)
         (fun ext_valid =>
            Ok (generate_podle (fst (fst cand)) tries ext_valid, cand))).

Definition make_commitment : T commitment_result :=
  s <- get_state ;;
  let tries := taker_utxo_retries in
  let age := taker_utxo_age in
  amt <- lift (Float.int_div_100 (cjamount s * taker_utxo_amtpercent)) ;;
  first <- lift (priv_utxo_pairs_from_utxos (wallet s) (input_utxos s)
                   age amt) ;;
  r <- lift (match generate_podle (fst (fst first)) tries None with
             | Some pd => Ok (Some pd, first)
             | None => second_round_podle (wallet s) first tries age amt
             end) ;;
  let '(podle, (priv_utxo_pairs, too_old, too_small)) := r in
  match podle with
  | Some pd =>
      jlog "debug" "Generated PoDLE: " ;;;
      ret (Committed ("P" ++ pd_commit pd) (serialize_revelation pd)
             "Commitment sourced OK")
  | None =>
      let '(errmsgheader, errmsg) :=
        generate_podle_error_string priv_utxo_pairs too_old too_small
          (cjamount s) in
      emit (WriteFile "commitments_debug.txt"
              ("THIS IS A TEMPORARY FILE FOR DEBUGGING; "
               ++ "IT CAN BE SAFELY DELETED ANY TIME." ++ newline
               ++ "***" ++ newline ++ errmsg)) ;;;
      ret (NoCommitment priv_utxo_pairs too_old too_small
             (errmsgheader ++ errmsg))
  end.

(** The float branch of [initialize]: the amount is a fraction of the
    mixdepth balance.  [cjamount] holds integers only: it is assigned
    when the fraction has been converted, so on a run that raises before
    that it is left as it was, where the code has stored the fraction. *)
Definition fraction_to_amount (si : schedule_entry) (f : Float.float)
    : T unit :=
  s <- get_state ;;
  prev_differs <-
    (if schedule_index s =? 0 then ret true
     else
       match item (schedule s) (schedule_index s - 1) with
       | None => raise IndexError
       | Some prev =>
           ret (negb (py_eqb (PInt (se_mixdepth si)) (py_of_entry prev)))
       end) ;;
  (if prev_differs : bool then
     match get (mixdepth s) (get_balance_by_mixdepth (wallet s)) with
     | None => raise (KeyError (str (mixdepth s)))
     | Some bal => modify (set_mixdepthbal (Some bal))
     end
   else ret tt) ;;;
  s <- get_state ;;
  match mixdepthbal s with
  | None => raise (OtherError "AttributeError: mixdepthbal")
  | Some bal =>
      n <- lift (Float.int_mul f bal) ;;
      modify (set_cjamount n) ;;;
      if n <? mincjamount then
        jlog "info" ("Coinjoin amount too low, bringing up to: "
                     ++ str mincjamount) ;;;
        modify (set_cjamount mincjamount)
      else ret tt
  end.

(** The [else] branch of [initialize] that reads the schedule entry. *)
Definition read_schedule_entry : T unit :=
  s <- get_state ;;
  match item (schedule s) (schedule_index s) with
  | None => raise IndexError
  | Some si =>
      modify (set_mixdepth (se_mixdepth si)) ;;;
      match se_amount si with
      | AmtInt n => modify (set_cjamount n)
      | AmtFloat f => fraction_to_amount si f
      end ;;;
      modify (set_n_counterparties (se_makercount si)) ;;;
      modify (set_my_cj_addr (se_destaddr si)) ;;;
      (if String.eqb (se_destaddr si) "INTERNAL" then
         s <- get_state ;;
         if wallet_mixdepth (wallet s) + 1 =? 0 then
           raise (OtherError "ZeroDivisionError")
         else
           let next_mixdepth :=
             (mixdepth s + 1) mod (wallet_mixdepth (wallet s) + 1) in
           jlog "info" ("Choosing a destination from mixdepth: "
                        ++ str next_mixdepth) ;;;
           r <- lift (get_internal_addr (wallet s) next_mixdepth) ;;
           modify (fun s => set_my_cj_addr (fst r) (set_wallet (snd r) s)) ;;;
           jlog "info" ("Chose destination address: " ++ fst r) ;;;
           import_new_addresses [fst r]
       else ret tt) ;;;
      modify (fun s =>
                set_txid None
                  (set_latest_tx None
                     (set_txfee_default 5000
                        (set_maker_txfee_contributions 0
                           (set_cjfee_total 0 (set_outputs [] s))))))
  end.

Definition initialize (ob : list offer) : T init_result :=
  s <- get_state ;;
  if aborted s then ret InitFalse
  else
    taker_info_callback "INFO" "Received offers from joinmarket pit" ;;;
    modify (fun s => set_schedule_index (schedule_index s + 1) s) ;;;
    s <- get_state ;;
    if schedule_index s =? Z.of_nat (List.length (schedule s)) then
      taker_info_callback "INFO" "Finished all scheduled transactions" ;;;
      on_finished_callback true None ;;;
      ret InitFalse
    else
      read_schedule_entry ;;;
      s <- get_state ;;
      let sweep := cjamount s =? 0 in
      ok <- filter_orderbook ob sweep ;;
      if negb ok then ret InitFalse
      else
        taker_info_callback "INFO" "Preparing bitcoin data.." ;;;
        ok <- prepare_my_bitcoin_data ;;
        if negb ok then ret InitFalse
        else
          c <- make_commitment ;;
          match c with
          | NoCommitment _ too_old _ errmsg =>
              if Z.of_nat (List.length too_old) =? 0 then
                taker_info_callback "ABORT" errmsg ;;;
                ret InitCommitmentFailure
              else
                taker_info_callback "INFO" errmsg ;;;
                ret InitFalse
          | Committed commitment revelation errmsg =>
              taker_info_callback "INFO" errmsg ;;;
              s <- get_state ;;
              match orderbook s with
              | ObDict d =>
                  modify (set_nonrespondants (keys d)) ;;;
                  ret (InitOk (cjamount s) commitment revelation
                         (orderbook s))
              | _ => raise (OtherError "AttributeError: keys")
              end
          end.

(** Whether [btc.ecdsa_verify(maker_pk, btc_sig, auth_pub)] returns
    [True]; an exception counts as a failure. *)
Definition ecdsa_ok (btc_sig auth_pub maker_pk : string) : bool :=
  match ecdsa_verify maker_pk btc_sig auth_pub with
  | Ok true => true
  | _ => false
  end.

(** Whether both addresses of an answer pass [validate_address]. *)
Definition addresses_ok (d : nickdata) : bool :=
  validate_address (cj_addr d) && validate_address (change_addr d).

Definition auth_counterparty (btc_sig auth_pub maker_pk : string)
    : T bool :=
  match ecdsa_verify maker_pk btc_sig auth_pub with
  | Ok true => ret true
  | Ok false =>
      jlog "debug" "signature didnt match pubkey and message" ;;;
      ret false
  | Raise _ =>
      jlog "info" ("Failed ecdsa verify for maker pubkey: " ++ maker_pk) ;;;
      jlog "info" "Exception was: " ;;;
      ret false
  end.

(** The two checks of the first loop of [receive_utxos] on one entry;
    [rejected] is [rejected_counterparties]. *)
Definition check_counterparty (nick : string) (d : nickdata)
    (rejected : list string) : T (list string) :=
  ok <- auth_counterparty (btc_sig d) (auth_pub d) (maker_pk d) ;;
  rejected <-
    (if negb ok then
       jlog "debug"
         ("Counterparty encryption verification failed, aborting: "
          ++ nick) ;;;
       ret (rejected ++ [nick])%list
     else ret rejected) ;;
  if negb (validate_address (cj_addr d))
     || negb (validate_address (change_addr d)) then
    jlog "warn" "Counterparty provided invalid address: " ;;;
    add_ignored_makers [nick] ;;;
    ret (rejected ++ [nick])%list
  else ret rejected.

(** What the two checks append to [rejected_counterparties] for one
    entry: the nick once for a bad signature and once for a bad address. *)
Definition rejections_of (nick : string) (d : nickdata) : list string :=
  ((if ecdsa_ok (btc_sig d) (auth_pub d) (maker_pk d) then [] else [nick])
   ++ (if addresses_ok d then [] else [nick]))%list.

(** The first loop of [receive_utxos]. *)
Fixpoint check_counterparties (l : dict string nickdata)
    (rejected : list string) : T (list string) :=
  match l with
  | [] => ret rejected
  | (nick, d) :: l' =>
      rejected <- check_counterparty nick d rejected ;;
      check_counterparties l' rejected
  end.

(** [for rc in rejected_counterparties: del ioauth_data[rc]]. *)
Fixpoint remove_rejected (rejected : list string)
    (ioauth_data : dict string nickdata) : res (dict string nickdata) :=
  match rejected with
  | [] => Ok ioauth_data
  | rc :: rest =>
      match del rc ioauth_data with
      | None => Raise (KeyError rc)
      | Some d => remove_rejected rest d
      end
  end.

(** The records of a query answer, unless [None] is in it. *)
Fixpoint all_some {A} (l : list (option A)) : option (list A) :=
  match l with
  | [] => Some []
  | None :: _ => None
  | Some a :: l' => option_map (cons a) (all_some l')
  end.

(** The [for inp in utxo_data: ... break ... else:] search for an input
    script that belongs to [auth_pub]; only [EngineError] is caught. *)
Fixpoint auth_pub_in_inputs (w : W) (auth_pub_bin : string)
    (utxo_data : list utxo_record) : res bool :=
  match utxo_data with
  | [] => Ok false
  | inp :: rest =>
      match unhexlify (u_script inp) with
      | Raise EngineError => auth_pub_in_inputs w auth_pub_bin rest
      | Raise e => Raise e
      | Ok script_bin =>
          match pubkey_has_script w auth_pub_bin script_bin with
          | Ok true => Ok true
          | Ok false => auth_pub_in_inputs w auth_pub_bin rest
          | Raise EngineError => auth_pub_in_inputs w auth_pub_bin rest
          | Raise e => Raise e
          end
      end
  end.

(** [self.orderbook[nick]]. *)
Definition orderbook_entry (nick : string) : T offer :=
  s <- get_state ;;
  match orderbook s with
  | ObDict d =>
      match get nick d with
      | Some o => ret o
      | None => raise (KeyError nick)
      end
  | _ => raise TypeError
  end.

(** [total_input - self.cjamount - self.orderbook[nick]['txfee']
    + real_cjfee]. *)
Definition maker_change_amount (total_input cjamount : Z) (o : offer) : Z :=
  total_input - cjamount - txfee o
  + calc_cj_fee (otype o) (cjfee o) cjamount.

(** [real_cjfee] and [txfee] of the offer that the orderbook has for a
    nick (0 when it has none). *)
Definition fee_of (ob : dict string offer) (amount : Z) (nick : string) : Z :=
  match get nick ob with
  | Some o => calc_cj_fee (otype o) (cjfee o) amount
  | None => 0
  end.

Definition txfee_of (ob : dict string offer) (nick : string) : Z :=
  match get nick ob with
  | Some o => txfee o
  | None => 0
  end.

(** The end of the second loop's body: the maker is taken into the
    transaction. *)
Definition accept_maker (nick : string) (d : nickdata) (o : offer)
    (utxo_data : list utxo_record) (change_amount : Z) : T unit :=
  s <- get_state ;;
  let real_cjfee := calc_cj_fee (otype o) (cjfee o) (cjamount s) in
  modify (fun s =>
            set_outputs (outputs s
                         ++ [{| o_address := change_addr d;
                                o_value := change_amount |}])%list s) ;;;
  jlog "info" ("fee breakdown for " ++ nick) ;;;
  modify (fun s =>
            set_outputs (outputs s
                         ++ [{| o_address := cj_addr d;
                                o_value := cjamount s |}])%list s) ;;;
  modify (fun s => set_cjfee_total (cjfee_total s + real_cjfee) s) ;;;
  modify (fun s => set_maker_txfee_contributions
                     (maker_txfee_contributions s + txfee o) s) ;;;
  modify (fun s => set_maker_utxo_data
                     (set nick utxo_data (maker_utxo_data s)) s) ;;;
  s <- get_state ;;
  match list_remove nick (nonrespondants s) with
  | Some l => modify (set_nonrespondants l)
  | None =>
      jlog "warn"
        ("Failure to remove counterparty from nonrespondants list: " ++ nick)
  end.

(** The body of the second loop of [receive_utxos]. *)
Definition process_maker (nick : string) (d : nickdata) : T unit :=
  modify (fun s => set_utxos (set (Some nick) (utxo_list d) (utxos s)) s) ;;;
  match all_some (query_utxo_set (utxo_list d) false) with
  | None =>
      jlog "warn" "ERROR outputs unconfirmed or already spent. " ;;;
      jlog "warn" "Disregarding this counterparty." ;;;
      s <- get_state ;;
      match del (Some nick) (utxos s) with
      | Some u => modify (set_utxos u)
      | None => raise (KeyError nick)
      end
  | Some utxo_data =>
      auth_pub_bin <- lift (unhexlify (auth_pub d)) ;;
      s <- get_state ;;
      found <- lift (auth_pub_in_inputs (wallet s) auth_pub_bin utxo_data) ;;
      if negb found then
        jlog "warn" ("ERROR maker's (" ++ nick ++ ") authorising pubkey is "
                     ++ "not included in the transaction!")
      else
        let total_input := sum (map u_value utxo_data) in
        o <- orderbook_entry nick ;;
        let change_amount := maker_change_amount total_input (cjamount s) o in
        if change_amount <? DUST_THRESHOLD then
          jlog "warn" ("ERROR counterparty requires sub-dust change. nick="
                       ++ nick) ;;;
          jlog "warn" ("Invalid change, too small, nick= " ++ nick)
        else accept_maker nick d o utxo_data change_amount
  end.

(** The second loop of [receive_utxos]. *)
Definition process_makers (ioauth_data : dict string nickdata) : T unit :=
  for_each ioauth_data (fun nd => process_maker (fst nd) (snd nd)).

(** Truth value of [self.my_change_addr]: neither [None] nor empty. *)
Definition truthy (a : option string) : bool :=
  match a with
  | Some x => negb (String.eqb x "")
  | None => false
  end.

(** [sum(self.utxos.values(), [])]. *)
Definition all_utxos (s : taker W) : list string :=
  List.concat (values (utxos s)).

(** [my_total_in - self.cjamount - self.cjfee_total - my_txfee], with
    [my_txfee = max(self.total_txfee - self.maker_txfee_contributions, 0)]. *)
Definition my_change_value (s : taker W) : Z :=
  let my_total_in := sum (map value (values (input_utxos s))) in
  let my_txfee := Z.max (total_txfee s - maker_txfee_contributions s) 0 in
  my_total_in - cjamount s - cjfee_total s - my_txfee.

(** The total fee that the taker's share is taken from: estimated again
    from the final numbers of inputs and outputs when there is a change
    address, the earlier [self.total_txfee] otherwise. *)
Definition final_txfee (s : taker W) : Z :=
  if truthy (my_change_addr s) then
    estimate_tx_fee (Z.of_nat (List.length (all_utxos s)))
      (Z.of_nat (List.length (outputs s)) + 2) (get_txtype (wallet s))
  else total_txfee s.

(** The taker's change as the specification writes it:
    [total_taker_in - cj_amount - cjfee_total - taker_tx_fee_share] with
    [taker_tx_fee_share = max(fee - maker_txfee_contributions, 0)]. *)
Definition taker_change (s : taker W) : Z :=
  sum (map value (values (input_utxos s))) - cjamount s - cjfee_total s
  - Z.max (final_txfee s - maker_txfee_contributions s) 0.

(** The log lines of [settle_change]. *)
Definition log_estimate (s : taker W) : event :=
  Log "info" ("Based on initial guess: " ++ str (total_txfee s)
              ++ ", we estimated a miner fee of: " ++ str (final_txfee s)).

Definition log_breakdown (change : Z) : event :=
  Log "info" ("fee breakdown for me => changevalue=" ++ str change).

Definition log_dropping (change : Z) : event :=
  Log "info" ("Dynamically calculated change lower than dust: "
              ++ str change ++ "; dropping.").

Definition log_not_used (change : Z) : event :=
  Log "info" ("WARNING CHANGE NOT BEING USED" ++ newline
              ++ "CHANGEVALUE = " ++ str change).

(** Lines 447-489 of [receive_utxos]: the fee is estimated again, the
    taker's change is computed and its output appended or left out. *)
Definition settle_change : T unit :=
  s <- get_state ;;
  (if truthy (my_change_addr s) then
     let estimated_fee :=
       estimate_tx_fee (Z.of_nat (List.length (all_utxos s)))
         (Z.of_nat (List.length (outputs s)) + 2) (get_txtype (wallet s)) in
     jlog "info" ("Based on initial guess: " ++ str (total_txfee s)
                  ++ ", we estimated a miner fee of: "
                  ++ str estimated_fee) ;;;
     modify (set_total_txfee estimated_fee)
   else ret tt) ;;;
  s <- get_state ;;
  let change := my_change_value s in
  if truthy (my_change_addr s) && (change <=? 0) then
    raise (ValueError ("Calculated transaction fee of: "
                       ++ str (total_txfee s)
                       ++ " is too large for our inputs;Please try again."))
  else
    change <-
      (if truthy (my_change_addr s) && (change <=? BITCOIN_DUST_THRESHOLD)
       then
         jlog "info" ("Dynamically calculated change lower than dust: "
                      ++ str change ++ "; dropping.") ;;;
         modify (set_my_change_addr None) ;;;
         ret 0
       else ret change) ;;
    jlog "info" ("fee breakdown for me => changevalue=" ++ str change) ;;;
    s <- get_state ;;
    match my_change_addr s with
    | None =>
        if negb (change =? 0) && negb (Z.abs change =? 1) then
          jlog "info" ("WARNING CHANGE NOT BEING USED" ++ newline
                       ++ "CHANGEVALUE = " ++ str change)
        else ret tt
    | Some a =>
        modify (fun s =>
                  set_outputs (outputs s
                               ++ [{| o_address := a;
                                      o_value := change |}])%list s)
    end.

Definition coinjoin_address : T string :=
  s <- get_state ;;
  if String.eqb (my_cj_addr s) "" then raise NotImplementedError
  else ret (my_cj_addr s).

(** The placeholder loop: every input whose key is in
    [self.input_utxos] gets the script ['deadbeef']. *)
Definition mark_own_inputs (own : list string) (tx : txdict) : txdict :=
  {| ins := map (fun i =>
                   if mem (utxo_key i) own then
                     {| in_outpoint := in_outpoint i;
                        in_script := "deadbeef";
                        in_witness := in_witness i;
                        in_sequence := in_sequence i |}
                   else i) (ins tx);
     outs := outs tx;
     locktime := locktime tx;
     version := version tx |}.

(** Lines 490-507 of [receive_utxos]. *)
Definition build_tx : T (utxos_result H) :=
  modify (fun s => set_utxo_tx (all_utxos s) s) ;;;
  addr <- coinjoin_address ;;
  modify (fun s =>
            set_outputs (outputs s
                         ++ [{| o_address := addr;
                                o_value := cjamount s |}])%list s) ;;;
  modify (fun s => set_utxo_tx (shuffle_utxo_tx (utxo_tx s)) s) ;;;
  modify (fun s => set_outputs (shuffle_outputs (outputs s)) s) ;;;
  s <- get_state ;;
  tx <- lift (mktx (utxo_tx s) (outputs s)) ;;
  txd <- lift (deserialize tx) ;;
  jlog "info" "obtained tx" ;;;
  modify (set_latest_tx
            (Some (mark_own_inputs (keys (input_utxos s)) txd))) ;;;
  taker_info_callback "INFO" "Built tx, sending to counterparties." ;;;
  s <- get_state ;;
  ret (RuOk (keys (maker_utxo_data s)) tx).

(** Lines 365-507 of [receive_utxos], run on the answers that are left
    after the rejected ones are deleted. *)
Definition assemble_tx (ioauth_data : dict string nickdata)
    : T (utxos_result H) :=
  modify (set_maker_utxo_data []) ;;;
  process_makers ioauth_data ;;;
  s <- get_state ;;
  if Z.of_nat (List.length (maker_utxo_data s)) <? minimum_makers then
    taker_info_callback "INFO" "Not enough counterparties, aborting." ;;;
    ret (RuFalse "Not enough counterparties responded to fill, giving up")
  else
    taker_info_callback "INFO" "Got all parts, enough to build a tx" ;;;
    modify (fun s => set_nonrespondants (keys (maker_utxo_data s)) s) ;;;
    settle_change ;;;
    build_tx.

Definition receive_utxos (ioauth_data : dict string nickdata)
    : T (utxos_result H) :=
  s <- get_state ;;
  if aborted s then ret (RuFalse "User aborted")
  else
    rejected_counterparties <- check_counterparties ioauth_data [] ;;
    ioauth_data <- lift (remove_rejected rejected_counterparties
                           ioauth_data) ;;
    assemble_tx ioauth_data.

(** The first loop of [on_sig]: [[index, utxo_for_checking]] for every
    input whose script is [''], in order. *)
Definition unsigned_inputs (tx : txdict) : list (nat * string) :=
  flat_map (fun '(idx, i) =>
              if String.eqb (in_script i) "" then [(idx, utxo_key i)]
              else [])
    (enumerate (ins tx)).

(** [not isinstance(x, int) and x]. *)
Definition item_ok (x : script_item) : bool :=
  match x with
  | SHex h => negb (String.eqb h "")
  | _ => false
  end.

Definition hex_of (x : script_item) : string :=
  match x with
  | SHex h => h
  | _ => ""
  end.

(** The assignments of [on_sig] into [self.latest_tx["ins"][idx]]. *)
Definition write_witness (idx : nat) (witness : list string)
    (scriptSig : string) (tx : txdict) : txdict :=
  {| ins := update_nth idx
              (fun i => {| in_outpoint := in_outpoint i;
                           in_script := scriptSig;
                           in_witness := Some witness;
                           in_sequence := in_sequence i |}) (ins tx);
     outs := outs tx;
     locktime := locktime tx;
     version := version tx |}.

Definition write_script (idx : nat) (script : string) (tx : txdict)
    : txdict :=
  {| ins := update_nth idx
              (fun i => {| in_outpoint := in_outpoint i;
                           in_script := script;
                           in_witness := in_witness i;
                           in_sequence := in_sequence i |}) (ins tx);
     outs := outs tx;
     locktime := locktime tx;
     version := version tx |}.

(** The transaction after a good signature for input [idx] is inserted. *)
Definition insert_sig (idx : nat) (r : utxo_record)
    (sig ver_sig ver_pub : string) (ver_amt : option Z) (tx : txdict)
    : txdict :=
  match ver_amt with
  | Some amt =>
      if negb (amt =? 0) then
        let scriptSig :=
          if is_segwit_native_script (u_script r) then ""
          else serialize_script_unit (pubkey_to_p2wpkh_script ver_pub) in
        write_witness idx [ver_sig; ver_pub] scriptSig tx
      else write_script idx sig tx
  | None => write_script idx sig tx
  end.

(** After an insertion: the outpoint leaves [self.utxos[nick]], and the
    nick leaves [self.nonrespondants] once that list is empty. *)
Definition note_signed (nick utxo : string) : T unit :=
  s <- get_state ;;
  match get (Some nick) (utxos s) with
  | None => raise (KeyError nick)
  | Some l =>
      let l' := match list_remove utxo l with
                | Some l' => l'
                | None => l
                end in
      modify (fun s => set_utxos (set (Some nick) l' (utxos s)) s) ;;;
      if Z.of_nat (List.length l') =? 0 then
        jlog "debug" ("nick = " ++ nick ++ " sent all sigs, removing from "
                      ++ "nonrespondant list") ;;;
        modify (fun s =>
                  match list_remove nick (nonrespondants s) with
                  | Some n => set_nonrespondants n s
                  | None => s
                  end)
      else ret tt
  end.

(** The verification of one candidate input, with the fallback for
    legacy bots. *)
Definition sig_good_for (txhex : H) (idx : nat) (r : utxo_record)
    (ver_sig ver_pub : string) (scriptCode : option string)
    (ver_amt : option Z) : bool :=
  let sig_good :=
    verify_tx_input txhex idx (u_script r) ver_sig ver_pub scriptCode
      ver_amt in
  match ver_amt with
  | Some _ =>
      if negb sig_good then
        let scriptCode' := hexlify (pubkey_to_p2pkh_script ver_pub true) in
        verify_tx_input txhex idx (u_script r) ver_sig ver_pub
          (Some scriptCode') ver_amt
      else sig_good
  | None => sig_good
  end.

(** The second loop of [on_sig], over [iteritems(utxo)]; the result is
    [inserted_sig]. *)
Fixpoint insert_signature (nick sig : string) (txhex : H)
    (utxo_data : list (option utxo_record))
    (utxo : list (nat * (nat * string))) : T bool :=
  match utxo with
  | [] => ret false
  | (i, (idx, key)) :: rest =>
      match nth_error utxo_data i with
      | None => raise IndexError
      | Some None => insert_signature nick sig txhex utxo_data rest
      | Some (Some r) =>
          sig_deserialized <- lift (deserialize_script sig) ;;
          if negb (forallb item_ok sig_deserialized) then
            jlog "warn" "Junk signature: , not attempting to verify" ;;;
            ret false
          else
            match map hex_of sig_deserialized with
            | [ver_sig; ver_pub] =>
                if sig_good_for txhex idx r ver_sig ver_pub None None then
                  jlog "debug" ("found good sig at index="
                                ++ str (Z.of_nat idx)) ;;;
                  modify (fun s =>
                            set_latest_tx
                              (option_map
                                 (insert_sig idx r sig ver_sig ver_pub None)
                                 (latest_tx s)) s) ;;;
                  note_signed nick key ;;;
                  ret true
                else insert_signature nick sig txhex utxo_data rest
            | [ver_sig; ver_pub; scriptCode] =>
                let ver_amt := Some (u_value r) in
                if sig_good_for txhex idx r ver_sig ver_pub (Some scriptCode)
                     ver_amt then
                  jlog "debug" ("found good sig at index="
                                ++ str (Z.of_nat idx)) ;;;
                  modify (fun s =>
                            set_latest_tx
                              (option_map
                                 (insert_sig idx r sig ver_sig ver_pub
                                    ver_amt)
                                 (latest_tx s)) s) ;;;
                  note_signed nick key ;;;
                  ret true
                else insert_signature nick sig txhex utxo_data rest
            | _ =>
                jlog "debug" "Invalid signature message - more than 3 items" ;;;
                ret false
            end
      end
  end.

Definition self_sign : T unit :=
  s <- get_state ;;
  match latest_tx s with
  | None => raise TypeError
  | Some txd =>
      let our_inputs :=
        flat_map (fun '(idx, i) =>
                    match get (utxo_key i) (input_utxos s) with
                    | None => []
                    | Some u =>
                        [(idx, (addr_to_script (wallet s) (address u),
                                value u))]
                    end)
          (enumerate (ins txd)) in
      txs <- lift (sign_tx (wallet s) txd our_inputs) ;;
      modify (set_latest_tx (Some txs))
  end.

(** The choice of who broadcasts, in [push]: whether the push succeeded
    and [nick_to_use].  [self.maker_utxo_data.keys()[i]] is read as the
    [i]-th key of the list of keys; where [keys()] is a view that cannot
    be indexed, that line raises [TypeError] instead. *)
Definition broadcast (tx : H) : T (bool * option string) :=
  s <- get_state ;;
  if String.eqb tx_broadcast "self" then ret (pushtx tx, None)
  else if mem tx_broadcast ["random-peer"; "not-self"] then
    let n := Z.of_nat (List.length (maker_utxo_data s)) in
    let bound := if String.eqb tx_broadcast "random-peer" then n + 1 else n in
    if bound <=? 0 then raise (ValueError "empty range for randrange()")
    else
      let i := randrange bound in
      if i =? n then ret (pushtx tx, None)
      else
        match item (keys (maker_utxo_data s)) i with
        | Some nick => ret (true, Some nick)
        | None => raise IndexError
        end
  else
    jlog "info" ("Only self, random-peer and not-self broadcast "
                 ++ "methods supported. Reverting to self-broadcast.") ;;;
    ret (pushtx tx, None).

Definition push : T (sig_result H) :=
  s <- get_state ;;
  match latest_tx s with
  | None => raise TypeError
  | Some txd =>
      let tx := serialize txd in
      jlog "debug" "tx" ;;;
      modify (set_txid (Some (txhash tx))) ;;;
      jlog "info" ("txid = " ++ txhash tx) ;;;
      let notify_addr :=
        if mem (substring 0 2 (lower (my_cj_addr s))) ["bc"; "tb"] then
          address_to_script (my_cj_addr s)
        else my_cj_addr s in
      emit (AddTxNotify txd notify_addr) ;;;
      r <- broadcast tx ;;
      if negb (fst r) then
        on_finished_callback false (Some "True") ;;;
        ret SigNone
      else if truthy (snd r) then
        match snd r with
        | Some nick => ret (SigPeer nick tx)
        | None => ret SigNone
        end
      else ret SigNone
  end.

Definition self_sign_and_push : T (sig_result H) :=
  self_sign ;;; push.

(** Lines 535-632 of [on_sig]: the signature is decoded and inserted
    into the first unsigned input it is good for. *)
Definition insert_sigs (nick sigb64 : string) : T unit :=
  s <- get_state ;;
  raw <- lift (b64decode sigb64) ;;
  let sig := hexlify raw in
  match latest_tx s with
  | None => raise TypeError
  | Some txd =>
      let txhex := serialize txd in
      let utxo := unsigned_inputs txd in
      let utxo_data := query_utxo_set (map snd utxo) false in
      inserted_sig <- insert_signature nick sig txhex utxo_data
                        (enumerate utxo) ;;
      if negb inserted_sig then
        jlog "debug" "signature did not match anything in the tx"
      else ret tt
  end.

(** Lines 634-644 of [on_sig]: once no input has an empty script, the
    taker signs and pushes. *)
Definition finish_if_signed : T (sig_result H) :=
  s <- get_state ;;
  let tx_signed :=
    forallb (fun i => negb (String.eqb (in_script i) ""))
      (match latest_tx s with
       | Some t => ins t
       | None => []
       end) in
  if negb tx_signed then ret SigFalse
  else if negb (Z.of_nat (List.length (nonrespondants s)) =? 0) then
    raise AssertionError
  else
    jlog "info" "all makers have sent their signatures" ;;;
    taker_info_callback "INFO" "Transaction is valid, signing.." ;;;
    match item (schedule s) (schedule_index s) with
    | None => raise IndexError
    | Some _ =>
        jlog "debug" "schedule item was: " ;;;
        self_sign_and_push
    end.

Definition on_sig (nick sigb64 : string) : T (sig_result H) :=
  s <- get_state ;;
  if aborted s then ret SigFalse
  else if negb (mem nick (nonrespondants s)) then
    jlog "debug" ("add_signature => nick=" ++ nick
                  ++ " not in nonrespondants") ;;;
    ret SigNone
  else
    insert_sigs nick sigb64 ;;;
    finish_if_signed.

(** Every input of [self.latest_tx] whose key is in [self.input_utxos]
    carries the placeholder script. *)
Definition own_marked (s : taker W) : Prop :=
  exists txd,
    latest_tx s = Some txd /\
    forall i, In i (ins txd) ->
              In (utxo_key i) (keys (input_utxos s)) ->
              in_script i = "deadbeef".

(** How an input may differ once a signature has been inserted: it
    spends the same outpoint, and it is the same input unless its script
    was empty. *)
Definition sig_step (i i' : txin) : Prop :=
  in_outpoint i' = in_outpoint i /\ (in_script i <> "" -> i' = i).

(** The replies of the entry points as Python values. *)
Definition py_of_init_result (r : init_result) : pyval :=
  match r with
  | InitFalse => PTuple [PBool false]
  | InitCommitmentFailure => PTuple [PStr "commitment-failure"]
  | InitOk amt commitment revelation _ =>
      PTuple [PBool true; PInt amt; PStr commitment; PStr revelation;
              POpaque]
  end.

Definition py_of_utxos_result (r : utxos_result H) : pyval :=
  match r with
  | RuFalse msg => PTuple [PBool false; PStr msg]
  | RuOk nicks _ => PTuple [PBool true; PList (map PStr nicks); POpaque]
  end.

Definition py_of_sig_result (r : sig_result H) : pyval :=
  match r with
  | SigFalse => PBool false
  | SigNone => PNone
  | SigPeer nick _ => PTuple [PStr nick; POpaque]
  end.

(** The attributes that describe the transaction being built, with the
    position in the schedule and the destination. *)
Definition tx_state (s : taker W) :=
  (outputs s, cjfee_total s, maker_txfee_contributions s, latest_tx s,
   txid s, schedule_index s, my_cj_addr s).

(** The utxos whose record in the answer to a query satisfies [p], in
    their order; a utxo without a record is left out. *)
Definition utxos_where (p : utxo_record -> bool) (utxos : list string)
    (results : list (option utxo_record)) : list string :=
  map fst (filter (fun ur => match snd ur with
                             | Some r => p r
                             | None => false
                             end) (combine utxos results)).

(** What the loops over the answers read and do not assign. *)
Definition tx_terms (s : taker W) :=
  (orderbook s, cjamount s, input_utxos s, my_change_addr s, total_txfee s,
   my_cj_addr s).

(** What is settled once the answers are processed. *)
Definition settled (s : taker W) :=
  (cjamount s, cjfee_total s, maker_txfee_contributions s,
   maker_utxo_data s, input_utxos s, my_cj_addr s, nonrespondants s,
   utxos s, orderbook s).

(** Between two states: no maker has joined [self.nonrespondants], and
    no maker other than [nick] has left it. *)
Definition only_drops (nick : string) (s s' : taker W) : Prop :=
  forall x,
    (x <> nick ->
     (In x (nonrespondants s') <-> In x (nonrespondants s))) /\
    (In x (nonrespondants s') -> In x (nonrespondants s)).

(** The value of the Taker's own inputs, [my_total_in]. *)
Definition own_total_in (s : taker W) : Z :=
  sum (map value (values (input_utxos s))).

(** The value of the inputs of the accepted makers: [total_input] summed
    over [self.maker_utxo_data]. *)
Definition makers_total_in (s : taker W) : Z :=
  sum (map (fun kv => sum (map u_value (snd kv))) (maker_utxo_data s)).

(** The value of [self.outputs]. *)
Definition outputs_total (s : taker W) : Z :=
  sum (map o_value (outputs s)).

End Methods.

End Taker.

(** ** A small world to run the entry points in *)

Module Demo.

(** Toy [jmbitcoin]: the script of an address is ["0014"] followed by
    the address. *)
Definition lib : MakerLib :=
  {| address_to_script := fun a => "0014" ++ a;
     calc_cj_fee := real_cj_fee |}.

Definition mk_in (h : string) (i : Z) (script : string) : txin :=
  {| in_outpoint := {| hash := h; index := i |};
     in_script := script;
     in_witness := None;
     in_sequence := 4294967295 |}.

Definition mk_out (a : string) (v : Z) : txout :=
  {| out_script := "0014" ++ a; out_value := v |}.

Definition mk_tx (i : list txin) (o : list txout) : txdict :=
  {| ins := i; outs := o; locktime := 0; version := 1 |}.

Definition mk_offer (nick : string) (fee : Z) : offer :=
  {| oid := 0; otype := swabsoffer; minsize := 100000;
     maxsize := 2100000000000000; txfee := 1000; cjfee := inject_Z fee;
     counterparty := nick |}.

(** A maker's order: one utxo of 5000000 sat, 2000000 sat to join. *)
Definition oinfo : Maker.offerinfo :=
  {| Maker.oi_offer := mk_offer "J5maker" 3000;
     Maker.oi_utxos := [("aa:0", {| address := "mk_in"; value := 5000000 |})];
     Maker.oi_cjaddr := "mk_cj";
     Maker.oi_changeaddr := "mk_change";
     Maker.oi_amount := 2000000 |}.

Definition good_tx : txdict :=
  mk_tx [mk_in "tt" 1 ""; mk_in "aa" 0 ""]
        [mk_out "tk_cj" 2000000; mk_out "mk_change" 3002000;
         mk_out "mk_cj" 2000000; mk_out "tk_change" 777].

(** Two outputs to the maker's coinjoin address, the second one short. *)
Definition two_cj_tx : txdict :=
  mk_tx [mk_in "tt" 1 ""; mk_in "aa" 0 ""]
        [mk_out "mk_cj" 2000000; mk_out "mk_change" 3002000;
         mk_out "mk_cj" 1999999].

(** A blockchain: the unspent outputs by key. *)
Definition chain_t : Type := dict string utxo_record.

Definition mk_utxo (v : Z) (script : string) (confirms : Z) : utxo_record :=
  {| u_value := v; u_address := "addr"; u_script := script;
     u_confirms := confirms |}.

Definition query (chain : chain_t) (l : list string) (includeconf : bool)
    : list (option utxo_record) :=
  map (fun u => get u chain) l.

(** The Maker's world: policy 20 percent and 5 confirmations, a PoDLE
    module that accepts every proof, and a wallet (of type [unit]) that
    fills every order with the utxo of [oinfo]. *)
Definition maker_world (chain : chain_t) : Maker.World unit :=
  {| Maker.taker_utxo_retries := 3;
     Maker.taker_utxo_age := 5;
     Maker.taker_utxo_amtpercent := 20;
     Maker.deserialize_revelation := fun cr =>
       Ok {| Maker.rev_utxo := cr; Maker.rev_P := "02aa";
             Maker.rev_P2 := "03bb"; Maker.rev_sig := "cc";
             Maker.rev_e := "dd" |};
     Maker.verify_podle := fun _ _ _ _ _ _ => true;
     Maker.query_utxo_set := query chain;
     Maker.unhexlify := fun h => Ok h;
     Maker.pubkey_has_script := fun _ _ _ => Ok true;
     Maker.oid_to_order := fun _ _ _ =>
       (Maker.oi_utxos oinfo, "mk_cj", "mk_change");
     Maker.update_cache_index := fun w => w;
     Maker.get_key_from_addr := fun _ a => "key:" ++ a;
     Maker.privtopub := fun k => "pub:" ++ k;
     Maker.ecdsa_sign := fun m k => "sig:" ++ m |}.

(** An amount of about 18 million BTC, at which the double quotient
    falls below the integer quotient. *)
Definition huge_amount : Z := 1801439850948205.

Definition huge_chain : chain_t := [("cc:0", mk_utxo 360287970189640 "51" 6)].

Definition small_chain : chain_t := [("cc:0", mk_utxo 400000 "51" 6)].

Import Taker.

(** The text before and after the first [sep] of a string. *)
Fixpoint split_at (sep : ascii) (s : string) : string * string :=
  match s with
  | EmptyString => (EmptyString, EmptyString)
  | String c s' =>
      if Ascii.eqb c sep then (EmptyString, s')
      else let '(a, b) := split_at sep s' in (String c a, b)
  end.

(** Toy outpoints have a one-digit index: ["aa:0"]. *)
Definition parse_outpoint (u : string) : outpoint :=
  let '(h, i) := split_at ":" u in
  {| hash := h;
     index := match i with
              | String c _ => Z.of_nat (nat_of_ascii c) - 48
              | EmptyString => 0
              end |}.

(** Toy signature messages are ["sig|pub"] or ["sig|pub|code"]. *)
Definition parse_sig (m : string) : list script_item :=
  let '(sg, rest) := split_at "|" m in
  let '(pub, code) := split_at "|" rest in
  if String.eqb code "" then [SHex sg; SHex pub]
  else [SHex sg; SHex pub; SHex code].

(** The Taker's world.  The wallet is the value of its single utxo
    ["tt:0"]; a serialized transaction is the transaction itself; the
    script of a utxo is its owner's pubkey, and a signature is good for
    an input when its pubkey is that script; [native] says whether
    scripts are native segwit; the fee estimate is 500 sat per output
    and twice that per input; shuffling reverses. *)
Definition world (chain : chain_t) (native : bool) : World Z txdict :=
  {| mincjamount := 100000;
     DUST_THRESHOLD := 2730;
     BITCOIN_DUST_THRESHOLD := 546;
     minimum_makers := 1;
     policy_segwit := "true";
     tx_broadcast := "self";
     taker_utxo_retries := 3;
     taker_utxo_age := 5;
     taker_utxo_amtpercent := 20;
     get_balance_by_mixdepth := fun w => [(0, w)];
     wallet_mixdepth := fun _ => 4;
     get_internal_addr := fun w md => Ok ("internal" ++ str md, w);
     select_utxos := fun w md amt =>
       Ok [("tt:0", {| address := "tk_in"; value := w |})];
     get_utxos_by_mixdepth := fun w =>
       [(0, [("tt:0", {| address := "tk_in"; value := w |})])];
     get_utxos_by_mixdepth_ := fun w =>
       [(0, [("tt:0", {| address := "tk_in"; value := w |})])];
     get_txtype := fun _ => "p2sh-p2wpkh";
     pubkey_has_script := fun _ pub script => Ok (String.eqb pub script);
     addr_to_script := fun _ a => "0014" ++ a;
     get_key_from_addr := fun _ a => Some ("priv:" ++ a);
     sign_tx := fun _ tx our_inputs =>
       Ok (fold_left (fun t kv => write_script (fst kv) "taker_sig" t)
             our_inputs tx);
     query_utxo_set := query chain;
     has_import_addresses := false;
     has_get_wallet_name := false;
     pushtx := fun _ => true;
     validate_address := fun a => negb (String.eqb a "invalid");
     calc_cj_fee := real_cj_fee;
     estimate_tx_fee := fun n_ins n_outs _ => 500 * (2 * n_ins + n_outs);
     choose_orders := fun ob amt n ignored types =>
       (Some (map (fun o => (counterparty o, o)) ob),
        sum (map (fun o => real_cj_fee (otype o) (cjfee o) amt) ob));
     choose_sweep_orders := fun _ _ _ _ _ _ => (None, 0, 0);
     filter_orders_callback := None;
     generate_podle := fun pairs tries ext =>
       match pairs with
       | (priv, u) :: _ =>
           Some {| pd_utxo := u; pd_P := "02aa"; pd_P2 := "03bb";
                   pd_sig := "cc"; pd_e := "dd"; pd_commit := "ee" |}
       | [] => None
       end;
     get_podle_commitments := [];
     serialize_revelation := fun pd => pd_utxo pd ++ "|" ++ pd_P pd;
     generate_podle_error_string := fun _ _ _ _ => ("no commitment", "");
     ecdsa_verify := fun pk sg pub => Ok (String.eqb sg "good");
     mktx := fun utxo_tx outputs =>
       Ok (mk_tx (map (fun u => {| in_outpoint := parse_outpoint u;
                                   in_script := "";
                                   in_witness := None;
                                   in_sequence := 4294967295 |}) utxo_tx)
                 (map (fun o => mk_out (o_address o) (o_value o)) outputs));
     deserialize := fun tx => Ok tx;
     serialize := fun tx => tx;
     txhash := fun _ => "txid";
     deserialize_script := fun m => Ok (parse_sig m);
     verify_tx_input := fun _ _ script sg pub _ _ => String.eqb pub script;
     pubkey_to_p2pkh_script := fun pub _ => "76a9" ++ pub;
     pubkey_to_p2wpkh_script := fun pub => "0014" ++ pub;
     serialize_script_unit := fun x => "16" ++ x;
     is_segwit_native_script := fun _ => native;
     address_to_script := fun a => "0014" ++ a;
     unhexlify := fun h => Ok h;
     hexlify := fun b => b;
     b64decode := fun m => Ok m;
     shuffle_utxo_tx := @rev string;
     shuffle_outputs := @rev output;
     randrange := fun _ => 0 |}.

Definition entry (md : Z) (a : amount_t) : schedule_entry :=
  {| se_mixdepth := md; se_amount := a; se_makercount := 2;
     se_destaddr := "tk_cj"; se_waittime := S754_zero false;
     se_completed := 0 |}.

(** A new [Taker] with wallet [w] and a schedule. *)
Definition new_taker (w : Z) (sched : list schedule_entry) : taker Z :=
  {| aborted := false; wallet := w; schedule := sched;
     ignored_makers := []; honest_makers := []; honest_only := false;
     nonrespondants := []; waiting_for_conf := false; txid := None;
     schedule_index := -1; utxos := []; mixdepth := 0; cjamount := 0;
     mixdepthbal := None; n_counterparties := 0; my_cj_addr := "";
     outputs := []; cjfee_total := 0; maker_txfee_contributions := 0;
     txfee_default := 5000; latest_tx := None; orderbook := ObNone;
     total_cj_fee := 0; my_change_addr := None; total_txfee := 0;
     input_utxos := []; maker_utxo_data := []; utxo_tx := [];
     trace := [] |}.

Definition offers : list offer := [mk_offer "A" 3000; mk_offer "B" 500].

Definition answer (utxo pub cj change sg : string) : nickdata :=
  {| utxo_list := [utxo]; auth_pub := pub; cj_addr := cj;
     change_addr := change; btc_sig := sg; maker_pk := "pk" |}.

(** The float [0.5]. *)
Definition half : Float.float := S754_finite false 4503599627370496 (-53).

(** The utxos of the taker (["tt:0"], worth [w]) and of three makers. *)
Definition chain (w : Z) : chain_t :=
  [("tt:0", mk_utxo w "PT" 10);
   ("aa:0", mk_utxo 3000000 "PA" 10);
   ("aa:1", mk_utxo 2000000 "PA" 10);
   ("bb:0", mk_utxo 1000100 "PB" 10);
   ("cc:0", mk_utxo 4000000 "PC" 10)].

(** The taker with a wallet of [w] sat after [initialize], for one
    coinjoin of 1000000 sat. *)
Definition ready (w : Z) (native : bool) : taker Z :=
  snd (@initialize _ _ (world (chain w) native) offers
         (new_taker w [entry 0 (AmtInt 1000000)])).

Definition answer_A : string * nickdata :=
  ("A", answer "aa:0" "PA" "A_cj" "A_chg" "good").

(** Maker B's inputs leave a change of [1000100 - 1000000 - 1000 + 500],
    below the dust threshold. *)
Definition answer_B : string * nickdata :=
  ("B", answer "bb:0" "PB" "B_cj" "B_chg" "good").

(** An answer that fails both the signature and the address check. *)
Definition answer_bad : string * nickdata :=
  ("B", answer "bb:0" "PB" "invalid" "B_chg" "forged").

(** An answer with a forged signature, and one with an invalid address. *)
Definition answer_forged : string * nickdata :=
  ("B", answer "bb:0" "PB" "B_cj" "B_chg" "forged").

Definition answer_invalid : string * nickdata :=
  ("C", answer "cc:0" "PC" "invalid" "C_chg" "good").

(** Maker A answering with two inputs. *)
Definition answer_A2 : string * nickdata :=
  ("A", {| utxo_list := ["aa:0"; "aa:1"]; auth_pub := "PA";
           cj_addr := "A_cj"; change_addr := "A_chg"; btc_sig := "good";
           maker_pk := "pk" |}).

(** A tumbler schedule: twice half of mixdepth 0. *)
Definition tumble : list schedule_entry :=
  [entry 0 (AmtFloat half); entry 0 (AmtFloat half)].

(** After the first entry of [tumble], with a wallet of 5000000 sat. *)
Definition tumble_first : taker Z :=
  snd (@initialize _ _ (world (chain 5000000) false) offers
         (new_taker 5000000 tumble)).

(** Before the second entry: the first coinjoin has left 3000000 sat
    in mixdepth 0. *)
Definition tumble_second : taker Z :=
  snd (@initialize _ _ (world (chain 3000000) false) offers
         (set_wallet 3000000 tumble_first)).

(** The taker after maker A's answer with two native-segwit inputs, and
    after each of two signatures of A that are good for the same input. *)
Definition awaiting_sigs : taker Z :=
  snd (@receive_utxos _ _ (world (chain 5000000) true) [answer_A2]
         (ready 5000000 true)).

(** The world [w] with another [tx_broadcast] policy. *)
Definition with_broadcast (policy : string) (w : World Z txdict)
    : World Z txdict :=
  {| mincjamount := @mincjamount _ _ w;
     DUST_THRESHOLD := @DUST_THRESHOLD _ _ w;
     BITCOIN_DUST_THRESHOLD := @BITCOIN_DUST_THRESHOLD _ _ w;
     minimum_makers := @minimum_makers _ _ w;
     policy_segwit := @policy_segwit _ _ w;
     tx_broadcast := policy;
     taker_utxo_retries := @taker_utxo_retries _ _ w;
     taker_utxo_age := @taker_utxo_age _ _ w;
     taker_utxo_amtpercent := @taker_utxo_amtpercent _ _ w;
     get_balance_by_mixdepth := @get_balance_by_mixdepth _ _ w;
     wallet_mixdepth := @wallet_mixdepth _ _ w;
     get_internal_addr := @get_internal_addr _ _ w;
     select_utxos := @select_utxos _ _ w;
     get_utxos_by_mixdepth := @get_utxos_by_mixdepth _ _ w;
     get_utxos_by_mixdepth_ := @get_utxos_by_mixdepth_ _ _ w;
     get_txtype := @get_txtype _ _ w;
     pubkey_has_script := @pubkey_has_script _ _ w;
     addr_to_script := @addr_to_script _ _ w;
     get_key_from_addr := @get_key_from_addr _ _ w;
     sign_tx := @sign_tx _ _ w;
     query_utxo_set := @query_utxo_set _ _ w;
     has_import_addresses := @has_import_addresses _ _ w;
     has_get_wallet_name := @has_get_wallet_name _ _ w;
     pushtx := @pushtx _ _ w;
     validate_address := @validate_address _ _ w;
     calc_cj_fee := @calc_cj_fee _ _ w;
     estimate_tx_fee := @estimate_tx_fee _ _ w;
     choose_orders := @choose_orders _ _ w;
     choose_sweep_orders := @choose_sweep_orders _ _ w;
     filter_orders_callback := @filter_orders_callback _ _ w;
     generate_podle := @generate_podle _ _ w;
     get_podle_commitments := @get_podle_commitments _ _ w;
     serialize_revelation := @serialize_revelation _ _ w;
     generate_podle_error_string := @generate_podle_error_string _ _ w;
     ecdsa_verify := @ecdsa_verify _ _ w;
     mktx := @mktx _ _ w;
     deserialize := @deserialize _ _ w;
     serialize := @serialize _ _ w;
     txhash := @txhash _ _ w;
     deserialize_script := @deserialize_script _ _ w;
     verify_tx_input := @verify_tx_input _ _ w;
     pubkey_to_p2pkh_script := @pubkey_to_p2pkh_script _ _ w;
     pubkey_to_p2wpkh_script := @pubkey_to_p2wpkh_script _ _ w;
     serialize_script_unit := @serialize_script_unit _ _ w;
     is_segwit_native_script := @is_segwit_native_script _ _ w;
     address_to_script := @address_to_script _ _ w;
     unhexlify := @unhexlify _ _ w;
     hexlify := @hexlify _ _ w;
     b64decode := @b64decode _ _ w;
     shuffle_utxo_tx := @shuffle_utxo_tx _ _ w;
     shuffle_outputs := @shuffle_outputs _ _ w;
     randrange := @randrange _ _ w |}.

(** The taker after maker A's answer with its one input, which is not
    native segwit. *)
Definition awaiting_one : taker Z :=
  snd (@receive_utxos _ _ (world (chain 5000000) false) [answer_A]
         (ready 5000000 false)).

Definition signed_once : taker Z :=
  snd (@on_sig _ _ (world (chain 5000000) true) "A" "sig1|PA|code"
         awaiting_sigs).

Definition signed_twice : taker Z :=
  snd (@on_sig _ _ (world (chain 5000000) true) "A" "sig2|PA|code"
         signed_once).

(** The taker after maker A's answer with its one input, a native segwit
    one, and after A's signature for it. *)
Definition awaiting_native : taker Z :=
  snd (@receive_utxos _ _ (world (chain 5000000) true) [answer_A]
         (ready 5000000 true)).

Definition native_signed : taker Z :=
  snd (@on_sig _ _ (world (chain 5000000) true) "A" "sig1|PA|code"
         awaiting_native).

(** The Maker's signer: the text ["good_tx"] deserializes to [good_tx],
    any other text is malformed; the wallet signs each of its inputs with
    the script ["aabb"]. *)
Definition maker_signer : Maker.Signer unit :=
  {| Maker.deserialize := fun h =>
       if String.eqb h "good_tx" then Ok good_tx
       else Raise (OtherError "SerializationError");
     Maker.repr := fun _ => "SerializationError()";
     Maker.addr_to_script := fun _ a => "0014" ++ a;
     Maker.sign_tx := fun _ tx our_inputs =>
       Ok (fold_left (fun t kv => write_script (fst kv) "aabb" t)
             our_inputs tx);
     Maker.pubkey_to_p2wpkh_script := fun pub => "0014" ++ pub;
     Maker.serialize_script_unit := fun x => "16" ++ x;
     Maker.b64encode := fun m => "b64:" ++ m |}.

(** A Maker with three offers. *)
Definition numbered_offer (n : Z) (fee : Z) : offer :=
  {| oid := n; otype := swabsoffer; minsize := 100000;
     maxsize := 2100000000000000; txfee := 1000; cjfee := inject_Z fee;
     counterparty := "J5maker" |}.

Definition new_maker (l : list offer) : Maker.maker unit :=
  {| Maker.active_orders := []; Maker.wallet := tt; Maker.nextoid := -1;
     Maker.offerlist := Some l; Maker.sync_wait_loop := false;
     Maker.aborted := false |}.

Definition three_offers : list offer :=
  [numbered_offer 0 3000; numbered_offer 1 500; numbered_offer 2 700].

End Demo.

(** * Properties *)

(** ** Lists, dictionaries and sums *)

Module PyFacts.

#[export] Instance string_KeyOk : KeyOk string.
Proof. constructor. exact String.eqb_eq. Qed.

#[export] Instance Z_KeyOk : KeyOk Z.
Proof. constructor. exact Z.eqb_eq. Qed.

#[export] Instance option_string_KeyOk : KeyOk (option string).
Proof.
  constructor. intros [a|] [b|]; simpl; split; intros E;
    try discriminate; try reflexivity.
  - apply String.eqb_eq in E. now subst.
  - injection E as ->. apply String.eqb_refl.
Qed.

Section Keys.
Context {K : Type} {HK : Key K} {HKo : KeyOk K}.

Lemma keqb_refl (x : K) : keqb x x = true.
Proof. now apply keqb_eq. Qed.

Lemma keqb_neq (x y : K) : keqb x y = false <-> x <> y.
Proof.
  split.
  - intros E ->. rewrite keqb_refl in E. discriminate.
  - intros N. destruct (keqb x y) eqn:E; [|reflexivity].
    apply keqb_eq in E. contradiction.
Qed.

Lemma mem_In (x : K) (l : list K) : mem x l = true <-> In x l.
Proof.
  unfold mem. rewrite existsb_exists. split.
  - intros [y [Hy E]]. apply keqb_eq in E. now subst.
  - intros Hx. exists x. split; [assumption | apply keqb_refl].
Qed.

Lemma mem_false (x : K) (l : list K) : mem x l = false <-> ~ In x l.
Proof. rewrite <- mem_In. destruct (mem x l); split; congruence. Qed.

Lemma dedup_In (x : K) (l : list K) : In x (dedup l) <-> In x l.
Proof.
  induction l as [|y l IH]; simpl; [tauto|].
  destruct (mem y l) eqn:E.
  - rewrite IH. apply mem_In in E. split; [tauto|].
    intros [->|Hx]; assumption.
  - simpl. rewrite IH. tauto.
Qed.

Variable V : Type.

(** Deleting a key of a dictionary without duplicate keys removes it. *)
Lemma del_keys (k : K) (d d' : dict K V) :
  del k d = Some d' -> NoDup (keys d) ->
  NoDup (keys d') /\ ~ In k (keys d') /\
  (forall x, In x (keys d') -> In x (keys d)).
Proof.
  revert d'. induction d as [|[k' v'] d IH]; simpl; intros d' Hd Hnd;
    [discriminate|].
  inversion Hnd as [|? ? Hnotin Hnd']; subst.
  destruct (keqb k k') eqn:E.
  - injection Hd as <-. apply keqb_eq in E. subst. repeat split; auto.
  - destruct (del k d) as [d''|] eqn:Ed; simpl in Hd; [|discriminate].
    injection Hd as <-. apply keqb_neq in E.
    destruct (IH d'' eq_refl Hnd') as (N1 & N2 & N3).
    repeat split.
    + simpl. constructor; [|assumption]. intros Hin. apply Hnotin.
      now apply N3.
    + simpl. intros [Hk|Hk]; [now subst | contradiction].
    + simpl. intros x [Hx|Hx]; [now left | right; now apply N3].
Qed.

Lemma set_keys (k x : K) (v : V) (d : dict K V) :
  In x (keys (set k v d)) <-> x = k \/ In x (keys d).
Proof.
  induction d as [|[k' v'] d IH]; simpl.
  - split; [intros [<-|[]]; now left | intros [->|[]]; now left].
  - destruct (keqb k k') eqn:E; simpl.
    + apply keqb_eq in E. subst. split; [tauto|].
      intros [->|Hx]; [now left | assumption].
    + rewrite IH. split; [tauto|]. tauto.
Qed.

End Keys.

Lemma sum_from (l : list Z) (a : Z) : fold_left Z.add l a = a + sum l.
Proof.
  unfold sum. revert a.
  induction l as [|x l IH]; intros a; simpl.
  - lia.
  - rewrite IH, (IH x). lia.
Qed.

Lemma filter_length_one {A} (f : A -> bool) (l : list A) :
  List.length (filter f l) = 1%nat ->
  exists a, filter f l = [a] /\ In a l /\ f a = true.
Proof.
  intros Hl. destruct (filter f l) as [|a [|b r]] eqn:E;
    try discriminate.
  exists a. split; [reflexivity|].
  apply filter_In. rewrite E. now left.
Qed.

End PyFacts.
Import PyFacts.

(** ** The Maker's check of the unsigned transaction *)

Module MakerFacts.
Import Maker.

Section VerifyUnsignedTx.
Context {L : MakerLib}.

(** When the loop over the outputs runs to its end, the counters have
    grown by the number of matching outputs and every matching output has
    the required value. *)
Lemma scan_outs_end (cjs chs : string) (amount expected : Z)
    (l : list txout) (c1 c2 n1 n2 : Z) :
  scan_outs cjs chs amount expected l c1 c2 = inr (n1, n2) ->
  n1 = c1 + Z.of_nat
             (List.length (filter (fun o => String.eqb (out_script o) cjs) l))
  /\ n2 = c2 + Z.of_nat
             (List.length (filter (fun o => String.eqb (out_script o) chs) l))
  /\ (forall o, In o l ->
        (out_script o = cjs -> out_value o = amount) /\
        (out_script o = chs -> out_value o = expected)).
Proof.
  revert c1 c2. induction l as [|o l IH]; intros c1 c2; simpl.
  - intros [= <- <-]. repeat split; try lia; contradiction.
  - destruct (String.eqb (out_script o) cjs) eqn:Ecj;
      destruct (String.eqb (out_script o) chs) eqn:Ech; simpl;
      repeat match goal with
        | |- context [Z.eqb ?a ?b] => destruct (Z.eqb_spec a b); simpl
        end;
      try discriminate; intros Hs; apply IH in Hs;
      destruct Hs as (-> & -> & Hall);
      (split; [simpl List.length; lia|]);
      (split; [simpl List.length; lia|]);
      intros o' [<-|Ho']; try (now apply Hall);
      split; intros Hx;
      try assumption;
      try (apply String.eqb_neq in Ecj; contradiction);
      try (apply String.eqb_neq in Ech; contradiction).
Qed.

(** The result is either acceptance or a rejection with a message. *)
Lemma scan_outs_early (cjs chs : string) (amount expected : Z)
    (l : list txout) (c1 c2 : Z) (r : bool * option string) :
  scan_outs cjs chs amount expected l c1 c2 = inl r ->
  exists msg, r = (false, Some msg).
Proof.
  revert c1 c2. induction l as [|o l IH]; intros c1 c2; simpl;
    [discriminate|].
  destruct (_ && _).
  - intros [= <-]. eauto.
  - destruct (_ && _).
    + intros [= <-]. eauto.
    + apply IH.
Qed.

Lemma verify_unsigned_tx_shape (txd : txdict) (oi : offerinfo) :
  verify_unsigned_tx txd oi = (true, None) \/
  exists msg, verify_unsigned_tx txd oi = (false, Some msg).
Proof.
  unfold verify_unsigned_tx.
  destruct (negb (forallb _ _)); [right; eauto|].
  destruct (scan_outs _ _ _ _ _ _ _) as [r|[n1 n2]] eqn:E.
  - right. apply scan_outs_early in E. destruct E as [msg ->]. eauto.
  - destruct (_ || _); [right; eauto | now left].
Qed.

(** What acceptance implies, in the terms of the loop. *)
Lemma verify_unsigned_tx_accepted (txd : txdict) (oi : offerinfo) :
  verify_unsigned_tx txd oi = (true, None) ->
  forallb (fun k => mem k (map utxo_key (ins txd))) (keys (oi_utxos oi))
    = true /\
  List.length (filter (pays_to (oi_cjaddr oi)) (outs txd)) = 1%nat /\
  List.length (filter (pays_to (oi_changeaddr oi)) (outs txd)) = 1%nat /\
  (forall o, In o (outs txd) ->
     (pays_to (oi_cjaddr oi) o = true -> out_value o = oi_amount oi) /\
     (pays_to (oi_changeaddr oi) o = true ->
      out_value o = expected_change_value oi)).
Proof.
  unfold verify_unsigned_tx.
  destruct (forallb _ _) eqn:Esub; simpl; [|discriminate].
  destruct (scan_outs _ _ _ _ _ _ _) as [r|[n1 n2]] eqn:E.
  - intros ->. apply scan_outs_early in E. destruct E as [msg E].
    discriminate.
  - destruct (Z.eqb_spec n1 1); simpl; [|discriminate].
    destruct (Z.eqb_spec n2 1); simpl; [|discriminate].
    intros _. apply scan_outs_end in E. destruct E as (E1 & E2 & Hall).
    split; [reflexivity|]. unfold pays_to.
    split; [lia|]. split; [lia|].
    intros o Ho. destruct (Hall o Ho) as [Hcj Hch].
    split; intros Hp; apply String.eqb_eq in Hp; auto.
Qed.

End VerifyUnsignedTx.

(** C1.  Whenever [verify_unsigned_tx] accepts, returning [(True, None)]:
    every key of [offerinfo.utxos] is the outpoint of an input of the
    transaction; exactly one output pays to the script of [cjaddr], and
    its value is [amount]; exactly one output pays to the script of
    [changeaddr], and its value is the sum of the values of
    [offerinfo.utxos] minus [amount] minus the offer's [txfee] plus
    [calc_cj_fee(ordertype, cjfee, amount)]. *)
Theorem verify_unsigned_tx_sound (L : MakerLib) (txd : txdict)
    (oi : offerinfo) :
  verify_unsigned_tx txd oi = (true, None) ->
  (forall k, In k (keys (oi_utxos oi)) -> In k (map utxo_key (ins txd))) /\
  (exists o, filter (pays_to (oi_cjaddr oi)) (outs txd) = [o] /\
             out_value o = oi_amount oi) /\
  (exists o, filter (pays_to (oi_changeaddr oi)) (outs txd) = [o] /\
             out_value o =
               sum (map value (values (oi_utxos oi))) - oi_amount oi
               - txfee (oi_offer oi)
               + calc_cj_fee (otype (oi_offer oi)) (cjfee (oi_offer oi))
                   (oi_amount oi)).
Proof.
  intros Hacc. apply verify_unsigned_tx_accepted in Hacc.
  destruct Hacc as (Hsub & Hcj & Hch & Hall).
  split; [|split].
  - intros k Hk. rewrite forallb_forall in Hsub.
    apply mem_In. now apply Hsub.
  - apply filter_length_one in Hcj. destruct Hcj as (o & E & Ho & Hp).
    exists o. split; [exact E|]. now apply (Hall o Ho).
  - apply filter_length_one in Hch. destruct Hch as (o & E & Ho & Hp).
    exists o. split; [exact E|]. now apply (Hall o Ho).
Qed.

Lemma verify_unsigned_tx_sound_witness :
  @verify_unsigned_tx Demo.lib Demo.good_tx Demo.oinfo = (true, None) /\
  (exists o, filter (@pays_to Demo.lib "mk_change") (outs Demo.good_tx) = [o]
             /\ out_value o = 3002000).
Proof.
  split; [reflexivity|].
  exact (proj2 (proj2 (@verify_unsigned_tx_sound Demo.lib Demo.good_tx
                         Demo.oinfo eq_refl))).
Defined.

(** C2.  The value check applies to every output that pays to the
    coinjoin or the change address: as soon as one output to the script of
    [cjaddr] has a value other than [amount], or one output to the script
    of [changeaddr] a value other than the expected change, the
    transaction is rejected, whatever the other outputs are. *)
Theorem verify_unsigned_tx_every_output (L : MakerLib) (txd : txdict)
    (oi : offerinfo) (o : txout) :
  In o (outs txd) ->
  (pays_to (oi_cjaddr oi) o = true /\ out_value o <> oi_amount oi) \/
  (pays_to (oi_changeaddr oi) o = true /\
   out_value o <> expected_change_value oi) ->
  exists msg, verify_unsigned_tx txd oi = (false, Some msg).
Proof.
  intros Ho Hbad.
  destruct (verify_unsigned_tx_shape txd oi) as [Hacc|Hrej];
    [|exact Hrej].
  exfalso. apply verify_unsigned_tx_accepted in Hacc.
  destruct Hacc as (_ & _ & _ & Hall).
  destruct (Hall o Ho) as [Hcj Hch].
  destruct Hbad as [[Hp Hv]|[Hp Hv]]; auto.
Qed.

Lemma verify_unsigned_tx_every_output_witness :
  In (Demo.mk_out "mk_cj" 2000000) (outs Demo.two_cj_tx) /\
  exists msg,
    @verify_unsigned_tx Demo.lib Demo.two_cj_tx Demo.oinfo
    = (false, Some msg).
Proof.
  split; [now left|].
  apply (@verify_unsigned_tx_every_output Demo.lib Demo.two_cj_tx
           Demo.oinfo (Demo.mk_out "mk_cj" 1999999)).
  - right. right. now left.
  - left. split; [reflexivity | discriminate].
Defined.

Section OnAuthReceived.
Context {W : Type} {MW : World W}.

(** The three outcomes of the utxo checks, for a request whose
    revelation deserializes and whose proof verifies. *)
Lemma on_auth_received_after_podle (w : W) (nick : string) (o : offer)
    (commitment cr : string) (amount : Z) (kphex : string)
    (cr_dict : revelation) :
  deserialize_revelation cr = Ok cr_dict ->
  verify_podle (rev_P cr_dict) (rev_P2 cr_dict) (rev_sig cr_dict)
    (rev_e cr_dict) commitment taker_utxo_retries = true ->
  on_auth_received w nick o commitment cr amount kphex =
    match query_utxo_set [rev_utxo cr_dict] true with
    | [Some r] =>
        if u_confirms r <? taker_utxo_age then (Ok AuthRejected, w)
        else
          match reqd_amt amount with
          | Raise e => (Raise e, w)
          | Ok reqd =>
              if u_value r <? reqd then (Ok AuthRejected, w)
              else
                match podle_pubkey_ok w (rev_P cr_dict) (u_script r) with
                | Raise e => (Raise e, w)
                | Ok false => (Ok AuthRejected, w)
                | Ok true => fill_order w o amount kphex
                end
          end
    | _ => (Ok AuthRejected, w)
    end.
Proof.
  intros Hd Hv. unfold on_auth_received. rewrite Hd, Hv. reflexivity.
Qed.

(** C3, as the code has it.  For a request whose revelation deserializes
    and whose proof verifies: the request is accepted only if the query
    of the committed utxo returns exactly one record, that record has at
    least [taker_utxo_age] confirmations, and its value is at least
    [int(amount * taker_utxo_amtpercent / 100.0)], the quotient being
    computed in double precision and truncated; when the query returns
    anything else, or the record is too young, or its value is below that
    threshold, the result is [(False,)] and the wallet is untouched. *)
Theorem on_auth_received_utxo_policy (w : W) (nick : string) (o : offer)
    (commitment cr : string) (amount : Z) (kphex : string)
    (cr_dict : revelation) :
  deserialize_revelation cr = Ok cr_dict ->
  verify_podle (rev_P cr_dict) (rev_P2 cr_dict) (rev_sig cr_dict)
    (rev_e cr_dict) commitment taker_utxo_retries = true ->
  (forall utxos auth_pub cj_addr change_addr btc_sig w',
     on_auth_received w nick o commitment cr amount kphex
     = (Ok (AuthAccepted utxos auth_pub cj_addr change_addr btc_sig), w') ->
     exists r reqd,
       query_utxo_set [rev_utxo cr_dict] true = [Some r] /\
       taker_utxo_age <= u_confirms r /\
       reqd_amt amount = Ok reqd /\
       reqd <= u_value r) /\
  ((forall r, query_utxo_set [rev_utxo cr_dict] true <> [Some r]) ->
   on_auth_received w nick o commitment cr amount kphex
   = (Ok AuthRejected, w)) /\
  (forall r,
     query_utxo_set [rev_utxo cr_dict] true = [Some r] ->
     u_confirms r < taker_utxo_age ->
     on_auth_received w nick o commitment cr amount kphex
     = (Ok AuthRejected, w)) /\
  (forall r reqd,
     query_utxo_set [rev_utxo cr_dict] true = [Some r] ->
     reqd_amt amount = Ok reqd ->
     u_value r < reqd ->
     on_auth_received w nick o commitment cr amount kphex
     = (Ok AuthRejected, w)).
Proof.
  intros Hd Hv.
  rewrite on_auth_received_after_podle with (cr_dict := cr_dict)
    by assumption.
  split; [|split; [|split]].
  - intros utxos ap cj ch sg w'.
    destruct (query_utxo_set _ _) as [|[r|] [|x l]]; try discriminate.
    destruct (Z.ltb_spec (u_confirms r) taker_utxo_age); [discriminate|].
    destruct (reqd_amt amount) as [reqd|e]; [|discriminate].
    destruct (Z.ltb_spec (u_value r) reqd); [discriminate|].
    intros _. exists r, reqd. auto.
  - intros Hne.
    destruct (query_utxo_set _ _) as [|[r|] [|x l]]; try reflexivity.
    exfalso. now apply (Hne r).
  - intros r -> Hage.
    destruct (Z.ltb_spec (u_confirms r) taker_utxo_age); [reflexivity|lia].
  - intros r reqd -> -> Hval.
    destruct (u_confirms r <? taker_utxo_age); [reflexivity|].
    destruct (Z.ltb_spec (u_value r) reqd); [reflexivity|lia].
Qed.

End OnAuthReceived.

Lemma on_auth_received_utxo_policy_witness :
  exists r reqd,
    @query_utxo_set unit (Demo.maker_world Demo.small_chain) ["cc:0"] true
    = [Some r] /\
    5 <= u_confirms r /\
    @reqd_amt unit (Demo.maker_world Demo.small_chain) 1000000 = Ok reqd /\
    reqd <= u_value r.
Proof.
  refine (proj1 (@on_auth_received_utxo_policy unit
                   (Demo.maker_world Demo.small_chain) tt "taker"
                   (Demo.mk_offer "J5maker" 3000) "commit" "cc:0" 1000000
                   "kp" _ eq_refl eq_refl) _ _ _ _ _ tt _).
  vm_compute. reflexivity.
Defined.

(** The claim of C3 with [floor(amount * taker_utxo_amtpercent / 100)]
    as the threshold fails: at 20 percent of 1801439850948205 sat the
    threshold the code computes is 360287970189640, one below the
    integer quotient, and a utxo of that value is accepted. *)
Lemma on_auth_received_below_floor :
  exists r utxos auth_pub cj_addr change_addr btc_sig,
    @on_auth_received unit (Demo.maker_world Demo.huge_chain) tt "taker"
      (Demo.mk_offer "J5maker" 3000) "commit" "cc:0" Demo.huge_amount "kp"
    = (Ok (AuthAccepted utxos auth_pub cj_addr change_addr btc_sig), tt) /\
    @query_utxo_set unit (Demo.maker_world Demo.huge_chain) ["cc:0"] true
    = [Some r] /\
    u_value r < (Demo.huge_amount * 20) / 100.
Proof.
  do 6 eexists. split; [|split].
  - vm_compute. reflexivity.
  - vm_compute. reflexivity.
  - vm_compute. reflexivity.
Qed.

End MakerFacts.

(** ** Reasoning about methods *)

Module MonadFacts.

#[export] Instance same_refl {S X} (p : S -> X) : Reflexive (same p).
Proof. intros s. reflexivity. Qed.

#[export] Instance same_trans {S X} (p : S -> X) : Transitive (same p).
Proof. intros a b c Hab Hbc. unfold same in *. congruence. Qed.

#[export] Instance within_refl {S X} (p : S -> list X) (extra : list X) :
  Reflexive (within p extra).
Proof. intros s x Hx. apply in_or_app. now right. Qed.

#[export] Instance within_trans {S X} (p : S -> list X) (extra : list X) :
  Transitive (within p extra).
Proof.
  intros a b c Hab Hbc x Hx. apply Hbc in Hx.
  apply in_app_or in Hx. destruct Hx as [Hx|Hx].
  - apply in_or_app. now left.
  - now apply Hab.
Qed.

Lemma within_more {S X} (p : S -> list X) (e1 e2 : list X) (s s' : S) :
  incl e1 e2 -> within p e1 s s' -> within p e2 s s'.
Proof.
  intros He Hw x Hx. apply Hw in Hx. apply in_app_or in Hx.
  apply in_or_app. destruct Hx as [Hx|Hx]; [left; now apply He | now right].
Qed.

Section Keeps.
Context {S : Type} (R : S -> S -> Prop).
Context {Rrefl : Reflexive R} {Rtrans : Transitive R}.

Lemma keeps_ret {A} (a : A) : keeps R (ret a).
Proof. intros s. apply Rrefl. Qed.

Lemma keeps_raise {A} (e : exn) : keeps R (@raise S A e).
Proof. intros s. apply Rrefl. Qed.

Lemma keeps_lift {A} (r : res A) : keeps R (lift r).
Proof. intros s. apply Rrefl. Qed.

Lemma keeps_get_state : keeps R get_state.
Proof. intros s. apply Rrefl. Qed.

Lemma keeps_modify (f : S -> S) : (forall s, R s (f s)) -> keeps R (modify f).
Proof. intros Hf s. apply Hf. Qed.

Lemma keeps_bind {A B} (m : M S A) (k : A -> M S B) :
  keeps R m -> (forall a, keeps R (k a)) -> keeps R (bind m k).
Proof.
  intros Hm Hk s. unfold bind. specialize (Hm s).
  destruct (m s) as [[a|e] s1]; simpl in *; [|assumption].
  apply Rtrans with s1; [assumption | apply Hk].
Qed.

Lemma keeps_for_each {A} (l : list A) (body : A -> M S unit) :
  (forall a, keeps R (body a)) -> keeps R (for_each l body).
Proof.
  intros Hb. induction l as [|a l IH]; simpl.
  - apply keeps_ret.
  - apply keeps_bind; [apply Hb | intros _; exact IH].
Qed.

Lemma keeps_for_each_in {A} (l : list A) (body : A -> M S unit) :
  (forall a, In a l -> keeps R (body a)) -> keeps R (for_each l body).
Proof.
  induction l as [|a l IH]; intros Hb; simpl.
  - apply keeps_ret.
  - apply keeps_bind; [apply Hb; now left | intros _].
    apply IH. intros b Hb'. apply Hb. now right.
Qed.

(** What a method keeps holds between the states of any of its runs. *)
Lemma keeps_run {A} {m : M S A} {s s' : S} {r : res A} :
  keeps R m -> m s = (r, s') -> R s s'.
Proof. intros Hk E. specialize (Hk s). rewrite E in Hk. exact Hk. Qed.

End Keeps.

(** How a sequence of two steps can end. *)
Lemma bind_inv {S A B} (m : M S A) (k : A -> M S B) (s s' : S)
    (r : res B) :
  bind m k s = (r, s') ->
  (exists e, m s = (Raise e, s') /\ r = Raise e) \/
  (exists a s1, m s = (Ok a, s1) /\ k a s1 = (r, s')).
Proof.
  unfold bind. destruct (m s) as [[a|e] s1]; intros E.
  - right. eauto.
  - left. injection E as <- <-. eauto.
Qed.

(** In a proof about a run [H : bind m k s = (Ok r, s')]: the run of [m]
    that did not raise, and the run of [k] after it. *)
Ltac bind_run H :=
  let e := fresh "e" in
  let a := fresh "a" in
  let s1 := fresh "s" in
  let E := fresh "E" in
  apply bind_inv in H;
  destruct H as [(e & E & ?) | (a & s1 & E & H)]; [discriminate|].

(** One step of a proof that a method keeps a relation. *)
Ltac keeps_step :=
  match goal with
  | |- keeps _ (bind _ _) => apply keeps_bind; [exact _ | | intros ?]
  | |- keeps _ (ret _) => apply keeps_ret; exact _
  | |- keeps _ (raise _) => apply keeps_raise; exact _
  | |- keeps _ (lift _) => apply keeps_lift; exact _
  | |- keeps _ get_state => apply keeps_get_state; exact _
  | |- keeps _ (modify _) => apply keeps_modify; intros ?
  | |- keeps _ (for_each _ _) =>
      apply keeps_for_each; [exact _ | exact _ | intros ?]
  | |- keeps _ (match ?x with _ => _ end) => destruct x
  end.

(** A method built from the monad's operations keeps the value of an
    attribute that none of its assignments touches. *)
Ltac keeps_same := repeat keeps_step; try reflexivity.

End MonadFacts.
Import MonadFacts.

(** ** The Taker's entry points *)

Module TakerFacts.
Import Taker.

Local Arguments String.append : simpl never.
Local Arguments str : simpl never.

(** The callbacks and small helpers are assignments to the trace. *)
Ltac unfold_actions :=
  unfold taker_info_callback, on_finished_callback, jlog, emit,
    import_new_addresses, add_ignored_makers, coinjoin_address,
    orderbook_entry in *.

Section Facts.
Context {W H : Type} {TW : World W H}.

(** C8, as the code has it.  With the abort flag set, each entry point
    returns at once and leaves every attribute as it was; [initialize]
    returns [(False,)], [receive_utxos] returns [(False, "User aborted")]
    and [on_sig] returns [False]. *)
Theorem abort_short_circuits (s : taker W) :
  aborted s = true ->
  (forall ob, exists r,
     initialize ob s = (Ok r, s) /\
     py_of_init_result r = PTuple [PBool false]) /\
  (forall ioauth_data, exists r,
     receive_utxos ioauth_data s = (Ok r, s) /\
     py_of_utxos_result r = PTuple [PBool false; PStr "User aborted"]) /\
  (forall nick sigb64, exists r,
     on_sig nick sigb64 s = (Ok r, s) /\
     py_of_sig_result r = PBool false).
Proof.
  intros Hab. split; [|split].
  - intros ob. exists InitFalse. split; [|reflexivity].
    unfold initialize, bind, get_state. rewrite Hab. reflexivity.
  - intros io. exists (RuFalse "User aborted"). split; [|reflexivity].
    unfold receive_utxos, bind, get_state. rewrite Hab. reflexivity.
  - intros nick sg. exists SigFalse. split; [|reflexivity].
    unfold on_sig, bind, get_state. rewrite Hab. reflexivity.
Qed.

(** What [settle_change] does, by the change address and the value of
    the change. *)
Lemma settle_change_cases (s : taker W) :
  (forall a, my_change_addr s = Some a -> a <> "" ->
     (taker_change s <= 0 ->
      exists msg s', settle_change s = (Raise (ValueError msg), s')) /\
     (0 < taker_change s <= BITCOIN_DUST_THRESHOLD ->
      exists s',
        settle_change s = (Ok tt, s') /\
        outputs s' = outputs s /\
        my_change_addr s' = None /\
        trace s' = (trace s ++ [log_estimate s;
                                log_dropping (taker_change s);
                                log_breakdown 0])%list) /\
     (0 < taker_change s -> BITCOIN_DUST_THRESHOLD < taker_change s ->
      exists s',
        settle_change s = (Ok tt, s') /\
        outputs s' = (outputs s ++ [{| o_address := a;
                                       o_value := taker_change s |}])%list /\
        my_change_addr s' = Some a)) /\
  (my_change_addr s = None ->
   exists s',
     settle_change s = (Ok tt, s') /\
     outputs s' = outputs s /\
     trace s' = (trace s ++ log_breakdown (taker_change s)
                 :: (if (taker_change s =? 0)
                        || (Z.abs (taker_change s) =? 1) then []
                     else [log_not_used (taker_change s)]))%list).
Proof.
  split.
  - intros a Ha Hne.
    assert (Ht : truthy (my_change_addr s) = true).
    { rewrite Ha. simpl. apply String.eqb_neq in Hne. now rewrite Hne. }
    unfold settle_change, bind, get_state, jlog, emit, modify, raise, ret.
    rewrite Ht. simpl. rewrite Ht. simpl.
    match goal with
    | |- context [my_change_value ?x] =>
        assert (Hc : my_change_value x = taker_change s)
          by (unfold my_change_value, taker_change, final_txfee;
              rewrite Ht; reflexivity);
        rewrite !Hc
    end.
    unfold log_estimate, log_dropping, log_breakdown, final_txfee.
    rewrite Ht.
    split; [|split].
    + intros Hle. apply Z.leb_le in Hle. rewrite Hle. eauto.
    + intros [Hpos Hdust].
      assert (E1 : (taker_change s <=? 0) = false) by (apply Z.leb_gt; lia).
      apply Z.leb_le in Hdust. rewrite E1, Hdust. simpl.
      eexists. split; [reflexivity|]. simpl.
      split; [reflexivity|]. split; [reflexivity|].
      rewrite <- !app_assoc. reflexivity.
    + intros Hpos Hdust.
      assert (E1 : (taker_change s <=? 0) = false) by (apply Z.leb_gt; lia).
      assert (E2 : (taker_change s <=? BITCOIN_DUST_THRESHOLD) = false)
        by (apply Z.leb_gt; lia).
      rewrite E1, E2. simpl. rewrite Ha.
      eexists. split; [reflexivity|]. simpl. rewrite Ha. auto.
  - intros Hn.
    assert (Hc : my_change_value s = taker_change s).
    { unfold my_change_value, taker_change, final_txfee.
      rewrite Hn. reflexivity. }
    unfold settle_change, bind, get_state, jlog, emit, modify, raise, ret.
    unfold truthy. rewrite Hn. repeat (cbn; rewrite ?Hn, ?Hc).
    unfold log_breakdown, log_not_used.
    destruct (taker_change s =? 0); cbn.
    + eexists. split; [reflexivity|]. cbn. auto.
    + destruct (Z.abs (taker_change s) =? 1); cbn.
      * eexists. split; [reflexivity|]. cbn. auto.
      * eexists. split; [reflexivity|]. cbn.
        split; [reflexivity|]. rewrite <- app_assoc. reflexivity.
Qed.

End Facts.

Lemma abort_short_circuits_witness :
  let s := set_aborted true (Demo.ready 5000000 false) in
  exists r,
    @receive_utxos _ _ (Demo.world (Demo.chain 5000000) false)
      [Demo.answer_A] s = (Ok r, s) /\
    py_of_utxos_result r = PTuple [PBool false; PStr "User aborted"].
Proof.
  intros s.
  exact (proj1 (proj2 (@abort_short_circuits _ _
                         (Demo.world (Demo.chain 5000000) false) s
                         eq_refl)) [Demo.answer_A]).
Defined.

(** The claim of C8 that every entry point answers
    [(false, "User aborted")] fails for [initialize], which answers
    [(False,)]. *)
Lemma initialize_abort_reply :
  let s := set_aborted true (Demo.new_taker 5000000 Demo.tumble) in
  exists r,
    @initialize _ _ (Demo.world (Demo.chain 5000000) false) Demo.offers s
    = (Ok r, s) /\
    py_of_init_result r <> PTuple [PBool false; PStr "User aborted"] /\
    py_eqb (py_of_init_result r) (PTuple [PBool false; PStr "User aborted"])
    = false.
Proof.
  intros s. exists InitFalse. split; [reflexivity|].
  split; [discriminate | reflexivity].
Qed.

Section Rejections.
Context {W H : Type} {TW : World W H}.

Local Abbreviation T := (M (taker W)).

Lemma auth_counterparty_run (sg pub pk : string) (s : taker W) :
  exists s1,
    auth_counterparty sg pub pk s = (Ok (ecdsa_ok sg pub pk), s1) /\
    ignored_makers s1 = ignored_makers s.
Proof.
  unfold auth_counterparty, ecdsa_ok.
  destruct (ecdsa_verify pk sg pub) as [[|]|e]; eexists; split;
    reflexivity.
Qed.

Lemma check_counterparty_run (nick : string) (d : nickdata)
    (rejected : list string) (s : taker W) :
  exists s1,
    check_counterparty nick d rejected s
    = (Ok (rejected ++ rejections_of nick d)%list, s1) /\
    ignored_makers s1 =
      if addresses_ok d then ignored_makers s
      else dedup (ignored_makers s ++ [nick])%list.
Proof.
  unfold check_counterparty, rejections_of, addresses_ok.
  destruct (auth_counterparty_run (btc_sig d) (auth_pub d) (maker_pk d) s)
    as (s1 & E1 & I1).
  unfold bind at 1. rewrite E1.
  destruct (ecdsa_ok (btc_sig d) (auth_pub d) (maker_pk d));
    destruct (validate_address (cj_addr d));
    destruct (validate_address (change_addr d));
    unfold bind, ret, jlog, emit, modify, add_ignored_makers; cbn;
    eexists;
    (split;
     [ apply f_equal2;
       [ apply f_equal; rewrite ?app_nil_r, <- ?app_assoc; reflexivity
       | reflexivity ]
     | cbn; rewrite ?I1; reflexivity ]).
Qed.

(** The first loop never raises; it lists every nick once for a bad
    signature and once for a bad address, and puts the nicks with a bad
    address, and no others, into [ignored_makers]. *)
Lemma check_counterparties_run (l : dict string nickdata)
    (rejected : list string) (s : taker W) :
  exists s1,
    check_counterparties l rejected s
    = (Ok (rejected
           ++ flat_map (fun nd => rejections_of (fst nd) (snd nd)) l)%list,
       s1) /\
    (forall x, In x (ignored_makers s1) <->
               In x (ignored_makers s) \/
               exists d, In (x, d) l /\ addresses_ok d = false).
Proof.
  revert rejected s. induction l as [|[nick d] l IH]; intros rejected s.
  - exists s. cbn. rewrite app_nil_r. split; [reflexivity|].
    intros x. split; [tauto|]. intros [Hx|(d & [] & _)]. exact Hx.
  - destruct (check_counterparty_run nick d rejected s) as (s1 & E1 & I1).
    destruct (IH (rejected ++ rejections_of nick d)%list s1)
      as (s2 & E2 & I2).
    exists s2. split.
    + cbn [check_counterparties]. unfold bind at 1. rewrite E1.
      rewrite E2. cbn [flat_map fst snd]. now rewrite <- app_assoc.
    + intros x. rewrite I2, I1. destruct (addresses_ok d) eqn:Ead.
      * split.
        -- intros [Hx|(d' & Hd' & Hbad)]; [now left|].
           right. exists d'. split; [now right | assumption].
        -- intros [Hx|(d' & [Heq|Hd'] & Hbad)]; [now left | | ].
           ++ injection Heq as -> ->. congruence.
           ++ right. eauto.
      * rewrite dedup_In, in_app_iff. split.
        -- intros [[Hx|[<-|[]]]|(d' & Hd' & Hbad)].
           ++ now left.
           ++ right. exists d. split; [now left | assumption].
           ++ right. exists d'. split; [now right | assumption].
        -- intros [Hx|(d' & [Heq|Hd'] & Hbad)].
           ++ left. now left.
           ++ injection Heq as -> ->. left. right. now left.
           ++ right. eauto.
Qed.


Lemma NoDup_keys_unique {V} (d : dict string V) (k : string) (v v' : V) :
  NoDup (keys d) -> In (k, v) d -> In (k, v') d -> v = v'.
Proof.
  induction d as [|[k0 v0] d IH]; cbn; [contradiction|].
  intros Hnd Hv Hv'. inversion Hnd as [|? ? Hnotin Hnd']; subst.
  destruct Hv as [Hv|Hv], Hv' as [Hv'|Hv'].
  - congruence.
  - injection Hv as -> ->. exfalso. apply Hnotin.
    apply (in_map fst) in Hv'. exact Hv'.
  - injection Hv' as -> ->. exfalso. apply Hnotin.
    apply (in_map fst) in Hv. exact Hv.
  - now apply IH.
Qed.





Lemma process_maker_accepts (nick : string) (d : nickdata) :
  keeps (within (fun s : taker W => keys (maker_utxo_data s)) [nick])
    (process_maker nick d).
Proof.
  unfold process_maker, accept_maker. unfold_actions.
  repeat keeps_step; try (intros x Hx; now right).
  intros x Hx. cbn in Hx. apply set_keys in Hx.
  destruct Hx as [->|Hx]; [now left | now right].
Qed.

Lemma process_makers_accepts (io : dict string nickdata) :
  keeps (within (fun s : taker W => keys (maker_utxo_data s)) (keys io))
    (process_makers io).
Proof.
  unfold process_makers. apply keeps_for_each_in; try exact _.
  intros [nick d] Hin s. cbn [fst snd].
  apply within_more with [nick]; [|apply process_maker_accepts].
  intros x [<-|[]]. apply (in_map fst) in Hin. exact Hin.
Qed.

Lemma settle_change_keeps_accepted :
  keeps (same (@maker_utxo_data W)) settle_change.
Proof. unfold settle_change. unfold_actions. keeps_same. Qed.

Lemma build_tx_keeps_accepted :
  keeps (same (@maker_utxo_data W)) build_tx.
Proof. unfold build_tx. unfold_actions. keeps_same. Qed.

Lemma build_tx_keeps_inputs :
  keeps (same (@input_utxos W)) build_tx.
Proof. unfold build_tx. unfold_actions. keeps_same. Qed.

Lemma coinjoin_address_run (s s' : taker W) (a : string) :
  coinjoin_address s = (Ok a, s') -> s' = s.
Proof.
  unfold coinjoin_address, bind, get_state, raise, ret.
  destruct (String.eqb (my_cj_addr s) ""); [discriminate|].
  now intros [= _ <-].
Qed.

(** What [build_tx] returns and leaves in [self.latest_tx]: the accepted
    nicks, and a transaction in which every input whose key is in
    [self.input_utxos] carries the placeholder. *)
Lemma build_tx_result (s s' : taker W) (nicks : list string) (tx : H) :
  build_tx s = (Ok (RuOk nicks tx), s') ->
  nicks = keys (maker_utxo_data s') /\
  exists txd,
    latest_tx s' = Some txd /\
    forall i, In i (ins txd) ->
              In (utxo_key i) (keys (input_utxos s')) ->
              in_script i = "deadbeef".
Proof.
  intros Hrun.
  assert (Hin : input_utxos s' = input_utxos s)
    by exact (keeps_run build_tx_keeps_inputs Hrun).
  unfold build_tx in Hrun.
  unfold taker_info_callback, jlog, emit in Hrun.
  repeat bind_run Hrun.
  unfold get_state, modify, lift, ret in *.
  repeat match goal with
         | E : coinjoin_address _ = (Ok _, _) |- _ =>
             apply coinjoin_address_run in E
         | E : (_, _) = (_, _) |- _ => injection E as ? ?
         end.
  subst. cbn in *. split; [reflexivity|].
  eexists. split; [reflexivity|].
  intros i Hi Hown. cbn in Hi. apply in_map_iff in Hi.
  destruct Hi as (i0 & Hi0 & _).
  match type of Hi0 with
  | (if ?c then _ else _) = _ => destruct c eqn:Em
  end.
  - now subst i.
  - subst i. apply mem_false in Em. contradiction.
Qed.

(** The nicks that [assemble_tx] returns are among the answers it was
    given, and the transaction it leaves is marked. *)
Lemma assemble_tx_result (io : dict string nickdata) (s s' : taker W)
    (nicks : list string) (tx : H) :
  assemble_tx io s = (Ok (RuOk nicks tx), s') ->
  incl nicks (keys io) /\
  exists txd,
    latest_tx s' = Some txd /\
    forall i, In i (ins txd) ->
              In (utxo_key i) (keys (input_utxos s')) ->
              in_script i = "deadbeef".
Proof.
  intros Hrun. unfold assemble_tx in Hrun.
  bind_run Hrun. bind_run Hrun. bind_run Hrun.
  unfold get_state in E1. injection E1 as <- <-.
  destruct (_ <? _).
  - unfold_actions. bind_run Hrun. discriminate.
  - bind_run Hrun. bind_run Hrun. bind_run Hrun.
    pose proof (keeps_run (process_makers_accepts io) E0) as Hacc.
    pose proof (keeps_run settle_change_keeps_accepted E3) as Hs.
    pose proof (keeps_run build_tx_keeps_accepted Hrun) as Hb.
    apply build_tx_result in Hrun. destruct Hrun as (-> & Hmark).
    split; [|exact Hmark].
    unfold same in *. rewrite Hb, Hs.
    unfold taker_info_callback, emit, modify in *.
    injection E as <- <-. injection E1 as <- <-. injection E2 as <- <-.
    cbn. intros x Hx. apply Hacc in Hx. cbn in Hx.
    now rewrite app_nil_r in Hx.
Qed.


Lemma orderbook_entry_run (nick : string) (s : taker W) :
  orderbook_entry nick s =
    (match orderbook s with
     | ObDict d =>
         match get nick d with
         | Some o => Ok o
         | None => Raise (KeyError nick)
         end
     | _ => Raise TypeError
     end, s).
Proof.
  unfold orderbook_entry, bind, get_state, ret, raise.
  destruct (orderbook s) as [| |d]; try reflexivity.
  now destruct (get nick d).
Qed.

(** What taking a maker into the transaction adds to the totals. *)
Lemma accept_maker_run (nick : string) (d : nickdata) (o : offer)
    (utxo_data : list utxo_record) (change : Z) (s : taker W) :
  exists s',
    accept_maker nick d o utxo_data change s = (Ok tt, s') /\
    orderbook s' = orderbook s /\ cjamount s' = cjamount s /\
    maker_utxo_data s' = set nick utxo_data (maker_utxo_data s) /\
    cjfee_total s' =
      cjfee_total s + calc_cj_fee (otype o) (cjfee o) (cjamount s) /\
    maker_txfee_contributions s' = maker_txfee_contributions s + txfee o.
Proof.
  unfold accept_maker, jlog, emit, bind, modify, get_state, ret. cbn.
  destruct (list_remove nick (nonrespondants s));
    eexists; (split; [reflexivity|]); cbn; repeat split; reflexivity.
Qed.

Lemma process_maker_totals (ob : dict string offer) (nick : string)
    (d : nickdata) (s s' : taker W) (r : res unit) :
  orderbook s = ObDict ob ->
  process_maker nick d s = (r, s') ->
  orderbook s' = ObDict ob /\ cjamount s' = cjamount s /\
  ((maker_utxo_data s' = maker_utxo_data s /\
    cjfee_total s' = cjfee_total s /\
    maker_txfee_contributions s' = maker_txfee_contributions s) \/
   (exists v,
      maker_utxo_data s' = set nick v (maker_utxo_data s) /\
      cjfee_total s' = cjfee_total s + fee_of ob (cjamount s) nick /\
      maker_txfee_contributions s' =
        maker_txfee_contributions s + txfee_of ob nick)).
Proof.
  intros Hob Hrun.
  assert (Hsame : forall s0 : taker W,
            orderbook s0 = orderbook s -> cjamount s0 = cjamount s ->
            maker_utxo_data s0 = maker_utxo_data s ->
            cjfee_total s0 = cjfee_total s ->
            maker_txfee_contributions s0 = maker_txfee_contributions s ->
            orderbook s0 = ObDict ob /\ cjamount s0 = cjamount s /\
            ((maker_utxo_data s0 = maker_utxo_data s /\
              cjfee_total s0 = cjfee_total s /\
              maker_txfee_contributions s0 = maker_txfee_contributions s) \/
             (exists v,
                maker_utxo_data s0 = set nick v (maker_utxo_data s) /\
                cjfee_total s0 =
                  cjfee_total s + fee_of ob (cjamount s) nick /\
                maker_txfee_contributions s0 =
                  maker_txfee_contributions s + txfee_of ob nick))).
  { intros s0 H1 H2 H3 H4 H5. rewrite H1. repeat split; auto. }
  unfold process_maker in Hrun.
  unfold bind at 1, modify at 1 in Hrun.
  set (s1 := set_utxos (set (Some nick) (utxo_list d) (utxos s)) s) in Hrun.
  destruct (all_some _) as [utxo_data|].
  - unfold bind at 1, lift at 1 in Hrun.
    destruct (unhexlify (auth_pub d)) as [pub|e];
      [|injection Hrun as _ <-; now apply Hsame].
    unfold bind at 1, get_state in Hrun.
    unfold bind at 1, lift at 1 in Hrun.
    destruct (auth_pub_in_inputs _ _ _) as [found|e];
      [|injection Hrun as _ <-; now apply Hsame].
    destruct (negb found).
    + unfold jlog, emit, modify in Hrun. injection Hrun as _ <-.
      now apply Hsame.
    + unfold bind at 1 in Hrun. rewrite orderbook_entry_run in Hrun.
      change (orderbook s1) with (orderbook s) in Hrun. rewrite Hob in Hrun.
      destruct (get nick ob) as [o|] eqn:Eo;
        [|injection Hrun as _ <-; now apply Hsame].
      destruct (_ <? _).
      * unfold jlog, emit, bind, modify in Hrun. injection Hrun as _ <-.
        now apply Hsame.
      * destruct (accept_maker_run nick d o utxo_data
                    (maker_change_amount (sum (map u_value utxo_data))
                       (cjamount s1) o) s1)
          as (s2 & E2 & Ho & Hc & Hm & Hf & Ht).
        rewrite E2 in Hrun. injection Hrun as _ <-.
        split; [now rewrite Ho|]. split; [now rewrite Hc|].
        right. exists utxo_data. unfold fee_of, txfee_of. rewrite Eo.
        auto.
  - unfold jlog, emit in Hrun.
    unfold bind at 1, modify at 1 in Hrun.
    unfold bind at 1, modify at 1 in Hrun.
    unfold bind at 1, get_state in Hrun.
    match type of Hrun with
    | context [del ?k ?u] => destruct (del k u)
    end.
    + unfold modify in Hrun. injection Hrun as _ <-. now apply Hsame.
    + unfold raise in Hrun. injection Hrun as _ <-. now apply Hsame.
Qed.

Lemma set_keys_new {V} (k : string) (v : V) (d : dict string V) :
  ~ In k (keys d) -> keys (set k v d) = (keys d ++ [k])%list.
Proof.
  induction d as [|[k' v'] d IH]; cbn; [reflexivity|].
  intros Hn. destruct (String.eqb_spec k k') as [->|Hne].
  - exfalso. apply Hn. now left.
  - cbn. f_equal. apply IH. intros Hin. apply Hn. now right.
Qed.

Lemma sum_app (l1 l2 : list Z) : sum (l1 ++ l2) = sum l1 + sum l2.
Proof.
  unfold sum. rewrite fold_left_app, (sum_from l2 (fold_left Z.add l1 0)).
  reflexivity.
Qed.

Lemma process_makers_totals (ob : dict string offer)
    (io : dict string nickdata) :
  NoDup (keys io) ->
  forall (s s' : taker W) (r : res unit),
    orderbook s = ObDict ob ->
    (forall k, In k (keys (maker_utxo_data s)) -> ~ In k (keys io)) ->
    process_makers io s = (r, s') ->
    exists new,
      keys (maker_utxo_data s') = (keys (maker_utxo_data s) ++ new)%list /\
      incl new (keys io) /\
      cjfee_total s' =
        cjfee_total s + sum (map (fee_of ob (cjamount s)) new) /\
      maker_txfee_contributions s' =
        maker_txfee_contributions s + sum (map (txfee_of ob) new).
Proof.
  unfold process_makers.
  induction io as [|[nick d] io IH]; intros Hnd s s' r Hob Hfresh; cbn.
  - intros [= _ <-]. exists []. rewrite app_nil_r. cbn.
    repeat split; try lia. intros x [].
  - inversion Hnd as [|? ? Hnick Hnd']; subst.
    unfold bind at 1.
    destruct (process_maker nick d s) as [[[]|e] s1] eqn:E1.
    + pose proof E1 as E1'.
      eapply process_maker_totals in E1'; [|exact Hob].
      destruct E1' as (Hob1 & Hcj1 & Hcase).
      intros Hrest.
      assert (Hk1 : exists new1,
                 keys (maker_utxo_data s1)
                 = (keys (maker_utxo_data s) ++ new1)%list /\
                 incl new1 [nick] /\
                 cjfee_total s1 =
                   cjfee_total s + sum (map (fee_of ob (cjamount s)) new1) /\
                 maker_txfee_contributions s1 =
                   maker_txfee_contributions s
                   + sum (map (txfee_of ob) new1)).
      { destruct Hcase as [(Hm & Hf & Ht)|(v & Hm & Hf & Ht)].
        - exists []. rewrite Hm, Hf, Ht, app_nil_r. cbn.
          repeat split; try lia. intros x [].
        - exists [nick]. rewrite Hm, Hf, Ht. cbn.
          rewrite set_keys_new.
          + repeat split; try (unfold sum; cbn; lia). apply incl_refl.
          + intros Hin. apply (Hfresh nick Hin). now left. }
      destruct Hk1 as (new1 & Hkeys1 & Hincl1 & Hfee1 & Htx1).
      apply IH in Hrest; [|assumption|assumption|].
      * destruct Hrest as (new2 & Hkeys2 & Hincl2 & Hfee2 & Htx2).
        exists (new1 ++ new2)%list.
        rewrite Hkeys2, Hkeys1, Hfee2, Hfee1, Htx2, Htx1, Hcj1.
        rewrite !map_app, !sum_app, <- app_assoc.
        repeat split; try lia.
        intros x Hx. apply in_app_or in Hx. destruct Hx as [Hx|Hx].
        -- apply Hincl1 in Hx. destruct Hx as [<-|[]]. now left.
        -- right. now apply Hincl2.
      * intros k Hk Hin. rewrite Hkeys1 in Hk. apply in_app_or in Hk.
        destruct Hk as [Hk|Hk].
        -- apply (Hfresh k Hk). now right.
        -- apply Hincl1 in Hk. destruct Hk as [<-|[]]. contradiction.
    + pose proof E1 as E1'.
      eapply process_maker_totals in E1'; [|exact Hob].
      destruct E1' as (Hob1 & Hcj1 & Hcase).
      intros [= _ <-].
      destruct Hcase as [(Hm & Hf & Ht)|(v & Hm & Hf & Ht)].
      * exists []. rewrite Hm, Hf, Ht, app_nil_r. cbn.
        repeat split; try lia. intros x [].
      * exists [nick]. rewrite Hm, Hf, Ht. cbn.
        rewrite set_keys_new.
        -- repeat split; try (unfold sum; cbn; lia).
           intros x [<-|[]]. now left.
        -- intros Hin. apply (Hfresh nick Hin). now left.
Qed.

End Rejections.

Section Signatures.
Context {W H : Type} {TW : World W H}.

Lemma enumerate_from_In {A} (l : list A) (k n : nat) (x : A) :
  In (n, x) (enumerate_from k l) ->
  (k <= n)%nat /\ nth_error l (n - k) = Some x.
Proof.
  revert k. induction l as [|y l IH]; intros k; cbn; [contradiction|].
  intros [E|Hin].
  - injection E as <- <-. split; [lia|]. now rewrite Nat.sub_diag.
  - apply IH in Hin. destruct Hin as [Hle Hn]. split; [lia|].
    replace (n - k)%nat with (S (n - S k)) by lia. exact Hn.
Qed.

Lemma enumerate_In {A} (l : list A) (n : nat) (x : A) :
  In (n, x) (enumerate l) -> nth_error l n = Some x.
Proof.
  intros Hin. apply enumerate_from_In in Hin.
  now rewrite Nat.sub_0_r in Hin.
Qed.

(** The candidates of [on_sig] are inputs whose script is empty. *)
Lemma unsigned_inputs_empty (tx : txdict) (idx : nat) (key : string) :
  In (idx, key) (unsigned_inputs tx) ->
  exists i, nth_error (ins tx) idx = Some i /\ in_script i = "".
Proof.
  unfold unsigned_inputs. intros Hin. apply in_flat_map in Hin.
  destruct Hin as ([n i] & Hen & Hin).
  destruct (String.eqb_spec (in_script i) ""); [|contradiction].
  destruct Hin as [E|[]]. injection E as -> _.
  exists i. split; [now apply enumerate_In | assumption].
Qed.

Lemma sig_step_refl (l : list txin) : Forall2 sig_step l l.
Proof. induction l; constructor; [split|]; auto. Qed.

Lemma update_nth_sig_step (f : txin -> txin) (l : list txin) (idx : nat)
    (i : txin) :
  (forall x, in_outpoint (f x) = in_outpoint x) ->
  nth_error l idx = Some i -> in_script i = "" ->
  Forall2 sig_step l (update_nth idx f l).
Proof.
  intros Hf. revert idx. induction l as [|x l IH]; intros [|idx]; cbn;
    try discriminate.
  - intros [= ->] Hemp. constructor; [|apply sig_step_refl].
    split; [apply Hf | congruence].
  - intros Hn Hemp. constructor; [split; auto | now apply IH].
Qed.

Lemma insert_sig_step (idx : nat) (r : utxo_record)
    (sg ver_sig ver_pub : string) (ver_amt : option Z) (tx : txdict)
    (i : txin) :
  nth_error (ins tx) idx = Some i -> in_script i = "" ->
  Forall2 sig_step (ins tx)
    (ins (insert_sig idx r sg ver_sig ver_pub ver_amt tx)).
Proof.
  intros Hn Hemp. unfold insert_sig, write_witness, write_script.
  destruct ver_amt as [amt|]; [destruct (negb (amt =? 0))|]; cbn [ins];
    apply update_nth_sig_step with i; auto.
Qed.

Lemma note_signed_keeps_tx (nick utxo : string) :
  keeps (same (@latest_tx W)) (note_signed nick utxo).
Proof.
  unfold note_signed. unfold_actions. keeps_same.
  unfold same. now destruct (list_remove nick (nonrespondants _)).
Qed.

Lemma note_signed_keeps_inputs (nick utxo : string) :
  keeps (same (@input_utxos W)) (note_signed nick utxo).
Proof.
  unfold note_signed. unfold_actions. keeps_same.
  unfold same. now destruct (list_remove nick (nonrespondants _)).
Qed.

(** One insertion: the log line, the assignment into the transaction,
    and the bookkeeping. *)
Lemma insertion_run (nick key : string) (idx : nat) (f : txdict -> txdict)
    (msg : string) (s s' : taker W) (r : res bool) (txd : txdict) :
  latest_tx s = Some txd ->
  (jlog "debug" msg ;;;
   modify (fun s => set_latest_tx (option_map f (latest_tx s)) s) ;;;
   note_signed nick key ;;;
   ret true) s = (r, s') ->
  latest_tx s' = Some (f txd) /\ input_utxos s' = input_utxos s.
Proof.
  intros Htx Hrun. unfold jlog, emit in Hrun.
  unfold bind at 1, modify at 1 in Hrun.
  unfold bind at 1, modify at 1 in Hrun. cbn in Hrun. rewrite Htx in Hrun.
  unfold bind at 1 in Hrun.
  destruct (note_signed nick key _) as [[[]|e] s1] eqn:En.
  - pose proof (keeps_run (note_signed_keeps_tx nick key) En) as Ht.
    pose proof (keeps_run (note_signed_keeps_inputs nick key) En) as Hi.
    unfold ret in Hrun. injection Hrun as _ <-. now rewrite Ht, Hi.
  - pose proof (keeps_run (note_signed_keeps_tx nick key) En) as Ht.
    pose proof (keeps_run (note_signed_keeps_inputs nick key) En) as Hi.
    injection Hrun as _ <-. now rewrite Ht, Hi.
Qed.

(** The insertion loop changes at most one input, one whose script was
    empty, and leaves [self.input_utxos] alone. *)
Lemma insert_signature_step (nick sg : string) (txhex : H)
    (utxo_data : list (option utxo_record))
    (utxo : list (nat * (nat * string))) (txd : txdict) :
  (forall n idx key, In (n, (idx, key)) utxo ->
     exists i, nth_error (ins txd) idx = Some i /\ in_script i = "") ->
  forall (s s' : taker W) (r : res bool),
    latest_tx s = Some txd ->
    insert_signature nick sg txhex utxo_data utxo s = (r, s') ->
    input_utxos s' = input_utxos s /\
    exists txd', latest_tx s' = Some txd' /\
                 Forall2 sig_step (ins txd) (ins txd').
Proof.
  assert (Hsame : forall s : taker W, latest_tx s = Some txd ->
            input_utxos s = input_utxos s /\
            exists txd', latest_tx s = Some txd' /\
                         Forall2 sig_step (ins txd) (ins txd')).
  { intros s Htx. split; [reflexivity|]. exists txd.
    split; [assumption | apply sig_step_refl]. }
  induction utxo as [|[n [idx key]] rest IH]; intros Hcand s s' r Htx;
    cbn [insert_signature].
  - intros [= _ <-]. now apply Hsame.
  - destruct (Hcand n idx key (or_introl eq_refl)) as (i & Hi & Hemp).
    assert (Hrest : forall s s' r, latest_tx s = Some txd ->
              insert_signature nick sg txhex utxo_data rest s = (r, s') ->
              input_utxos s' = input_utxos s /\
              exists txd', latest_tx s' = Some txd' /\
                           Forall2 sig_step (ins txd) (ins txd')).
    { apply IH. intros n' idx' key' Hin. apply (Hcand n' idx' key').
      now right. }
    destruct (nth_error utxo_data n) as [[rec|]|].
    + unfold bind at 1, lift.
      destruct (deserialize_script sg) as [sd|e].
      * destruct (negb (forallb item_ok sd)).
        -- unfold jlog, emit, bind, modify, ret. intros [= _ <-].
           cbn. now apply Hsame.
        -- destruct (map hex_of sd) as [|vs [|vp [|sc [|x l]]]].
           ++ unfold jlog, emit, bind, modify, ret. intros [= _ <-].
              cbn. now apply Hsame.
           ++ unfold jlog, emit, bind, modify, ret. intros [= _ <-].
              cbn. now apply Hsame.
           ++ destruct (sig_good_for txhex idx rec vs vp None None).
              ** intros Hrun.
                 eapply insertion_run in Hrun; try eassumption.
                 destruct Hrun as [Ht Hin].
                 split; [assumption|]. eexists. split; [exact Ht|].
                 now apply insert_sig_step with i.
              ** now apply Hrest.
           ++ destruct (sig_good_for txhex idx rec vs vp (Some sc)
                          (Some (u_value rec))).
              ** intros Hrun.
                 eapply insertion_run in Hrun; try eassumption.
                 destruct Hrun as [Ht Hin].
                 split; [assumption|]. eexists. split; [exact Ht|].
                 now apply insert_sig_step with i.
              ** now apply Hrest.
           ++ unfold jlog, emit, bind, modify, ret. intros [= _ <-].
              cbn. now apply Hsame.
      * intros [= _ <-]. now apply Hsame.
    + now apply Hrest.
    + unfold raise. intros [= _ <-]. now apply Hsame.
Qed.

Lemma insert_sigs_step (nick sigb64 : string) (s s' : taker W)
    (r : res unit) (txd : txdict) :
  latest_tx s = Some txd ->
  insert_sigs nick sigb64 s = (r, s') ->
  input_utxos s' = input_utxos s /\
  exists txd', latest_tx s' = Some txd' /\
               Forall2 sig_step (ins txd) (ins txd').
Proof.
  intros Htx. unfold insert_sigs, bind at 1, get_state.
  unfold bind at 1, lift.
  destruct (b64decode sigb64) as [raw|e].
  - rewrite Htx. unfold bind at 1.
    destruct (insert_signature _ _ _ _ _ s) as [[b|e] s1] eqn:Eloop.
    + apply insert_signature_step with (txd := txd) in Eloop;
        [|intros n idx key Hin; apply enumerate_In in Hin;
          apply nth_error_In in Hin;
          now apply unsigned_inputs_empty with key | assumption].
      destruct b; unfold jlog, emit, modify, ret; intros [= _ <-];
        exact Eloop.
    + apply insert_signature_step with (txd := txd) in Eloop;
        [|intros n idx key Hin; apply enumerate_In in Hin;
          apply nth_error_In in Hin;
          now apply unsigned_inputs_empty with key | assumption].
      intros [= _ <-]. exact Eloop.
  - intros [= _ <-]. split; [reflexivity|]. exists txd.
    split; [assumption | apply sig_step_refl].
Qed.

(** Inputs that stay as they are unless their script was empty keep the
    taker's placeholders. *)
Lemma sig_step_keeps_marks (own : list string) (l l' : list txin) :
  Forall2 sig_step l l' ->
  (forall i, In i l -> In (utxo_key i) own -> in_script i = "deadbeef") ->
  forall i', In i' l' -> In (utxo_key i') own -> in_script i' = "deadbeef".
Proof.
  induction 1 as [|i i' l l' [Hout Hkeep] _ IH]; intros Hmark j Hj Hown.
  - destruct Hj.
  - destruct Hj as [<-|Hj].
    + assert (Hkey : utxo_key i' = utxo_key i)
        by (unfold utxo_key; now rewrite Hout).
      rewrite Hkey in Hown.
      assert (Hi : in_script i = "deadbeef")
        by (apply Hmark; [now left | assumption]).
      rewrite Hkeep; [assumption|]. rewrite Hi. discriminate.
    + apply IH; auto. intros i0 Hi0. apply Hmark. now right.
Qed.

(** [receive_utxos] leaves every taker-owned input of the transaction
    with the placeholder script; and the part of [on_sig] that inserts
    a counterparty's signature leaves every input that spends the same
    outpoint, and leaves every input whose script is not empty exactly
    as it was: in particular the taker-owned inputs, which stay
    marked. *)
Lemma maker_signature_targets :
  (forall (s s' : taker W) io nicks (tx : H),
     receive_utxos io s = (Ok (RuOk nicks tx), s') -> own_marked s') /\
  (forall (s s' : taker W) nick sigb64 r txd,
     latest_tx s = Some txd ->
     insert_sigs nick sigb64 s = (r, s') ->
     exists txd',
       latest_tx s' = Some txd' /\
       Forall2 sig_step (ins txd) (ins txd') /\
       (own_marked s -> own_marked s')).
Proof.
  split.
  - intros s s' io nicks tx Hrun.
    unfold receive_utxos, bind at 1, get_state in Hrun.
    destruct (aborted s); [discriminate|].
    bind_run Hrun. bind_run Hrun.
    apply assemble_tx_result in Hrun. exact (proj2 Hrun).
  - intros s s' nick sigb64 r txd Htx Hrun.
    destruct (insert_sigs_step _ _ _ Htx Hrun) as (Hin & txd' & Ht' & Hstep).
    exists txd'. split; [assumption|]. split; [assumption|].
    intros (t0 & Ht0 & Hmark). rewrite Htx in Ht0. injection Ht0 as <-.
    exists txd'. split; [assumption|]. rewrite Hin.
    now apply sig_step_keeps_marks with (ins txd).
Qed.

End Signatures.

(** The claim of C4 that a change of at most the dust threshold is
    always dropped fails when the change is zero or less: with a wallet
    of 1005000 sat the change is -1000 sat and [receive_utxos] raises
    [ValueError]. *)
Lemma nonpositive_change_not_dropped :
  let TW := Demo.world (Demo.chain 1005000) false in
  let s := Demo.ready 1005000 false in
  let s_mid := snd (process_makers [Demo.answer_A]
                      (set_maker_utxo_data [] s)) in
  my_change_addr s_mid = Some "internal0" /\
  taker_change s_mid = -1000 /\
  taker_change s_mid <= BITCOIN_DUST_THRESHOLD /\
  exists msg,
    fst (settle_change s_mid) = Raise (ValueError msg) /\
    fst (receive_utxos [Demo.answer_A] s) = Raise (ValueError msg).
Proof.
  cbv zeta. split; [vm_compute; reflexivity|].
  split; [vm_compute; reflexivity|].
  split; [vm_compute; discriminate|].
  eexists. split; vm_compute; reflexivity.
Qed.


(** C10 (what the code does).  An answer that fails both the signature
    check and the address check is listed twice for removal, and the
    second [del ioauth_data[rc]] raises [KeyError]. *)
Theorem double_rejection_raises :
  let TW := Demo.world (Demo.chain 5000000) false in
  let s := Demo.ready 5000000 false in
  fst (check_counterparties [Demo.answer_A; Demo.answer_bad] [] s)
  = Ok ["B"; "B"] /\
  fst (receive_utxos [Demo.answer_A; Demo.answer_bad] s)
  = Raise (KeyError "B").
Proof. cbv zeta. split; vm_compute; reflexivity. Qed.

(** C6 (what the code does).  Maker B, whose change would be -400 sat,
    is left out of the accepted makers and of [ignored_makers], and the
    transaction is built; but B's utxo stays in [self.utxos] and is an
    input of that transaction. *)
Theorem dropped_maker_input_stays :
  let TW := Demo.world (Demo.chain 5000000) false in
  let s := Demo.ready 5000000 false in
  maker_change_amount 1000100 (cjamount s) (Demo.mk_offer "B" 500) = -400 /\
  exists tx s',
    receive_utxos [Demo.answer_A; Demo.answer_B] s
    = (Ok (RuOk ["A"] tx), s') /\
    ~ In "B" (ignored_makers s') /\
    get (Some "B") (utxos s') = Some ["bb:0"] /\
    In "bb:0" (utxo_tx s') /\
    In "bb:0" (map utxo_key (ins tx)).
Proof.
  cbv zeta. split; [reflexivity|].
  eexists. eexists. split; [vm_compute; reflexivity|].
  split; [vm_compute; tauto|].
  split; [vm_compute; reflexivity|].
  split; vm_compute; tauto.
Qed.

(** In [initialize], [si[0] != self.schedule[self.schedule_index - 1]]
    compares an int with a whole schedule entry, and so always holds. *)
Lemma mixdepth_never_equals_entry (m : Z) (e : schedule_entry) :
  py_eqb (PInt m) (py_of_entry e) = false.
Proof. reflexivity. Qed.

(** C7 (what the code does).  For two schedule entries in the same
    mixdepth, each asking for half of the balance, the second
    [initialize] asks the wallet for the balance again: with 5000000 sat
    at the first entry and 3000000 sat left at the second, the second
    amount is 1500000 sat, not half of the balance at entry to the
    mixdepth. *)
Theorem fraction_balance_queried_again :
  map se_mixdepth Demo.tumble = [0; 0] /\
  mixdepthbal Demo.tumble_first = Some 5000000 /\
  cjamount Demo.tumble_first = 2500000 /\
  schedule_index Demo.tumble_second = 1 /\
  mixdepthbal Demo.tumble_second = Some 3000000 /\
  cjamount Demo.tumble_second = 1500000.
Proof. repeat split; vm_compute; reflexivity. Qed.

(** C9 (what the code does).  For an input that spends a native segwit
    utxo, [on_sig] stores the witness and sets the script to the empty
    string, the mark of an input that is not signed.  With one such input
    of maker A: after A's signature nobody is awaited, yet [on_sig]
    returns [False], no [txid] is set, and whatever A sends later is
    answered [None].  With two such inputs of maker A: the second
    signature goes into the input that the first one has signed and
    replaces its witness, and the other input stays without one. *)
Theorem native_input_stays_unsigned :
  let TW := Demo.world (Demo.chain 5000000) true in
  let state_of (t : option txdict) :=
    match t with
    | Some t =>
        map (fun i => (utxo_key i, in_script i, in_witness i)) (ins t)
    | None => []
    end in
  (state_of (latest_tx Demo.awaiting_native)
   = [("aa:0", "", None); ("tt:0", "deadbeef", None)] /\
   nonrespondants Demo.awaiting_native = ["A"] /\
   fst (on_sig "A" "sig1|PA|code" Demo.awaiting_native) = Ok SigFalse /\
   state_of (latest_tx Demo.native_signed)
   = [("aa:0", "", Some ["sig1"; "PA"]); ("tt:0", "deadbeef", None)] /\
   nonrespondants Demo.native_signed = [] /\
   txid Demo.native_signed = None /\
   fst (on_sig "A" "sig1|PA|code" Demo.native_signed) = Ok SigNone) /\
  (state_of (latest_tx Demo.awaiting_sigs)
   = [("aa:1", "", None); ("aa:0", "", None); ("tt:0", "deadbeef", None)] /\
   fst (on_sig "A" "sig1|PA|code" Demo.awaiting_sigs) = Ok SigFalse /\
   state_of (latest_tx Demo.signed_once)
   = [("aa:1", "", Some ["sig1"; "PA"]); ("aa:0", "", None);
      ("tt:0", "deadbeef", None)] /\
   fst (on_sig "A" "sig2|PA|code" Demo.signed_once) = Ok SigFalse /\
   state_of (latest_tx Demo.signed_twice)
   = [("aa:1", "", Some ["sig2"; "PA"]); ("aa:0", "", None);
      ("tt:0", "deadbeef", None)] /\
   nonrespondants Demo.signed_twice = ["A"]).
Proof. cbv zeta. repeat split; vm_compute; reflexivity. Qed.

End TakerFacts.

(** ** More about lists *)

Module ListFacts.

Lemma sum_cons (x : Z) (l : list Z) : sum (x :: l) = x + sum l.
Proof. unfold sum. cbn. now rewrite sum_from. Qed.

Lemma NoDup_map_filter {V K : Type} (key : V -> K) (keep : V -> bool)
    (items : list V) :
  NoDup (map key items) -> NoDup (map key (filter keep items)).
Proof.
  intros Hnd. induction items as [|y rest IH]; cbn; [constructor|].
  cbn in Hnd. apply NoDup_cons_iff in Hnd. destruct Hnd as [Hn Hnd].
  destruct (keep y); cbn; [|now apply IH].
  constructor; [|now apply IH].
  intros Hin. apply Hn. apply in_map_iff in Hin.
  destruct Hin as (x & <- & Hx). apply in_map.
  apply filter_In in Hx. tauto.
Qed.

Lemma filter_all {A} (p : A -> bool) (l : list A) :
  (forall x, p x = true) -> filter p l = l.
Proof.
  intros Hp. induction l as [|y l IH]; [reflexivity|].
  cbn. now rewrite Hp, IH.
Qed.

Lemma filter_filter {A} (p q : A -> bool) (l : list A) :
  filter p (filter q l) = filter (fun x => q x && p x) l.
Proof.
  induction l as [|y l IH]; [reflexivity|]. cbn.
  destruct (q y); cbn; [destruct (p y)|]; now rewrite IH.
Qed.

Lemma NoDup_dedup {K} {HK : Key K} {HKo : KeyOk K} (l : list K) :
  NoDup (dedup l).
Proof.
  induction l as [|x l IH]; cbn; [constructor|].
  destruct (mem x l) eqn:E; [assumption|].
  constructor; [|assumption].
  rewrite dedup_In. now apply mem_false.
Qed.

Lemma filter_all_in {A} (p : A -> bool) (l : list A) :
  (forall x, In x l -> p x = true) -> filter p l = l.
Proof.
  induction l as [|y l IH]; intros Hp; [reflexivity|].
  cbn. rewrite Hp by now left. f_equal. apply IH.
  intros x Hx. apply Hp. now right.
Qed.

End ListFacts.
Import ListFacts.

(** ** More about the Maker: what acceptance amounts to *)

Module MakerProps.
Import Maker.

Section VerifyUnsignedTx.
Context {L : MakerLib}.

(** When every output to one of the two scripts has the required value,
    the loop over the outputs runs to its end and counts them. *)
Lemma scan_outs_counts (cjs chs : string) (amount expected : Z)
    (l : list txout) (c1 c2 : Z) :
  (forall o, In o l ->
     (out_script o = cjs -> out_value o = amount) /\
     (out_script o = chs -> out_value o = expected)) ->
  scan_outs cjs chs amount expected l c1 c2
  = inr (c1 + Z.of_nat
                (List.length
                   (filter (fun o => String.eqb (out_script o) cjs) l)),
         c2 + Z.of_nat
                (List.length
                   (filter (fun o => String.eqb (out_script o) chs) l))).
Proof.
  revert c1 c2. induction l as [|o l IH]; intros c1 c2 Hall.
  - cbn. now rewrite !Z.add_0_r.
  - assert (Hrest : forall o', In o' l ->
              (out_script o' = cjs -> out_value o' = amount) /\
              (out_script o' = chs -> out_value o' = expected))
      by (intros o' Ho'; apply Hall; now right).
    destruct (Hall o (or_introl eq_refl)) as [Hcj Hch].
    cbn [scan_outs filter].
    destruct (String.eqb_spec (out_script o) cjs) as [Ecj|Ecj];
      destruct (String.eqb_spec (out_script o) chs) as [Ech|Ech];
      cbn [andb negb];
      rewrite ?(proj2 (Z.eqb_eq _ _) (Hcj Ecj)),
              ?(proj2 (Z.eqb_eq _ _) (Hch Ech));
      cbn [negb]; rewrite IH by assumption;
      cbn [List.length]; f_equal; f_equal; lia.
Qed.

(** The values of the outputs that satisfy [p] or [q], when the two
    exclude each other and fix the value. *)
Lemma paid_sum (p q : txout -> bool) (a e : Z) (l : list txout) :
  (forall o, In o l ->
     (p o = true -> out_value o = a) /\ (q o = true -> out_value o = e)) ->
  (forall o, p o = true -> q o = true -> False) ->
  sum (map out_value (filter (fun o => p o || q o) l))
  = a * Z.of_nat (List.length (filter p l))
    + e * Z.of_nat (List.length (filter q l)).
Proof.
  intros Hall Hdisj. induction l as [|o l IH]; [cbn; lia|].
  assert (Hrest : forall o', In o' l ->
            (p o' = true -> out_value o' = a) /\
            (q o' = true -> out_value o' = e))
    by (intros o' Ho'; apply Hall; now right).
  destruct (Hall o (or_introl eq_refl)) as [Hp Hq].
  cbn [filter].
  destruct (p o) eqn:Ep; destruct (q o) eqn:Eq; cbn [orb map List.length];
    rewrite ?sum_cons, IH by assumption.
  - exfalso. now apply (Hdisj o).
  - rewrite Hp by reflexivity. lia.
  - rewrite Hq by reflexivity. lia.
  - reflexivity.
Qed.

End VerifyUnsignedTx.

(** X1.  [verify_unsigned_tx] accepts every transaction that has each of the
    Maker's utxos among its inputs, exactly one output to the script of
    [cjaddr], of value [amount], and exactly one output to the script of
    [changeaddr], of the expected change value; whatever other inputs and
    outputs it has. *)
Theorem verify_unsigned_tx_complete (L : MakerLib) (txd : txdict)
    (oi : offerinfo) (o1 o2 : txout) :
  (forall k, In k (keys (oi_utxos oi)) -> In k (map utxo_key (ins txd))) ->
  filter (pays_to (oi_cjaddr oi)) (outs txd) = [o1] ->
  out_value o1 = oi_amount oi ->
  filter (pays_to (oi_changeaddr oi)) (outs txd) = [o2] ->
  out_value o2 = expected_change_value oi ->
  verify_unsigned_tx txd oi = (true, None).
Proof.
  intros Hsub Hcj Hv1 Hch Hv2. unfold verify_unsigned_tx.
  assert (Hall : forallb (fun k => mem k (map utxo_key (ins txd)))
                   (keys (oi_utxos oi)) = true).
  { apply forallb_forall. intros k Hk. apply mem_In. now apply Hsub. }
  rewrite Hall. cbn [negb].
  unfold pays_to in Hcj, Hch.
  rewrite scan_outs_counts.
  - rewrite Hcj, Hch. reflexivity.
  - intros o Ho. split; intros Hs.
    + assert (Hin : In o (filter (fun o => String.eqb (out_script o)
                                   (address_to_script (oi_cjaddr oi)))
                            (outs txd)))
        by (apply filter_In; split; [assumption | now apply String.eqb_eq]).
      rewrite Hcj in Hin. destruct Hin as [<-|[]]. assumption.
    + assert (Hin : In o (filter (fun o => String.eqb (out_script o)
                                   (address_to_script (oi_changeaddr oi)))
                            (outs txd)))
        by (apply filter_In; split; [assumption | now apply String.eqb_eq]).
      rewrite Hch in Hin. destruct Hin as [<-|[]]. assumption.
Qed.

Lemma verify_unsigned_tx_complete_witness :
  @verify_unsigned_tx Demo.lib Demo.good_tx Demo.oinfo = (true, None).
Proof.
  apply (@verify_unsigned_tx_complete Demo.lib Demo.good_tx Demo.oinfo
           (Demo.mk_out "mk_cj" 2000000) (Demo.mk_out "mk_change" 3002000)).
  - intros k [<-|[]]. right. now left.
  - reflexivity.
  - reflexivity.
  - reflexivity.
  - reflexivity.
Defined.

(** X2.  What the Maker is paid by a transaction it accepts: when the
    coinjoin and the change address have different scripts, the outputs to
    the two scripts add up to the value of the Maker's utxos, minus its
    [txfee] contribution, plus its coinjoin fee. *)
Theorem verify_unsigned_tx_pays_maker (L : MakerLib) (txd : txdict)
    (oi : offerinfo) :
  verify_unsigned_tx txd oi = (true, None) ->
  address_to_script (oi_cjaddr oi) <> address_to_script (oi_changeaddr oi) ->
  sum (map out_value
         (filter (fun o => pays_to (oi_cjaddr oi) o
                           || pays_to (oi_changeaddr oi) o) (outs txd)))
  = sum (map value (values (oi_utxos oi))) - txfee (oi_offer oi)
    + calc_cj_fee (otype (oi_offer oi)) (cjfee (oi_offer oi)) (oi_amount oi).
Proof.
  intros Hacc Hne.
  apply MakerFacts.verify_unsigned_tx_accepted in Hacc.
  destruct Hacc as (_ & Hcj & Hch & Hall).
  rewrite paid_sum with (a := oi_amount oi) (e := expected_change_value oi).
  - rewrite Hcj, Hch. unfold expected_change_value. lia.
  - exact Hall.
  - unfold pays_to. intros o Hp Hq.
    apply String.eqb_eq in Hp, Hq. congruence.
Qed.

Lemma verify_unsigned_tx_pays_maker_witness :
  sum (map out_value
         (filter (fun o => @pays_to Demo.lib "mk_cj" o
                           || @pays_to Demo.lib "mk_change" o)
            (outs Demo.good_tx)))
  = 5000000 - 1000 + 3000.
Proof.
  apply (@verify_unsigned_tx_pays_maker Demo.lib Demo.good_tx Demo.oinfo).
  - reflexivity.
  - discriminate.
Defined.

Section OnTxReceived.
Context {L : MakerLib} {W : Type} {MW : World W} {SW : Signer W}.

(** One signature is collected for each index. *)
Lemma collect_sigs_length (txs : txdict) (indices : list nat)
    (acc sigs : list string) :
  collect_sigs txs indices acc = Ok sigs ->
  List.length sigs = (List.length acc + List.length indices)%nat.
Proof.
  revert acc. induction indices as [|index rest IH]; intros acc; cbn.
  - intros [= <-]. lia.
  - destruct (sigmsg_of txs index) as [m|e]; cbn; [|discriminate].
    intros Hrest. apply IH in Hrest. rewrite Hrest, length_app. cbn. lia.
Qed.

(** [our_inputs] has one entry for each input whose outpoint is a key of
    [utxos]. *)
Lemma our_inputs_length (w : W) (utxos : dict string wallet_utxo)
    (tx : txdict) :
  List.length (our_inputs w utxos tx)
  = List.length (filter (fun i => mem (utxo_key i) (keys utxos)) (ins tx)).
Proof.
  assert (Hget : forall k, mem k (keys utxos)
                           = match get k utxos with
                             | Some _ => true
                             | None => false
                             end).
  { intros k. induction utxos as [|[k' v] d IH]; [reflexivity|].
    cbn. destruct (String.eqb k k'); [reflexivity | exact IH]. }
  unfold our_inputs, enumerate. generalize 0%nat.
  induction (ins tx) as [|i l IH]; intros n; [reflexivity|].
  cbn [enumerate_from flat_map filter]. rewrite length_app, IH, Hget.
  destruct (get (utxo_key i) utxos); reflexivity.
Qed.

(** Distinct keys that all occur among the images of a list select at
    least as many elements of the list. *)
Lemma covered_keys_length {A} (f : A -> string) (ks : list string)
    (l : list A) :
  NoDup ks -> (forall k, In k ks -> In k (map f l)) ->
  (List.length ks <= List.length (filter (fun a => mem (f a) ks) l))%nat.
Proof.
  intros Hnd Hsub.
  rewrite <- (length_map f (filter _ l)).
  apply NoDup_incl_length; [assumption|].
  intros k Hk. destruct (proj1 (in_map_iff _ _ _) (Hsub k Hk)) as (a & <- & Ha).
  apply in_map. apply filter_In. split; [assumption | now apply mem_In].
Qed.

End OnTxReceived.

(** X3.  [on_tx_received] returns signatures only for a transaction that
    deserializes and that [verify_unsigned_tx] accepts; it returns one
    signature for each input whose outpoint is one of the Maker's utxos,
    and so at least as many signatures as the order has utxos. *)
Theorem on_tx_received_signs (L : MakerLib) (W : Type) (MW : World W)
    (SW : Signer W) (w : W) (nick txhex : string) (oi : offerinfo)
    (sigs : list string) :
  on_tx_received w nick txhex oi = Ok (TxSigned sigs) ->
  exists tx,
    deserialize txhex = Ok tx /\
    verify_unsigned_tx tx oi = (true, None) /\
    List.length sigs
    = List.length (filter (fun i => mem (utxo_key i) (keys (oi_utxos oi)))
                     (ins tx)) /\
    (NoDup (keys (oi_utxos oi)) ->
     (List.length (oi_utxos oi) <= List.length sigs)%nat).
Proof.
  unfold on_tx_received.
  destruct (deserialize txhex) as [tx|e];
    [|destruct (malformed e); discriminate].
  destruct (MakerFacts.verify_unsigned_tx_shape tx oi) as [Hacc|[msg Hrej]].
  - rewrite Hacc. cbn [negb].
    destruct (unhexlify txhex) as [raw|e]; cbn; [|discriminate].
    destruct (deserialize raw) as [tx_bin|e]; cbn; [|discriminate].
    destruct (sign_tx w tx_bin _) as [txs|e]; cbn; [|discriminate].
    destruct (collect_sigs txs _ []) as [sg|e] eqn:Ec; cbn; [|discriminate].
    intros [= <-]. exists tx. split; [reflexivity|].
    split; [exact Hacc|].
    apply collect_sigs_length in Ec. cbn in Ec.
    unfold keys in Ec at 1. rewrite length_map, our_inputs_length in Ec.
    split; [exact Ec|].
    intros Hnd. rewrite Ec. unfold keys at 1.
    rewrite <- (length_map fst (oi_utxos oi)).
    apply covered_keys_length; [assumption|].
    apply MakerFacts.verify_unsigned_tx_accepted in Hacc.
    destruct Hacc as (Hsub & _). rewrite forallb_forall in Hsub.
    intros k Hk. apply mem_In. now apply Hsub.
  - rewrite Hrej. cbn. discriminate.
Qed.

Lemma on_tx_received_signs_witness :
  exists sigs,
    @on_tx_received Demo.lib unit (Demo.maker_world Demo.small_chain)
      Demo.maker_signer tt "taker" "good_tx" Demo.oinfo = Ok (TxSigned sigs) /\
    (1 <= List.length sigs)%nat.
Proof.
  eexists. split; [vm_compute; reflexivity|].
  destruct (@on_tx_received_signs Demo.lib unit
              (Demo.maker_world Demo.small_chain) Demo.maker_signer tt
              "taker" "good_tx" Demo.oinfo _ eq_refl)
    as (tx & _ & _ & _ & Hn).
  apply Hn. repeat constructor. intros [].
Defined.

Lemma offer_eqb_refl (a : offer) : offer_eqb a a = true.
Proof.
  unfold offer_eqb. rewrite !Z.eqb_refl, String.eqb_refl.
  assert (Hq : Qeq_bool (cjfee a) (cjfee a) = true)
    by (apply Qeq_bool_iff; reflexivity).
  rewrite Hq. now destruct (otype a).
Qed.

Lemma offer_eqb_oid (a b : offer) : offer_eqb a b = true -> oid a = oid b.
Proof.
  unfold offer_eqb. intros E.
  repeat (apply andb_prop in E; destruct E as [E _]).
  now apply Z.eqb_eq.
Qed.

(** Filtering out an oid that no offer has changes nothing. *)
Lemma filter_absent_oid (c : Z) (l : list offer) :
  ~ In c (map oid l) -> filter (fun x => negb (oid x =? c)) l = l.
Proof.
  induction l as [|y l IH]; [reflexivity|]. cbn. intros Hn.
  destruct (Z.eqb_spec (oid y) c) as [E|E]; cbn.
  - exfalso. apply Hn. now left.
  - f_equal. apply IH. intros Hin. apply Hn. now right.
Qed.

(** Among offers with distinct oids, [remove] takes out the one offer
    that has the oid. *)
Lemma remove_by_oid (o : offer) (l : list offer) :
  NoDup (map oid l) -> In o l ->
  @list_remove offer offer_Key o l
  = Some (filter (fun x => negb (oid x =? oid o)) l).
Proof.
  induction l as [|y l IH]; cbn; [contradiction|].
  intros Hnd Hin. inversion Hnd as [|? ? Hn Hnd']; subst.
  destruct Hin as [->|Hin].
  - rewrite offer_eqb_refl, Z.eqb_refl. cbn.
    now rewrite filter_absent_oid.
  - assert (Hne : oid y <> oid o).
    { intros E. apply Hn. rewrite E. now apply in_map. }
    destruct (offer_eqb o y) eqn:E.
    + apply offer_eqb_oid in E. congruence.
    + rewrite IH by assumption. cbn.
      destruct (Z.eqb_spec (oid y) (oid o)); [contradiction | reflexivity].
Qed.

(** The offers with a given oid, when some offer has it. *)
Lemma filter_oid_first (c : Z) (l : list offer) :
  In c (map oid l) ->
  exists o rest, filter (fun o => oid o =? c) l = o :: rest /\
                 In o l /\ oid o = c.
Proof.
  intros Hin. apply in_map_iff in Hin. destruct Hin as (x & Hx & Hl).
  destruct (filter (fun o => oid o =? c) l) as [|o rest] eqn:E.
  - assert (Hf : In x (filter (fun o => oid o =? c) l))
      by (apply filter_In; split; [assumption | now apply Z.eqb_eq]).
    rewrite E in Hf. destruct Hf.
  - assert (Hf : In o (filter (fun o => oid o =? c) l))
      by (rewrite E; now left).
    apply filter_In in Hf. destruct Hf as [Ho Hc]. apply Z.eqb_eq in Hc.
    eauto.
Qed.

Lemma filter_oid_none (c : Z) (l : list offer) :
  ~ In c (map oid l) -> filter (fun o => oid o =? c) l = [].
Proof.
  intros Hn. destruct (filter (fun o => oid o =? c) l) as [|o rest] eqn:E;
    [reflexivity|].
  assert (Hf : In o (filter (fun o => oid o =? c) l)) by (rewrite E; now left).
  apply filter_In in Hf. destruct Hf as [Ho Hc]. apply Z.eqb_eq in Hc.
  exfalso. apply Hn. rewrite <- Hc. now apply in_map.
Qed.

Section ModifyOrders.
Context {W : Type}.

Lemma set_offerlist_same (s : maker W) (l : list offer) :
  offerlist s = Some l -> set_offerlist (Some l) s = s.
Proof. destruct s. cbn. now intros ->. Qed.

Lemma cancel_order_known (c : Z) (s : maker W) (l : list offer) :
  offerlist s = Some l -> NoDup (map oid l) -> In c (map oid l) ->
  cancel_order c s
  = (Ok tt, set_offerlist (Some (filter (fun x => negb (oid x =? c)) l)) s).
Proof.
  intros Hl Hnd Hin.
  destruct (@filter_oid_first c l Hin) as (o & rest & Ef & Ho & Hc).
  unfold cancel_order, orders_with, remove_offer, bind, get_state, ret,
    modify.
  rewrite Hl, Ef, Hl, (@remove_by_oid o l Hnd Ho), Hc. reflexivity.
Qed.

Lemma cancel_order_unknown (c : Z) (s : maker W) (l : list offer) :
  offerlist s = Some l -> ~ In c (map oid l) ->
  cancel_order c s = (Raise IndexError, s).
Proof.
  intros Hl Hn.
  unfold cancel_order, orders_with, bind, get_state, ret, raise.
  now rewrite Hl, (@filter_oid_none c l Hn).
Qed.

Lemma replace_order_run (a : offer) (s : maker W) (l : list offer) :
  offerlist s = Some l -> NoDup (map oid l) ->
  replace_order a s
  = (Ok tt,
     set_offerlist (Some (filter (fun x => negb (oid x =? oid a)) l)) s).
Proof.
  intros Hl Hnd.
  destruct (in_dec Z.eq_dec (oid a) (map oid l)) as [Hin|Hn].
  - destruct (@filter_oid_first (oid a) l Hin) as (o & rest & Ef & Ho & Hc).
    unfold replace_order, orders_with, remove_offer, bind, get_state, ret,
      modify.
    rewrite Hl, Ef, Hl, (@remove_by_oid o l Hnd Ho), Hc. reflexivity.
  - unfold replace_order, orders_with, bind, get_state, ret.
    rewrite Hl, (@filter_oid_none (oid a) l Hn), (@filter_absent_oid (oid a) l Hn).
    now rewrite set_offerlist_same.
Qed.

(** The loop over [to_cancel], when every oid is on offer once. *)
Lemma cancel_loop_run (to_cancel : list Z) :
  forall (s : maker W) (l : list offer),
    offerlist s = Some l -> NoDup (map oid l) -> NoDup to_cancel ->
    (forall c, In c to_cancel -> In c (map oid l)) ->
    for_each to_cancel cancel_order s
    = (Ok tt,
       set_offerlist
         (Some (filter (fun x => negb (mem (oid x) to_cancel)) l)) s).
Proof.
  induction to_cancel as [|c rest IH]; intros s l Hl Hnd Hnc Hsub.
  - cbn. unfold ret. f_equal.
    rewrite filter_all by reflexivity.
    symmetry. now apply set_offerlist_same.
  - inversion Hnc as [|? ? Hc Hnc']; subst.
    cbn [for_each]. unfold bind.
    rewrite cancel_order_known with (l := l); try assumption;
      [|apply Hsub; now left].
    rewrite IH with (l := filter (fun x => negb (oid x =? c)) l);
      try assumption; try reflexivity.
    + assert (Hf : filter (fun x => negb (mem (oid x) rest))
                     (filter (fun x => negb (oid x =? c)) l)
                   = filter (fun x => negb (mem (oid x) (c :: rest))) l).
      { rewrite filter_filter. apply filter_ext. intros x. cbn.
        destruct (oid x =? c); reflexivity. }
      rewrite Hf. reflexivity.
    + now apply NoDup_map_filter.
    + intros c' Hc'. assert (Hin : In c' (map oid l))
        by (apply Hsub; now right).
      apply in_map_iff in Hin. destruct Hin as (x & Hx & Hxl).
      apply in_map_iff. exists x. split; [assumption|].
      apply filter_In. split; [assumption|].
      apply negb_true_iff, Z.eqb_neq. intros E. apply Hc. congruence.
Qed.

(** The loop over [to_announce]. *)
Lemma replace_loop_run (to_announce : list offer) :
  forall (s : maker W) (l : list offer),
    offerlist s = Some l -> NoDup (map oid l) ->
    for_each to_announce replace_order s
    = (Ok tt,
       set_offerlist
         (Some (filter (fun x => negb (mem (oid x) (map oid to_announce))) l))
         s).
Proof.
  induction to_announce as [|a rest IH]; intros s l Hl Hnd.
  - cbn. unfold ret. f_equal.
    rewrite filter_all by reflexivity.
    symmetry. now apply set_offerlist_same.
  - cbn [for_each]. unfold bind.
    rewrite replace_order_run with (l := l) by assumption.
    rewrite IH with (l := filter (fun x => negb (oid x =? oid a)) l);
      try reflexivity.
    + assert (Hf : filter (fun x => negb (mem (oid x) (map oid rest)))
                     (filter (fun x => negb (oid x =? oid a)) l)
                   = filter (fun x => negb (mem (oid x) (map oid (a :: rest))))
                       l).
      { rewrite filter_filter. apply filter_ext. intros x. cbn.
        destruct (oid x =? oid a); reflexivity. }
      rewrite Hf. reflexivity.
    + now apply NoDup_map_filter.
Qed.

End ModifyOrders.

(** X4.  Cancelling oids that are each on offer once and announcing offers
    leaves the offers that were neither cancelled nor replaced, in their
    order, followed by the announced ones; nothing else of the Maker
    changes. *)
Theorem modify_orders_replaces (W : Type) (s : maker W) (l : list offer)
    (to_cancel : list Z) (to_announce : list offer) :
  offerlist s = Some l -> NoDup (map oid l) -> NoDup to_cancel ->
  (forall c, In c to_cancel -> In c (map oid l)) ->
  modify_orders to_cancel to_announce s
  = (Ok tt,
     set_offerlist
       (Some (filter (fun o => negb (mem (oid o) to_cancel)
                               && negb (mem (oid o) (map oid to_announce)))
                l ++ to_announce)%list) s).
Proof.
  intros Hl Hnd Hnc Hsub. unfold modify_orders, bind.
  rewrite cancel_loop_run with (l := l) by assumption.
  destruct to_announce as [|a rest].
  - unfold ret. rewrite app_nil_r. do 3 f_equal.
    apply filter_ext. intros x. cbn. now rewrite andb_true_r.
  - rewrite replace_loop_run
      with (l := filter (fun x => negb (mem (oid x) to_cancel)) l);
      [|reflexivity | now apply NoDup_map_filter].
    unfold get_state, modify. cbn [offerlist set_offerlist].
    rewrite filter_filter. reflexivity.
Qed.

Lemma modify_orders_replaces_witness :
  Maker.offerlist
    (snd (modify_orders [1] [Demo.numbered_offer 2 900]
            (Demo.new_maker Demo.three_offers)))
  = Some [Demo.numbered_offer 0 3000; Demo.numbered_offer 2 900].
Proof.
  rewrite (@modify_orders_replaces unit (Demo.new_maker Demo.three_offers)
             Demo.three_offers [1] [Demo.numbered_offer 2 900]).
  - reflexivity.
  - reflexivity.
  - repeat constructor; cbn; intuition discriminate.
  - repeat constructor. intros [].
  - intros c [<-|[]]. right. now left.
Defined.

(** X5.  Cancelling an oid that is not on offer raises [IndexError], at that
    oid or before it; no offer is announced, and the offers left are
    among those there were. *)
Theorem modify_orders_unknown_oid (W : Type) (to_cancel : list Z)
    (to_announce : list offer) (c : Z) :
  forall (s : maker W) (l : list offer),
    offerlist s = Some l -> NoDup (map oid l) ->
    In c to_cancel -> ~ In c (map oid l) ->
    exists s' l',
      modify_orders to_cancel to_announce s = (Raise IndexError, s') /\
      offerlist s' = Some l' /\ incl l' l.
Proof.
  unfold modify_orders.
  induction to_cancel as [|x rest IH]; intros s l Hl Hnd Hin Hout;
    [destruct Hin|].
  cbn [for_each].
  destruct (in_dec Z.eq_dec x (map oid l)) as [Hx|Hx].
  - assert (Hc : In c rest).
    { destruct Hin as [->|Hc]; [contradiction | assumption]. }
    destruct (IH (set_offerlist
                    (Some (filter (fun o => negb (oid o =? x)) l)) s)
                 (filter (fun o => negb (oid o =? x)) l) eq_refl
                 (NoDup_map_filter _ _ _ Hnd) Hc)
      as (s' & l' & Hrun & Hl' & Hsub).
    { intros Hc'. apply Hout. apply in_map_iff in Hc'.
      destruct Hc' as (o & <- & Ho). apply in_map.
      apply filter_In in Ho. tauto. }
    exists s', l'. split; [|split; [assumption|]].
    + unfold bind at 1. unfold bind at 1.
      rewrite cancel_order_known with (l := l) by assumption.
      unfold bind at 1 in Hrun. exact Hrun.
    + intros o Ho. apply Hsub in Ho. apply filter_In in Ho. tauto.
  - exists s, l. split; [|split; [assumption | apply incl_refl]].
    unfold bind. now rewrite cancel_order_unknown with (l := l).
Qed.

Lemma modify_orders_unknown_oid_witness :
  exists s' l',
    modify_orders [1; 7] [Demo.numbered_offer 2 900]
      (Demo.new_maker Demo.three_offers) = (Raise IndexError, s') /\
    Maker.offerlist s' = Some l' /\ incl l' Demo.three_offers.
Proof.
  apply (@modify_orders_unknown_oid unit [1; 7] [Demo.numbered_offer 2 900]
           7 (Demo.new_maker Demo.three_offers) Demo.three_offers).
  - reflexivity.
  - repeat constructor; cbn; intuition discriminate.
  - right. now left.
  - cbn. intuition discriminate.
Defined.

(** X6.  What an accepted authorisation request went through and what it is
    answered: the revelation deserialized and the proof verified, the
    committed utxo is there and its script belongs to the pubkey [P] of
    the revelation; the utxos and addresses are those of [oid_to_order],
    the wallet's cache index is updated, and the Maker authenticates with
    the key of the address of the first of these utxos, signing the
    taker's [kphex] with it. *)
Theorem on_auth_received_accepted (W : Type) (MW : World W) (w w' : W)
    (nick : string) (o : offer) (commitment cr : string) (amount : Z)
    (kphex : string) (utxos : dict string wallet_utxo)
    (auth_pub cj_addr change_addr btc_sig : string) :
  on_auth_received w nick o commitment cr amount kphex
  = (Ok (AuthAccepted utxos auth_pub cj_addr change_addr btc_sig), w') ->
  exists cr_dict r k first rest,
    deserialize_revelation cr = Ok cr_dict /\
    verify_podle (rev_P cr_dict) (rev_P2 cr_dict) (rev_sig cr_dict)
      (rev_e cr_dict) commitment taker_utxo_retries = true /\
    query_utxo_set [rev_utxo cr_dict] true = [Some r] /\
    podle_pubkey_ok w (rev_P cr_dict) (u_script r) = Ok true /\
    oid_to_order w o amount = (utxos, cj_addr, change_addr) /\
    utxos = (k, first) :: rest /\
    w' = update_cache_index w /\
    auth_pub = privtopub (get_key_from_addr w' (address first)) /\
    btc_sig = ecdsa_sign kphex (get_key_from_addr w' (address first)).
Proof.
  unfold on_auth_received.
  destruct (deserialize_revelation cr) as [cr_dict|e];
    [|destruct e; discriminate].
  destruct (verify_podle _ _ _ _ _ _) eqn:Ev; cbn [negb]; [|discriminate].
  destruct (query_utxo_set _ _) as [|[r|] [|x l]] eqn:Eq; try discriminate.
  destruct (u_confirms r <? taker_utxo_age); [discriminate|].
  destruct (reqd_amt amount) as [reqd|e]; [|discriminate].
  destruct (u_value r <? reqd); [discriminate|].
  destruct (podle_pubkey_ok w _ _) as [[|]|e] eqn:Ep; try discriminate.
  unfold fill_order.
  destruct (oid_to_order w o amount) as [[us cj] ch] eqn:Eo.
  destruct us as [|[k first] rest]; [discriminate|].
  intros [= <- <- <- <- <- <-].
  exists cr_dict, r, k, first, rest. repeat split; assumption.
Qed.

Lemma on_auth_received_accepted_witness :
  exists cr_dict r,
    @deserialize_revelation unit (Demo.maker_world Demo.small_chain) "cc:0"
    = Ok cr_dict /\
    @query_utxo_set unit (Demo.maker_world Demo.small_chain)
      [rev_utxo cr_dict] true = [Some r].
Proof.
  assert (Hrun : @on_auth_received unit (Demo.maker_world Demo.small_chain)
                   tt "taker" (Demo.mk_offer "J5maker" 3000) "commit" "cc:0"
                   1000000 "kp"
                 = (Ok (AuthAccepted (oi_utxos Demo.oinfo) "pub:key:mk_in"
                          "mk_cj" "mk_change" "sig:kp"), tt))
    by (vm_compute; reflexivity).
  destruct (on_auth_received_accepted _ _ _ _ _ _ _ _ Hrun)
    as (cr_dict & r & k & first & rest & Hd & _ & Hq & _).
  exists cr_dict, r. split; assumption.
Defined.

End MakerProps.

(** ** More about the Taker: the schedule, the balance of the
    transaction, and the signatures *)

Module TakerProps.
Import Taker.
Import TakerFacts.

Local Arguments String.append : simpl never.
Local Arguments str : simpl never.

Lemma keeps_try_except {W A} (R : taker W -> taker W -> Prop)
    {Rrefl : Reflexive R} {Rtrans : Transitive R}
    (body : M (taker W) A) (handler : exn -> M (taker W) A) :
  keeps R body -> (forall e, keeps R (handler e)) ->
  keeps R (try_except body handler).
Proof.
  intros Hb Hh s. unfold try_except. specialize (Hb s).
  destruct (body s) as [[a|e] s1]; cbn in *; [assumption|].
  apply Rtrans with s1; [assumption | apply Hh].
Qed.

(** One step of a proof that a method keeps a relation, through [try]
    blocks and the callbacks. *)
Ltac keeps_more :=
  repeat first
    [ keeps_step
    | apply keeps_try_except; [exact _ | exact _ | | intros ?]
    | progress unfold_actions ];
  try reflexivity.

Section Initialize.
Context {W H : Type} {TW : World W H}.

Lemma filter_orderbook_keeps_tx (ob : list offer) (sweep : bool) :
  keeps (same tx_state) (filter_orderbook ob sweep).
Proof. unfold filter_orderbook. unfold_actions. keeps_more. Qed.

Lemma prepare_my_bitcoin_data_keeps_tx :
  keeps (same tx_state) prepare_my_bitcoin_data.
Proof.
  unfold prepare_my_bitcoin_data, prepare_change_and_inputs, prepare_sweep.
  unfold_actions. keeps_more. 
Qed.

Lemma make_commitment_keeps :
  keeps (same (fun s : taker W => set_trace [] s)) make_commitment.
Proof. unfold make_commitment. unfold_actions. keeps_more. Qed.

Lemma read_schedule_entry_keeps_index :
  keeps (same (@schedule_index W)) read_schedule_entry.
Proof.
  unfold read_schedule_entry, fraction_to_amount. keeps_more.
Qed.

(** What [initialize] has reset once the schedule entry is read. *)
Lemma read_schedule_entry_post (s s' : taker W) :
  read_schedule_entry s = (Ok tt, s') ->
  outputs s' = [] /\ cjfee_total s' = 0 /\
  maker_txfee_contributions s' = 0 /\ latest_tx s' = None /\
  txid s' = None.
Proof.
  unfold read_schedule_entry. intros Hrun. bind_run Hrun.
  destruct (item _ _) as [si|]; [|discriminate].
  do 5 bind_run Hrun.
  unfold modify in Hrun. injection Hrun as <-. cbn. auto.
Qed.

Lemma prepare_my_bitcoin_data_post (s s' : taker W) :
  prepare_my_bitcoin_data s = (Ok true, s') ->
  utxos s' = [(None, keys (input_utxos s'))] /\ my_cj_addr s <> "".
Proof.
  unfold prepare_my_bitcoin_data. intros Hrun. bind_run Hrun.
  unfold get_state in E. injection E as <- <-.
  destruct (String.eqb_spec (my_cj_addr s) ""); [discriminate|].
  do 2 bind_run Hrun. destruct a0; cbn [negb] in Hrun; [|discriminate].
  bind_run Hrun. unfold modify in E1. injection E1 as _ <-.
  unfold ret in Hrun. injection Hrun as <-. cbn. auto.
Qed.

Lemma make_commitment_committed (s s' : taker W)
    (commitment revelation msg : string) :
  make_commitment s = (Ok (Committed commitment revelation msg), s') ->
  exists pd, commitment = "P" ++ pd_commit pd /\
             revelation = serialize_revelation pd /\
             msg = "Commitment sourced OK".
Proof.
  unfold make_commitment. intros Hrun. do 4 bind_run Hrun.
  destruct a2 as [[pd|] [[pairs too_old] too_small]].
  - bind_run Hrun. unfold ret in Hrun. injection Hrun as <- <- <- _. eauto.
  - destruct (generate_podle_error_string _ _ _ _).
    bind_run Hrun. discriminate.
Qed.

(** X7.  Every call of [initialize] on a Taker that is not aborted moves on
    to the next schedule entry, whatever it returns or raises. *)
Theorem initialize_advances (ob : list offer) (s s' : taker W)
    (r : res init_result) :
  aborted s = false ->
  initialize ob s = (r, s') ->
  schedule_index s' = schedule_index s + 1.
Proof.
  intros Hab Hrun. unfold initialize in Hrun.
  apply bind_inv in Hrun.
  destruct Hrun as [(e & E & _)|(a & s1 & E & Hrun)]; [discriminate|].
  injection E as <- <-. rewrite Hab in Hrun.
  apply bind_inv in Hrun.
  destruct Hrun as [(e & E & _)|(a & s1 & E & Hrun)]; [discriminate|].
  injection E as _ <-.
  apply bind_inv in Hrun.
  destruct Hrun as [(e & E & _)|(a0 & s2 & E & Hrun)]; [discriminate|].
  injection E as _ <-.
  match type of Hrun with
  | ?m ?s0 = _ =>
      assert (Hk : keeps (same (@schedule_index W)) m)
  end.
  { keeps_more.
    - apply read_schedule_entry_keeps_index.
    - intros s0. exact (f_equal (fun p => snd (fst p))
                          (filter_orderbook_keeps_tx ob _ s0)).
    - intros s0. exact (f_equal (fun p => snd (fst p))
                          (prepare_my_bitcoin_data_keeps_tx s0)).
    - intros s0. exact (f_equal (@schedule_index W)
                          (make_commitment_keeps s0)). }
  exact (keeps_run Hk Hrun).
Qed.

Lemma item_past_end {A} (l : list A) (i : Z) :
  Z.of_nat (List.length l) <= i -> item l i = None.
Proof.
  intros Hi. unfold item.
  destruct (Z.ltb_spec i 0); [lia|].
  apply nth_error_None. lia.
Qed.

(** X8.  [initialize] at and past the end of the schedule: the call that
    finds the schedule finished says so through the two callbacks and
    returns [(False,)], with nothing but the index changed; any later
    call raises [IndexError]. *)
Theorem initialize_schedule_end (ob : list offer) (s : taker W) :
  aborted s = false ->
  (schedule_index s + 1 = Z.of_nat (List.length (schedule s)) ->
   initialize ob s
   = (Ok InitFalse,
      set_trace
        (trace s ++ [TakerInfo "INFO" "Received offers from joinmarket pit";
                     TakerInfo "INFO" "Finished all scheduled transactions";
                     OnFinished true None])%list
        (set_schedule_index (schedule_index s + 1) s))) /\
  (Z.of_nat (List.length (schedule s)) < schedule_index s + 1 ->
   exists s', initialize ob s = (Raise IndexError, s')).
Proof.
  intros Hab. split; intros Hidx.
  - unfold initialize, bind at 1, get_state at 1. rewrite Hab.
    unfold bind at 1, taker_info_callback at 1, emit, modify at 1.
    unfold bind at 1, modify at 1.
    unfold bind at 1, get_state at 1.
    cbn [schedule_index schedule set_trace set_schedule_index].
    rewrite (proj2 (Z.eqb_eq _ _) Hidx).
    unfold taker_info_callback, on_finished_callback, emit, bind, modify, ret.
    cbn. rewrite <- !app_assoc. reflexivity.
  - unfold initialize, bind at 1, get_state at 1. rewrite Hab.
    unfold bind at 1, taker_info_callback at 1, emit, modify at 1.
    unfold bind at 1, modify at 1.
    unfold bind at 1, get_state at 1.
    cbn [schedule_index schedule set_trace set_schedule_index].
    rewrite (proj2 (Z.eqb_neq _ _)) by lia.
    unfold bind at 1, read_schedule_entry, bind at 1, get_state at 1.
    cbn [schedule_index schedule set_trace set_schedule_index].
    rewrite item_past_end by lia.
    eexists. reflexivity.
Qed.

(** X9.  What a successful [initialize] leaves behind: the Taker waits for
    exactly the makers of the chosen offers, [self.utxos] holds its own
    selected inputs under [None], the outputs and the fee totals are
    reset, no transaction is there yet, and the commitment carries the
    type byte ["P"]. *)
Theorem initialize_ready (ob : list offer) (s s' : taker W) (amt : Z)
    (commitment revelation : string) (o : orderbook_t) :
  initialize ob s = (Ok (InitOk amt commitment revelation o), s') ->
  (exists d, o = ObDict d /\ orderbook s' = ObDict d /\
             nonrespondants s' = keys d) /\
  amt = cjamount s' /\
  utxos s' = [(None, keys (input_utxos s'))] /\
  outputs s' = [] /\ cjfee_total s' = 0 /\
  maker_txfee_contributions s' = 0 /\
  latest_tx s' = None /\ txid s' = None /\
  my_cj_addr s' <> "" /\
  (exists pd, commitment = "P" ++ pd_commit pd /\
              revelation = serialize_revelation pd).
Proof.
  intros Hrun. unfold initialize in Hrun.
  bind_run Hrun. destruct (aborted a); [discriminate|].
  do 3 bind_run Hrun.
  destruct (_ =? _).
  { do 2 bind_run Hrun. discriminate. }
  bind_run Hrun.
  match goal with
  | E : read_schedule_entry _ = (Ok ?u, _) |- _ =>
      destruct u; apply read_schedule_entry_post in E;
      destruct E as (O1 & O2 & O3 & O4 & O5)
  end.
  bind_run Hrun.
  match goal with
  | E : get_state _ = (Ok _, _) |- _ => injection E as <- <-
  end.
  bind_run Hrun.
  match goal with
  | E : filter_orderbook _ _ ?x = (Ok ?b, _) |- _ =>
      pose proof (filter_orderbook_keeps_tx ob (cjamount x =? 0) x) as K1;
      rewrite E in K1; destruct b; cbn [negb] in Hrun; [|discriminate];
      clear E
  end.
  bind_run Hrun.
  match goal with
  | E : taker_info_callback _ _ _ = (Ok _, _) |- _ =>
      unfold taker_info_callback, emit, modify in E; injection E as _ <-
  end.
  bind_run Hrun.
  match goal with
  | E : prepare_my_bitcoin_data ?x = (Ok ?b, _) |- _ =>
      pose proof (prepare_my_bitcoin_data_keeps_tx x) as K2;
      rewrite E in K2; destruct b; cbn [negb] in Hrun; [|discriminate];
      apply prepare_my_bitcoin_data_post in E; destruct E as (U1 & U2)
  end.
  bind_run Hrun.
  match goal with
  | E : make_commitment ?x = (Ok ?c, _) |- _ =>
      pose proof (make_commitment_keeps x) as K3;
      rewrite E in K3;
      destruct c as [c rv msg|];
      [apply make_commitment_committed in E;
       destruct E as (pd & -> & -> & _)
      |destruct (_ =? _); bind_run Hrun; discriminate]
  end.
  bind_run Hrun.
  match goal with
  | E : taker_info_callback _ _ _ = (Ok _, _) |- _ =>
      unfold taker_info_callback, emit, modify in E; injection E as _ <-
  end.
  bind_run Hrun.
  match goal with
  | E : get_state _ = (Ok _, _) |- _ => injection E as <- <-
  end.
  cbn [orderbook set_trace] in Hrun.
  match type of Hrun with
  | context [match orderbook ?x with _ => _ end] =>
      destruct (orderbook x) as [| |d] eqn:Eob; try discriminate
  end.
  bind_run Hrun.
  match goal with
  | E : modify _ _ = (Ok _, _) |- _ => injection E as _ <-
  end.
  unfold ret in Hrun. injection Hrun as <- <- <- <- <-.
  unfold same, tx_state in K1, K2. unfold same in K3.
  cbn in K1, K2, U2 |- *. unfold keys in U1.
  injection K1 as L1 L2 L3 L4 L5 L6 L7.
  injection K2 as M1 M2 M3 M4 M5 M6 M7.
  match type of K3 with
  | set_trace [] ?y = set_trace [] ?x =>
      pose proof (f_equal (@utxos W) K3) as N1;
      pose proof (f_equal (@input_utxos W) K3) as N2;
      pose proof (f_equal (@outputs W) K3) as N3;
      pose proof (f_equal (@cjfee_total W) K3) as N4;
      pose proof (f_equal (@maker_txfee_contributions W) K3) as N5;
      pose proof (f_equal (@latest_tx W) K3) as N6;
      pose proof (f_equal (@txid W) K3) as N7;
      pose proof (f_equal (@my_cj_addr W) K3) as N8;
      pose proof (f_equal (@orderbook W) K3) as N9;
      pose proof (f_equal (@cjamount W) K3) as N10
  end.
  cbn in N1, N2, N3, N4, N5, N6, N7, N8, N9, N10.
  repeat split; try congruence; eauto.
Qed.

End Initialize.

Lemma initialize_ready_witness :
  let TW := Demo.world (Demo.chain 5000000) false in
  let s' := Demo.ready 5000000 false in
  nonrespondants s' = ["A"; "B"] /\
  utxos s' = [(None, ["tt:0"])] /\ outputs s' = [] /\ cjfee_total s' = 0.
Proof.
  intros TW s'.
  assert (Hrun : exists rev ob,
             initialize Demo.offers
               (Demo.new_taker 5000000 [Demo.entry 0 (AmtInt 1000000)])
             = (Ok (InitOk 1000000 "Pee" rev ob), s')).
  { do 2 eexists. vm_compute. reflexivity. }
  destruct Hrun as (rev & ob & Hrun).
  destruct (initialize_ready _ _ Hrun)
    as ((d & _ & Hd & Hn) & _ & Hu & Ho & Hf & _).
  rewrite Hn, Hu, Ho, Hf.
  assert (Hob : orderbook s' = ObDict [("A", Demo.mk_offer "A" 3000);
                                       ("B", Demo.mk_offer "B" 500)])
    by (vm_compute; reflexivity).
  rewrite Hob in Hd. injection Hd as <-.
  repeat split; vm_compute; reflexivity.
Defined.

Lemma initialize_advances_witness :
  let TW := Demo.world (Demo.chain 5000000) false in
  schedule_index (Demo.ready 5000000 false) = -1 + 1.
Proof.
  intros TW.
  exact (@initialize_advances _ _ TW Demo.offers
           (Demo.new_taker 5000000 [Demo.entry 0 (AmtInt 1000000)])
           (Demo.ready 5000000 false) _ eq_refl (surjective_pairing _)).
Defined.

Lemma initialize_schedule_end_witness :
  let TW := Demo.world (Demo.chain 5000000) false in
  fst (initialize Demo.offers (Demo.ready 5000000 false)) = Ok InitFalse /\
  exists s',
    initialize Demo.offers
      (snd (initialize Demo.offers (Demo.ready 5000000 false)))
    = (Raise IndexError, s').
Proof.
  intros TW. split.
  - rewrite (proj1 (@initialize_schedule_end _ _ TW Demo.offers
                      (Demo.ready 5000000 false) eq_refl)).
    + reflexivity.
    + vm_compute. reflexivity.
  - apply (@initialize_schedule_end _ _ TW Demo.offers
             (snd (initialize Demo.offers (Demo.ready 5000000 false)))).
    + vm_compute. reflexivity.
    + vm_compute. reflexivity.
Defined.

(** X10.  [add_ignored_makers] and [add_honest_makers] keep their lists as
    sets: afterwards the list has no duplicates and holds exactly the
    makers it held and the ones added; the other list is not touched. *)
Theorem add_makers_union {W : Type} (makers : list string) (s : taker W) :
  (exists s',
     add_ignored_makers makers s = (Ok tt, s') /\
     NoDup (ignored_makers s') /\
     (forall x, In x (ignored_makers s') <->
                In x (ignored_makers s) \/ In x makers) /\
     honest_makers s' = honest_makers s) /\
  (exists s',
     add_honest_makers makers s = (Ok tt, s') /\
     NoDup (honest_makers s') /\
     (forall x, In x (honest_makers s') <->
                In x (honest_makers s) \/ In x makers) /\
     ignored_makers s' = ignored_makers s).
Proof.
  split; eexists; (split; [reflexivity|]); cbn;
    (split; [apply NoDup_dedup|]);
    (split; [|reflexivity]);
    intros x; rewrite dedup_In; apply in_app_iff.
Qed.

(** X11.  Honest-only mode is never on without honest makers: asking for it
    while [honest_makers] is empty is ignored, and neither
    [set_honest_only] nor [add_honest_makers] breaks the rule. *)
Theorem honest_only_needs_makers {W : Type} (s : taker W) :
  (honest_only s = true -> honest_makers s <> []) ->
  (forall b, exists s',
     set_honest_only_ b s = (Ok tt, s') /\
     honest_makers s' = honest_makers s /\
     (b = true -> honest_makers s = [] -> honest_only s' = honest_only s) /\
     (b = false \/ honest_makers s <> [] -> honest_only s' = b) /\
     (honest_only s' = true -> honest_makers s' <> [])) /\
  (forall makers, exists s',
     add_honest_makers makers s = (Ok tt, s') /\
     honest_only s' = honest_only s /\
     (honest_only s' = true -> honest_makers s' <> [])).
Proof.
  intros Hinv. split.
  - intros b. unfold set_honest_only_, bind, get_state, jlog, emit, modify.
    destruct b; cbn [andb].
    + destruct (honest_makers s) as [|m l] eqn:Eh; cbn.
      * eexists. split; [reflexivity|]. cbn. rewrite Eh.
        split; [reflexivity|]. split; [reflexivity|].
        split; [|exact Hinv]. intros [Hb|Hne]; [discriminate | now destruct Hne].
      * eexists. split; [reflexivity|]. cbn. rewrite Eh.
        split; [reflexivity|]. split; [discriminate|].
        split; [reflexivity | discriminate].
    + eexists. split; [reflexivity|]. cbn.
      split; [reflexivity|]. split; [discriminate|].
      split; [reflexivity | discriminate].
  - intros makers. eexists. split; [reflexivity|]. cbn.
    split; [reflexivity|]. intros Ho Hd.
    destruct (honest_makers s) as [|m l] eqn:Eh; [now apply Hinv|].
    assert (Hin : In m (dedup ((m :: l) ++ makers)%list))
      by (apply dedup_In; now left).
    rewrite Hd in Hin. destruct Hin.
Qed.

Lemma honest_only_needs_makers_witness :
  let s := Demo.ready 5000000 false in
  exists s',
    set_honest_only_ true s = (Ok tt, s') /\
    honest_only s' = false.
Proof.
  intros s.
  destruct (proj1 (@honest_only_needs_makers _ s
                     (fun E => False_ind _ (Bool.diff_false_true E))) true)
    as (s' & Hrun & _ & Hign & _).
  exists s'. split; [exact Hrun|]. now rewrite Hign.
Defined.

(** X12.  A fractional schedule amount becomes
    [max(int(fraction * mixdepthbal), mincjamount)]. *)
Theorem fraction_to_amount_clamped {W H : Type} {TW : World W H}
    (si : schedule_entry) (f : Float.float) (s s' : taker W) :
  fraction_to_amount si f s = (Ok tt, s') ->
  exists bal n,
    mixdepthbal s' = Some bal /\ Float.int_mul f bal = Ok n /\
    cjamount s' = Z.max n mincjamount.
Proof.
  unfold fraction_to_amount. intros Hrun. do 4 bind_run Hrun.
  repeat match goal with
         | E : get_state _ = (Ok _, _) |- _ =>
             unfold get_state in E; injection E as <- <-
         end.
  match type of Hrun with
  | context [mixdepthbal ?x] =>
      destruct (mixdepthbal x) as [bal|] eqn:Eb; [|discriminate]
  end.
  bind_run Hrun.
  match goal with
  | E : lift _ _ = (Ok ?n, _) |- _ =>
      unfold lift in E; injection E as En <-; rename n into amt
  end.
  bind_run Hrun.
  match goal with
  | E : modify _ _ = (Ok _, _) |- _ => unfold modify in E; injection E as _ <-
  end.
  exists bal, amt. destruct (Z.ltb_spec amt mincjamount).
  - unfold jlog, emit, bind, modify in Hrun. injection Hrun as <-. cbn.
    repeat split; try assumption. lia.
  - unfold ret in Hrun. injection Hrun as <-. cbn.
    repeat split; try assumption. lia.
Qed.

Lemma fraction_to_amount_clamped_witness :
  let TW := Demo.world (Demo.chain 5000000) false in
  exists bal n,
    mixdepthbal Demo.tumble_first = Some bal /\
    Float.int_mul Demo.half bal = Ok n /\
    2500000 = Z.max n mincjamount.
Proof.
  intros TW.
  assert (Hrun : exists s0,
             fraction_to_amount (Demo.entry 0 (AmtFloat Demo.half)) Demo.half
               s0 = (Ok tt, set_cjamount 2500000
                              (set_mixdepthbal (Some 5000000) s0))).
  { exists (Demo.new_taker 5000000 Demo.tumble). vm_compute. reflexivity. }
  destruct Hrun as (s0 & Hrun).
  exact (fraction_to_amount_clamped _ _ _ Hrun).
Defined.

Lemma utxos_where_cons (p : utxo_record -> bool) (u : string)
    (utxos : list string) (r : option utxo_record)
    (results : list (option utxo_record)) :
  utxos_where p (u :: utxos) (r :: results)
  = ((if match r with Some x => p x | None => false end then [u] else [])
     ++ utxos_where p utxos results)%list.
Proof.
  unfold utxos_where. cbn.
  destruct r as [x|]; [destruct (p x)|]; reflexivity.
Qed.

(** The loop of [filter_by_coin_age_amt] from position [length pre] on. *)
Lemma filter_by_coin_age_amt_loop_run {W H : Type} {TW : World W H}
    (age amt : Z) (results : list (option utxo_record)) :
  forall (pre post newresults too_old too_small : list string),
    (List.length results <= List.length post)%nat ->
    filter_by_coin_age_amt_loop (pre ++ post)
      (enumerate_from (List.length pre) results) age amt
      (newresults, too_old, too_small)
    = Ok ((newresults
           ++ utxos_where (fun r => (age <=? u_confirms r)
                                    && (amt <=? u_value r)) post results)%list,
          (too_old
           ++ utxos_where (fun r => negb (age <=? u_confirms r))
                post results)%list,
          (too_small
           ++ utxos_where (fun r => negb (amt <=? u_value r))
                post results)%list).
Proof.
  induction results as [|r rest IH]; intros pre post n o sm Hlen.
  - cbn. unfold utxos_where. destruct post; cbn; now rewrite !app_nil_r.
  - destruct post as [|u post]; [cbn in Hlen; lia|].
    cbn in Hlen. cbn [enumerate_from filter_by_coin_age_amt_loop].
    rewrite !utxos_where_cons.
    assert (Hpre : (pre ++ u :: post = (pre ++ [u]) ++ post)%list)
      by now rewrite <- app_assoc.
    assert (Hn : S (List.length pre) = List.length (pre ++ [u])%list)
      by (rewrite length_app; cbn; lia).
    assert (Hu : nth_error (pre ++ u :: post) (List.length pre) = Some u).
    { rewrite nth_error_app2 by lia. now rewrite Nat.sub_diag. }
    destruct r as [r|].
    + rewrite Hu, Hpre, Hn.
      destruct (age <=? u_confirms r); destruct (amt <=? u_value r);
        cbn [andb negb]; rewrite IH by lia;
        rewrite <- ?app_assoc, ?app_nil_r; reflexivity.
    + rewrite Hpre, Hn, IH by lia. reflexivity.
Qed.

(** X13.  [filter_by_coin_age_amt], when the query answers for no more utxos
    than it was asked about: the first list holds the utxos that are there
    with enough confirmations and enough value, the list the code calls
    [too_old] those with fewer than [age] confirmations, and [too_small]
    those worth less than [amt]; each in the order of [utxos], and a utxo
    that fails both tests is in both of the last two. *)
Theorem filter_by_coin_age_amt_sorts {W H : Type} {TW : World W H}
    (utxos : list string) (age amt : Z) :
  (List.length (query_utxo_set utxos true) <= List.length utxos)%nat ->
  filter_by_coin_age_amt utxos age amt
  = Ok (utxos_where (fun r => (age <=? u_confirms r) && (amt <=? u_value r))
          utxos (query_utxo_set utxos true),
        utxos_where (fun r => negb (age <=? u_confirms r))
          utxos (query_utxo_set utxos true),
        utxos_where (fun r => negb (amt <=? u_value r))
          utxos (query_utxo_set utxos true)).
Proof.
  intros Hlen. unfold filter_by_coin_age_amt, enumerate.
  exact (filter_by_coin_age_amt_loop_run age amt _ [] utxos [] [] [] Hlen).
Qed.

Lemma filter_by_coin_age_amt_sorts_witness :
  @filter_by_coin_age_amt _ _ (Demo.world (Demo.chain 500000) false)
    ["tt:0"; "zz:9"; "aa:0"] 5 1000000
  = Ok (["aa:0"], [], ["tt:0"]).
Proof.
  rewrite (@filter_by_coin_age_amt_sorts _ _
             (Demo.world (Demo.chain 500000) false)
             ["tt:0"; "zz:9"; "aa:0"] 5 1000000).
  - reflexivity.
  - cbn. lia.
Defined.

(** Deleting a key of a dictionary without duplicate keys. *)
Lemma del_filter {V} (k : string) (d : dict string V) :
  NoDup (keys d) -> In k (keys d) ->
  del k d = Some (filter (fun kv => negb (String.eqb (fst kv) k)) d).
Proof.
  induction d as [|[k' v] d IH]; cbn; [contradiction|].
  intros Hnd Hin. inversion Hnd as [|? ? Hn Hnd']; subst.
  destruct (String.eqb_spec k k') as [->|Hne].
  - rewrite String.eqb_refl. cbn. f_equal. symmetry.
    apply filter_all_in. intros [k0 v0] Hkv. cbn.
    apply negb_true_iff, String.eqb_neq. intros ->. apply Hn.
    apply (in_map fst) in Hkv. exact Hkv.
  - destruct Hin as [E|Hin]; [congruence|].
    rewrite IH by assumption. cbn.
    destruct (String.eqb_spec k' k); [congruence | reflexivity].
Qed.

(** Deleting distinct keys one after the other. *)
Lemma remove_rejected_filter (rejected : list string) :
  forall io : dict string nickdata,
    NoDup (keys io) -> NoDup rejected ->
    (forall x, In x rejected -> In x (keys io)) ->
    remove_rejected rejected io
    = Ok (filter (fun nd => negb (mem (fst nd) rejected)) io).
Proof.
  induction rejected as [|rc rest IH]; intros io Hnd Hnr Hsub.
  - cbn. f_equal. symmetry. now apply filter_all.
  - inversion Hnr as [|? ? Hrc Hnr']; subst.
    cbn [remove_rejected]. rewrite del_filter; [|assumption|apply Hsub; now left].
    rewrite IH.
    + f_equal. rewrite filter_filter. apply filter_ext.
      intros [k v]. cbn. rewrite String.eqb_sym.
      destruct (String.eqb rc k); reflexivity.
    + unfold keys. now apply NoDup_map_filter.
    + assumption.
    + intros x Hx. assert (Hin : In x (keys io)) by (apply Hsub; now right).
      unfold keys in *. apply in_map_iff in Hin.
      destruct Hin as ([k v] & <- & Hkv). apply in_map.
      apply filter_In. split; [assumption|]. cbn.
      apply negb_true_iff, String.eqb_neq. intros ->. contradiction.
Qed.

(** What the first loop lists for removal, when no answer fails both
    checks: the nick of every answer that fails one. *)
Lemma rejections_once {W H : Type} {TW : World W H}
    (io : dict string nickdata) :
  (forall nick d, In (nick, d) io ->
     ecdsa_ok (btc_sig d) (auth_pub d) (maker_pk d) = true \/
     addresses_ok d = true) ->
  flat_map (fun nd => rejections_of (fst nd) (snd nd)) io
  = map fst (filter (fun nd =>
                       negb (ecdsa_ok (btc_sig (snd nd)) (auth_pub (snd nd))
                               (maker_pk (snd nd))
                             && addresses_ok (snd nd))) io).
Proof.
  induction io as [|[nick d] io IH]; intros Hone; [reflexivity|].
  cbn [flat_map filter fst snd]. rewrite IH
    by (intros n' d' Hin; apply (Hone n' d'); now right).
  unfold rejections_of.
  destruct (Hone nick d (or_introl eq_refl)) as [E|E]; rewrite E;
    [destruct (addresses_ok d)
    |destruct (ecdsa_ok (btc_sig d) (auth_pub d) (maker_pk d))];
    reflexivity.
Qed.

(** X14.  When the answers have distinct nicks and none fails both the
    signature and the address check, the answers that pass both checks go
    on to the second loop, in their order, and the removal of the others
    raises nothing. *)
Theorem receive_utxos_survivors {W H : Type} {TW : World W H}
    (s : taker W) (io : dict string nickdata) :
  aborted s = false -> NoDup (keys io) ->
  (forall nick d, In (nick, d) io ->
     ecdsa_ok (btc_sig d) (auth_pub d) (maker_pk d) = true \/
     addresses_ok d = true) ->
  exists s1 rejected,
    check_counterparties io [] s = (Ok rejected, s1) /\
    remove_rejected rejected io
    = Ok (filter (fun nd =>
                    ecdsa_ok (btc_sig (snd nd)) (auth_pub (snd nd))
                      (maker_pk (snd nd))
                    && addresses_ok (snd nd)) io) /\
    receive_utxos io s
    = assemble_tx
        (filter (fun nd =>
                   ecdsa_ok (btc_sig (snd nd)) (auth_pub (snd nd))
                     (maker_pk (snd nd))
                   && addresses_ok (snd nd)) io) s1.
Proof.
  intros Hab Hnd Hone.
  destruct (check_counterparties_run io [] s) as (s1 & Echk & _).
  cbn [app] in Echk. rewrite (rejections_once io Hone) in Echk.
  set (bad := fun nd : string * nickdata =>
                negb (ecdsa_ok (btc_sig (snd nd)) (auth_pub (snd nd))
                        (maker_pk (snd nd))
                      && addresses_ok (snd nd))) in *.
  assert (Hrm : remove_rejected (map fst (filter bad io)) io
                = Ok (filter (fun nd => negb (bad nd)) io)).
  { rewrite remove_rejected_filter.
    - f_equal. apply filter_ext_in. intros [nick d] Hin. cbn [fst].
      destruct (bad (nick, d)) eqn:Eb; cbn [negb].
      + apply negb_false_iff, mem_In. apply in_map_iff.
        exists (nick, d). split; [reflexivity|].
        apply filter_In. now split.
      + apply negb_true_iff, mem_false. intros Hm.
        apply in_map_iff in Hm. destruct Hm as ([n' d'] & En & Hf).
        cbn in En. subst n'. apply filter_In in Hf. destruct Hf as [Hin' Hb].
        assert (d' = d) by (eapply NoDup_keys_unique; eassumption).
        subst d'. congruence.
    - assumption.
    - now apply NoDup_map_filter.
    - intros x Hx. apply in_map_iff in Hx.
      destruct Hx as (nd & <- & Hf). apply filter_In in Hf.
      now apply in_map. }
  assert (Hgood : filter (fun nd => negb (bad nd)) io
                  = filter (fun nd =>
                              ecdsa_ok (btc_sig (snd nd)) (auth_pub (snd nd))
                                (maker_pk (snd nd))
                              && addresses_ok (snd nd)) io).
  { apply filter_ext. intros nd. unfold bad. apply negb_involutive. }
  rewrite Hgood in Hrm.
  exists s1, (map fst (filter bad io)). split; [exact Echk|].
  split; [exact Hrm|].
  unfold receive_utxos, bind at 1, get_state. rewrite Hab.
  unfold bind at 1. rewrite Echk.
  unfold bind at 1, lift. now rewrite Hrm.
Qed.

Lemma receive_utxos_survivors_witness :
  let TW := Demo.world (Demo.chain 5000000) false in
  let io := [Demo.answer_A; Demo.answer_forged; Demo.answer_invalid] in
  exists s1,
    receive_utxos io (Demo.ready 5000000 false)
    = assemble_tx [Demo.answer_A] s1.
Proof.
  intros TW io.
  destruct (@receive_utxos_survivors _ _ TW (Demo.ready 5000000 false) io)
    as (s1 & rejected & _ & _ & Hrun).
  - reflexivity.
  - repeat constructor; cbn; intuition discriminate.
  - intros nick d [E|[E|[E|[]]]]; injection E as <- <-;
      [left | right | left]; reflexivity.
  - exists s1. exact Hrun.
Defined.

Section Balance.
Context {W H : Type} {TW : World W H}.

Lemma set_new {V} (k : string) (v : V) (d : dict string V) :
  ~ In k (keys d) -> set k v d = (d ++ [(k, v)])%list.
Proof.
  induction d as [|[k' v'] d IH]; cbn; [reflexivity|].
  intros Hn. destruct (String.eqb_spec k k') as [->|Hne].
  - exfalso. apply Hn. now left.
  - f_equal. apply IH. intros Hin. apply Hn. now right.
Qed.

Lemma process_maker_keeps_terms (nick : string) (d : nickdata) :
  keeps (same (@tx_terms W)) (process_maker nick d).
Proof. unfold process_maker, accept_maker. keeps_more. Qed.

(** What taking a maker into the transaction appends and adds. *)
Lemma accept_maker_effect (nick : string) (d : nickdata) (o : offer)
    (utxo_data : list utxo_record) (change : Z) (s : taker W) :
  exists s',
    accept_maker nick d o utxo_data change s = (Ok tt, s') /\
    outputs s'
    = (outputs s ++ [{| o_address := change_addr d; o_value := change |};
                     {| o_address := cj_addr d; o_value := cjamount s |}])%list
    /\ maker_utxo_data s' = set nick utxo_data (maker_utxo_data s) /\
    cjfee_total s' =
      cjfee_total s + calc_cj_fee (otype o) (cjfee o) (cjamount s) /\
    maker_txfee_contributions s' = maker_txfee_contributions s + txfee o.
Proof.
  unfold accept_maker, jlog, emit, bind, modify, get_state, ret. cbn.
  destruct (list_remove nick (nonrespondants s));
    eexists; (split; [reflexivity|]); cbn; rewrite <- ?app_assoc;
    repeat split; reflexivity.
Qed.

(** The two ways the body of the second loop can end: the maker is left
    out and nothing of the transaction changes, or the maker is taken in
    with its two outputs. *)
Lemma process_maker_effect (nick : string) (d : nickdata) (s s' : taker W)
    (r : res unit) :
  process_maker nick d s = (r, s') ->
  (outputs s' = outputs s /\ maker_utxo_data s' = maker_utxo_data s /\
   cjfee_total s' = cjfee_total s /\
   maker_txfee_contributions s' = maker_txfee_contributions s) \/
  (exists ob o ud,
     orderbook s = ObDict ob /\ get nick ob = Some o /\
     DUST_THRESHOLD
     <= maker_change_amount (sum (map u_value ud)) (cjamount s) o /\
     outputs s'
     = (outputs s
        ++ [{| o_address := change_addr d;
               o_value := maker_change_amount (sum (map u_value ud))
                            (cjamount s) o |};
            {| o_address := cj_addr d; o_value := cjamount s |}])%list /\
     maker_utxo_data s' = set nick ud (maker_utxo_data s) /\
     cjfee_total s' =
       cjfee_total s + calc_cj_fee (otype o) (cjfee o) (cjamount s) /\
     maker_txfee_contributions s' = maker_txfee_contributions s + txfee o).
Proof.
  intros Hrun.
  assert (Hsame : forall s0 : taker W,
            outputs s0 = outputs s -> maker_utxo_data s0 = maker_utxo_data s ->
            cjfee_total s0 = cjfee_total s ->
            maker_txfee_contributions s0 = maker_txfee_contributions s ->
            (outputs s0 = outputs s /\
             maker_utxo_data s0 = maker_utxo_data s /\
             cjfee_total s0 = cjfee_total s /\
             maker_txfee_contributions s0 = maker_txfee_contributions s) \/
            (exists ob o ud,
               orderbook s = ObDict ob /\ get nick ob = Some o /\
               DUST_THRESHOLD
               <= maker_change_amount (sum (map u_value ud)) (cjamount s) o /\
               outputs s0
               = (outputs s
                  ++ [{| o_address := change_addr d;
                         o_value := maker_change_amount
                                      (sum (map u_value ud)) (cjamount s) o |};
                      {| o_address := cj_addr d;
                         o_value := cjamount s |}])%list /\
               maker_utxo_data s0 = set nick ud (maker_utxo_data s) /\
               cjfee_total s0 =
                 cjfee_total s
                 + calc_cj_fee (otype o) (cjfee o) (cjamount s) /\
               maker_txfee_contributions s0
               = maker_txfee_contributions s + txfee o)).
  { intros s0 H1 H2 H3 H4. left. auto. }
  unfold process_maker in Hrun.
  unfold bind at 1, modify at 1 in Hrun.
  set (s1 := set_utxos (set (Some nick) (utxo_list d) (utxos s)) s) in Hrun.
  destruct (all_some _) as [utxo_data|].
  - unfold bind at 1, lift at 1 in Hrun.
    destruct (unhexlify (auth_pub d)) as [pub|e];
      [|injection Hrun as _ <-; now apply Hsame].
    unfold bind at 1, get_state in Hrun.
    unfold bind at 1, lift at 1 in Hrun.
    destruct (auth_pub_in_inputs _ _ _) as [found|e];
      [|injection Hrun as _ <-; now apply Hsame].
    destruct (negb found).
    + unfold jlog, emit, modify in Hrun. injection Hrun as _ <-.
      now apply Hsame.
    + unfold bind at 1 in Hrun. rewrite orderbook_entry_run in Hrun.
      change (orderbook s1) with (orderbook s) in Hrun.
      destruct (orderbook s) as [| |ob] eqn:Eob;
        try (injection Hrun as _ <-; now apply Hsame).
      destruct (get nick ob) as [o|] eqn:Eo;
        [|injection Hrun as _ <-; now apply Hsame].
      destruct (Z.ltb_spec
                  (maker_change_amount (sum (map u_value utxo_data))
                     (cjamount s1) o) DUST_THRESHOLD) as [Hlt|Hge].
      * unfold jlog, emit, bind, modify in Hrun. injection Hrun as _ <-.
        now apply Hsame.
      * destruct (accept_maker_effect nick d o utxo_data
                    (maker_change_amount (sum (map u_value utxo_data))
                       (cjamount s1) o) s1)
          as (s2 & E2 & Ho & Hm & Hf & Ht).
        rewrite E2 in Hrun. injection Hrun as _ <-.
        right. exists ob, o, utxo_data. repeat split; assumption.
  - unfold jlog, emit in Hrun.
    unfold bind at 1, modify at 1 in Hrun.
    unfold bind at 1, modify at 1 in Hrun.
    unfold bind at 1, get_state in Hrun.
    match type of Hrun with
    | context [del ?k ?u] => destruct (del k u)
    end.
    + unfold modify in Hrun. injection Hrun as _ <-. now apply Hsame.
    + unfold raise in Hrun. injection Hrun as _ <-. now apply Hsame.
Qed.

(** The second loop, started with no maker taken in that is among the
    answers: the outputs grow by two for each maker taken in, one of them
    of the coinjoin amount and the other the maker's change, which is not
    below [DUST_THRESHOLD]; and the value of all outputs grows by the
    value of the inputs of these makers, plus their coinjoin fees, minus
    their [txfee] contributions. *)
Lemma process_makers_effect (io : dict string nickdata) :
  NoDup (keys io) ->
  forall (s s' : taker W) (r : res unit),
    (forall k, In k (keys (maker_utxo_data s)) -> ~ In k (keys io)) ->
    process_makers io s = (r, s') ->
    tx_terms s' = tx_terms s /\
    outputs_total s' - makers_total_in s' - cjfee_total s'
    + maker_txfee_contributions s'
    = outputs_total s - makers_total_in s - cjfee_total s
      + maker_txfee_contributions s /\
    exists extra newdata,
      outputs s' = (outputs s ++ extra)%list /\
      maker_utxo_data s' = (maker_utxo_data s ++ newdata)%list /\
      forall nick ud, In (nick, ud) newdata ->
        exists d ob o,
          In (nick, d) io /\ orderbook s = ObDict ob /\
          get nick ob = Some o /\
          DUST_THRESHOLD
          <= maker_change_amount (sum (map u_value ud)) (cjamount s) o /\
          In {| o_address := change_addr d;
                o_value := maker_change_amount (sum (map u_value ud))
                             (cjamount s) o |} extra /\
          In {| o_address := cj_addr d; o_value := cjamount s |} extra.
Proof.
  unfold process_makers.
  induction io as [|[nick d] io IH]; intros Hnd s s' r Hfresh; cbn.
  - intros [= _ <-]. split; [reflexivity|]. split; [reflexivity|].
    exists [], []. rewrite !app_nil_r. repeat split; try reflexivity.
    intros nick ud [].
  - inversion Hnd as [|? ? Hnick Hnd']; subst.
    unfold bind at 1.
    destruct (process_maker nick d s) as [r1 s1] eqn:E1.
    pose proof (keeps_run (process_maker_keeps_terms nick d) E1) as Hterms.
    unfold same in Hterms.
    pose proof (process_maker_effect _ _ _ E1) as Hcase.
    assert (Hone : tx_terms s1 = tx_terms s /\
              outputs_total s1 - makers_total_in s1 - cjfee_total s1
              + maker_txfee_contributions s1
              = outputs_total s - makers_total_in s - cjfee_total s
                + maker_txfee_contributions s /\
              exists extra newdata,
                outputs s1 = (outputs s ++ extra)%list /\
                maker_utxo_data s1 = (maker_utxo_data s ++ newdata)%list /\
                (forall k, In k (keys newdata) -> k = nick) /\
                forall nick0 ud, In (nick0, ud) newdata ->
                  exists d0 ob o,
                    In (nick0, d0) ((nick, d) :: io) /\
                    orderbook s = ObDict ob /\ get nick0 ob = Some o /\
                    DUST_THRESHOLD
                    <= maker_change_amount (sum (map u_value ud))
                         (cjamount s) o /\
                    In {| o_address := change_addr d0;
                          o_value := maker_change_amount
                                       (sum (map u_value ud)) (cjamount s) o |}
                      extra /\
                    In {| o_address := cj_addr d0; o_value := cjamount s |}
                      extra).
    { split; [exact Hterms|].
      destruct Hcase as [(Ho & Hm & Hf & Ht)
                        |(ob & o & ud & Hob & Hget & Hdust & Ho & Hm & Hf & Ht)].
      - split; [unfold outputs_total, makers_total_in;
                now rewrite Ho, Hm, Hf, Ht|].
        exists [], []. rewrite !app_nil_r.
        split; [assumption|]. split; [assumption|].
        split; [intros k []|]. intros n u [].
      - rewrite set_new in Hm
          by (intros Hin; apply (Hfresh nick Hin); now left).
        split.
        + unfold outputs_total, makers_total_in.
          rewrite Ho, Hm, Hf, Ht, !map_app, !sum_app. cbn [map snd].
          unfold maker_change_amount. cbn [o_value].
          rewrite !sum_cons. change (sum []) with 0. lia.
        + eexists. exists [(nick, ud)].
          split; [exact Ho|]. split; [exact Hm|].
          split; [intros k [<-|[]]; reflexivity|].
          intros nick0 ud0 [[= <- <-]|[]].
          exists d, ob, o. repeat split; try assumption.
          * now left.
          * now left.
          * right. now left. }
    destruct Hone as (Ht1 & Hb1 & extra1 & new1 & Ho1 & Hm1 & Hk1 & Hin1).
    assert (Hweak : forall nick0 ud, In (nick0, ud) new1 ->
              exists d0 ob o,
                In (nick0, d0) ((nick, d) :: io) /\
                orderbook s = ObDict ob /\ get nick0 ob = Some o /\
                DUST_THRESHOLD
                <= maker_change_amount (sum (map u_value ud)) (cjamount s) o /\
                In {| o_address := change_addr d0;
                      o_value := maker_change_amount (sum (map u_value ud))
                                   (cjamount s) o |} extra1 /\
                In {| o_address := cj_addr d0; o_value := cjamount s |}
                  extra1) by exact Hin1.
    destruct r1 as [[]|e].
    + intros Hrest. apply IH in Hrest; [|assumption|].
      * destruct Hrest as (Ht2 & Hb2 & extra2 & new2 & Ho2 & Hm2 & Hin2).
        split; [congruence|]. split; [lia|].
        exists (extra1 ++ extra2)%list, (new1 ++ new2)%list.
        split; [now rewrite Ho2, Ho1, app_assoc|].
        split; [now rewrite Hm2, Hm1, app_assoc|].
        assert (Eob : orderbook s1 = orderbook s)
          by exact (f_equal (fun p => fst (fst (fst (fst (fst p))))) Ht1).
        assert (Ecj : cjamount s1 = cjamount s)
          by exact (f_equal (fun p => snd (fst (fst (fst (fst p))))) Ht1).
        intros nick0 ud Hin. apply in_app_or in Hin.
        destruct Hin as [Hin|Hin].
        -- destruct (Hweak _ _ Hin) as (d0 & ob & o & A1 & A2 & A3 & A4 & A5 & A6).
           exists d0, ob, o. repeat split; try assumption;
             apply in_or_app; now left.
        -- destruct (Hin2 _ _ Hin) as (d0 & ob & o & A1 & A2 & A3 & A4 & A5 & A6).
           rewrite Eob in A2. rewrite Ecj in A4, A5, A6.
           exists d0, ob, o. repeat split; try assumption;
             try (apply in_or_app; now right). now right.
      * intros k Hk Hin. rewrite Hm1 in Hk. unfold keys in Hk.
        rewrite map_app in Hk. apply in_app_or in Hk.
        destruct Hk as [Hk|Hk].
        -- apply (Hfresh k Hk). now right.
        -- apply Hk1 in Hk. subst k. contradiction.
    + intros [= _ <-]. split; [assumption|]. split; [assumption|].
      exists extra1, new1. repeat split; assumption.
Qed.

Lemma settle_change_keeps_settled : keeps (same (@settled W)) settle_change.
Proof. unfold settle_change. keeps_more. Qed.

(** How [settle_change] can return: without a change address and with
    the outputs as they were, or with the change appended to the
    outputs. *)
Lemma settle_change_effect (s s' : taker W) :
  settle_change s = (Ok tt, s') ->
  (my_change_addr s' = None /\ outputs s' = outputs s) \/
  (exists a,
     my_change_addr s' = Some a /\
     outputs s' = (outputs s ++ [{| o_address := a;
                                    o_value := my_change_value s' |}])%list /\
     (a <> "" -> BITCOIN_DUST_THRESHOLD < my_change_value s')).
Proof.
  unfold settle_change, bind, get_state, jlog, emit, modify, raise, ret.
  destruct (my_change_addr s) as [a|] eqn:Ea; unfold truthy.
  - destruct (String.eqb a "") eqn:Ee.
    + apply String.eqb_eq in Ee. subst a.
      cbn. rewrite ?Ea. cbn. rewrite ?Ea. cbn beta.
      intros [= <-]. right. exists "". cbn.
      repeat split; try assumption. congruence.
    + repeat (cbn; rewrite ?Ea, ?Ee).
      match goal with
      | |- context [?c <=? 0] => destruct (Z.leb_spec c 0)
      end; repeat (cbn; rewrite ?Ea, ?Ee); [intros E; discriminate E|].
      match goal with
      | |- context [?c <=? BITCOIN_DUST_THRESHOLD] =>
          destruct (Z.leb_spec c BITCOIN_DUST_THRESHOLD)
      end; repeat (cbn; rewrite ?Ea, ?Ee).
      * intros [= <-]. left. cbn. auto.
      * intros [= <-]. right. exists a.
        split; [cbn; exact Ea|]. split; [reflexivity|].
        intros _. unfold my_change_value in *. cbn in *. assumption.
  - repeat (cbn; rewrite ?Ea).
    match goal with
    | |- context [if ?c then _ else _] => destruct c
    end; cbn; intros [= <-]; left; cbn; auto.
Qed.

Lemma build_tx_keeps_settled : keeps (same (@settled W)) build_tx.
Proof. unfold build_tx. keeps_more. Qed.

Lemma build_tx_keeps_change :
  keeps (same (fun s : taker W => (my_change_addr s, total_txfee s)))
    build_tx.
Proof. unfold build_tx. keeps_more. Qed.

(** What [build_tx] hands to [mktx]: every outpoint of [self.utxos] and
    the outputs with the Taker's coinjoin output added, both shuffled. *)
Lemma build_tx_effect (s s' : taker W) (nicks : list string) (tx : H) :
  build_tx s = (Ok (RuOk nicks tx), s') ->
  outputs s'
  = shuffle_outputs
      (outputs s ++ [{| o_address := my_cj_addr s;
                        o_value := cjamount s |}])%list /\
  utxo_tx s' = shuffle_utxo_tx (all_utxos s) /\
  mktx (utxo_tx s') (outputs s') = Ok tx /\
  my_cj_addr s <> "".
Proof.
  intros Hrun. unfold build_tx in Hrun.
  unfold taker_info_callback, jlog, emit in Hrun.
  repeat bind_run Hrun.
  unfold coinjoin_address, bind, raise in *.
  unfold get_state, modify, lift, ret in *.
  destruct (String.eqb_spec (my_cj_addr s0) ""); [discriminate|].
  repeat match goal with
         | E : (_, _) = (_, _) |- _ => injection E as ? ?
         end.
  subst. cbn in *. repeat split; try assumption.
Qed.

Lemma check_counterparties_keeps_totals (l : dict string nickdata) :
  forall rejected,
    keeps (same (fun s : taker W =>
                   (outputs s, cjfee_total s, maker_txfee_contributions s)))
      (check_counterparties l rejected).
Proof.
  induction l as [|[nick d] l IH]; intros rejected; cbn.
  - apply keeps_ret; exact _.
  - apply keeps_bind; [exact _ | | intros rej; apply IH].
    unfold check_counterparty, auth_counterparty. keeps_more.
Qed.

Lemma del_incl {V} (k : string) (d d' : dict string V) :
  del k d = Some d' -> incl d' d.
Proof.
  revert d'. induction d as [|[k' v] d IH]; cbn; intros d'; [discriminate|].
  destruct (String.eqb k k').
  - intros [= <-]. intros x Hx. now right.
  - destruct (del k d) as [d0|]; cbn; [|discriminate].
    intros [= <-]. intros x [Hx|Hx]; [now left | right]. now apply (IH d0).
Qed.

Lemma remove_rejected_incl (rejected : list string) :
  forall io io' : dict string nickdata,
    remove_rejected rejected io = Ok io' -> NoDup (keys io) ->
    incl io' io /\ NoDup (keys io').
Proof.
  induction rejected as [|rc rest IH]; intros io io'; cbn.
  - intros [= <-] Hnd. split; [apply incl_refl | assumption].
  - destruct (del rc io) as [d|] eqn:Ed; [|discriminate].
    intros Hr Hnd.
    destruct (del_keys rc io Ed Hnd) as (Hnd' & _ & _).
    destruct (IH d io' Hr Hnd') as (Hsub & Hnd'').
    split; [|assumption].
    intros x Hx. apply (del_incl _ _ Ed). now apply Hsub.
Qed.

(** What [assemble_tx] leaves when it returns a transaction. *)
Lemma assemble_tx_effect (io : dict string nickdata) (s s' : taker W)
    (nicks : list string) (tx : H) :
  NoDup (keys io) ->
  assemble_tx io s = (Ok (RuOk nicks tx), s') ->
  nicks = keys (maker_utxo_data s') /\
  nonrespondants s' = nicks /\
  minimum_makers <= Z.of_nat (List.length nicks) /\
  mktx (utxo_tx s') (outputs s') = Ok tx /\
  utxo_tx s' = shuffle_utxo_tx (all_utxos s') /\
  exists extra,
    outputs s' = shuffle_outputs (outputs s ++ extra)%list /\
    In {| o_address := my_cj_addr s'; o_value := cjamount s' |} extra /\
    (forall a, my_change_addr s' = Some a ->
       sum (map o_value extra)
       + Z.max (total_txfee s') (maker_txfee_contributions s')
       = own_total_in s' + makers_total_in s'
         + (maker_txfee_contributions s - cjfee_total s)) /\
    (my_change_addr s' = None ->
       sum (map o_value extra)
       = makers_total_in s' + (cjfee_total s' - cjfee_total s)
         - (maker_txfee_contributions s' - maker_txfee_contributions s)
         + cjamount s') /\
    (forall nick ud, In (nick, ud) (maker_utxo_data s') ->
       exists d ob o,
         In (nick, d) io /\ orderbook s' = ObDict ob /\
         get nick ob = Some o /\
         DUST_THRESHOLD
         <= maker_change_amount (sum (map u_value ud)) (cjamount s') o /\
         In {| o_address := change_addr d;
               o_value := maker_change_amount (sum (map u_value ud))
                            (cjamount s') o |} extra /\
         In {| o_address := cj_addr d; o_value := cjamount s' |} extra).
Proof.
  intros Hnd Hrun. unfold assemble_tx in Hrun.
  bind_run Hrun. bind_run Hrun. bind_run Hrun.
  match goal with
  | E : get_state _ = (Ok _, _) |- _ =>
      unfold get_state in E; injection E as <- <-
  end.
  match goal with
  | E : modify _ _ = (Ok _, _) |- _ =>
      unfold modify in E; injection E as _ <-
  end.
  match goal with
  | E : process_makers _ _ = _ |- _ =>
      apply process_makers_effect in E;
      [|assumption|intros k []]
  end.
  destruct E0 as (Hterms & Hbal & extra1 & newdata & Ho1 & Hm1 & Hin1).
  cbn [outputs maker_utxo_data set_maker_utxo_data cjfee_total
       maker_txfee_contributions orderbook cjamount app] in *.
  destruct (Z.ltb_spec (Z.of_nat (List.length (maker_utxo_data s1)))
              minimum_makers) as [Hlt|Hmin].
  { unfold_actions. bind_run Hrun. discriminate. }
  bind_run Hrun. bind_run Hrun. bind_run Hrun.
  match goal with
  | E : taker_info_callback _ _ _ = (Ok _, _) |- _ =>
      unfold taker_info_callback, emit, modify in E; injection E as _ <-
  end.
  match goal with
  | E : modify _ _ = (Ok _, _) |- _ =>
      unfold modify in E; injection E as _ <-
  end.
  match goal with
  | E : settle_change ?x = (Ok ?u, ?y) |- _ =>
      destruct u;
      pose proof (keeps_run settle_change_keeps_settled E) as Hs1;
      apply settle_change_effect in E; rename E into Hsettle
  end.
  pose proof (keeps_run build_tx_keeps_settled Hrun) as Hs2.
  pose proof (keeps_run build_tx_keeps_change Hrun) as Hc2.
  pose proof Hrun as Hres. apply build_tx_result in Hres.
  destruct Hres as (Hnicks & _).
  apply build_tx_effect in Hrun.
  destruct Hrun as (Hout & Hutx & Hmk & Hcj).
  unfold same, settled in Hs1, Hs2. unfold same in Hc2.
  cbn in Hs1. injection Hs1 as S1 S2 S3 S4 S5 S6 S7 S8 S9.
  injection Hs2 as B1 B2 B3 B4 B5 B6 B7 B8 B9.
  injection Hc2 as C1 C2.
  unfold tx_terms in Hterms. cbn in Hterms.
  injection Hterms as T1 T2 T3 T4 T5 T6.
  assert (Hsum1 : sum (map o_value extra1)
                  = makers_total_in s1 + (cjfee_total s1 - cjfee_total s)
                    - (maker_txfee_contributions s1
                       - maker_txfee_contributions s)).
  { unfold outputs_total, makers_total_in in Hbal.
    cbn [outputs maker_utxo_data set_maker_utxo_data map] in Hbal.
    change (sum []) with 0 in Hbal.
    rewrite Ho1, map_app, sum_app in Hbal.
    unfold makers_total_in. lia. }
  assert (Hmk' : makers_total_in s' = makers_total_in s1)
    by (unfold makers_total_in; now rewrite B4, S4).
  assert (Hown : own_total_in s' = own_total_in s3)
    by (unfold own_total_in; now rewrite B5).
  split; [assumption|]. split; [congruence|].
  split; [rewrite Hnicks, B4, S4; unfold keys; now rewrite length_map|].
  split; [assumption|].
  split; [unfold all_utxos; now rewrite B8|].
  assert (Hmem : forall nick ud, In (nick, ud) (maker_utxo_data s') ->
            exists d ob o,
              In (nick, d) io /\ orderbook s' = ObDict ob /\
              get nick ob = Some o /\
              DUST_THRESHOLD
              <= maker_change_amount (sum (map u_value ud)) (cjamount s') o /\
              In {| o_address := change_addr d;
                    o_value := maker_change_amount (sum (map u_value ud))
                                 (cjamount s') o |} extra1 /\
              In {| o_address := cj_addr d; o_value := cjamount s' |} extra1).
  { intros nick ud Hin. rewrite B4, S4, Hm1 in Hin.
    destruct (Hin1 _ _ Hin) as (d & ob & o & A1 & A2 & A3 & A4 & A5 & A6).
    exists d, ob, o. rewrite B9, S9, T1, B1, S1, T2.
    repeat split; assumption. }
  destruct Hsettle as [(Hnone & Ho3)|(a3 & Hsome & Ho3 & _)];
    cbn [outputs set_nonrespondants set_trace] in Ho3.
  - exists (extra1 ++ [{| o_address := my_cj_addr s';
                          o_value := cjamount s' |}])%list.
    split; [now rewrite Hout, Ho3, Ho1, B6, B1, <- app_assoc|].
    split; [apply in_or_app; right; now left|].
    split; [intros a3 Ha3; congruence|].
    split.
    + intros _. rewrite map_app, sum_app. cbn [map o_value].
      rewrite sum_cons. change (sum []) with 0.
      rewrite Hsum1, Hmk', B2, S2, B3, S3. lia.
    + intros nick ud Hin.
      destruct (Hmem _ _ Hin) as (d & ob & o & A1 & A2 & A3 & A4 & A5 & A6).
      exists d, ob, o. repeat split; try assumption;
        apply in_or_app; now left.
  - exists (extra1 ++ [{| o_address := a3; o_value := my_change_value s3 |};
                       {| o_address := my_cj_addr s';
                          o_value := cjamount s' |}])%list.
    split; [now rewrite Hout, Ho3, Ho1, B6, B1, <- !app_assoc|].
    split; [apply in_or_app; right; right; now left|].
    split; [|split; [intros Hn; congruence|]].
    + intros _ _. rewrite map_app, sum_app. cbn [map o_value].
      rewrite !sum_cons. change (sum []) with 0.
      rewrite Hsum1, Hmk', Hown, B3, C2, B1.
      unfold my_change_value, own_total_in. rewrite S1, S2, S3. lia.
    + intros nick ud Hin.
      destruct (Hmem _ _ Hin) as (d & ob & o & A1 & A2 & A3 & A4 & A5 & A6).
      exists d, ob, o. repeat split; try assumption;
        apply in_or_app; now left.
Qed.

Lemma sum_perm (l l' : list Z) : Permutation l l' -> sum l = sum l'.
Proof.
  induction 1 as [|x l l' _ IH|x y l|l l' l'' _ IH1 _ IH2].
  - reflexivity.
  - now rewrite !sum_cons, IH.
  - rewrite !sum_cons. lia.
  - congruence.
Qed.

(** The run of [receive_utxos] that returns a transaction, in its three
    parts. *)
Lemma receive_utxos_parts (io : dict string nickdata) (s s' : taker W)
    (nicks : list string) (tx : H) :
  NoDup (keys io) ->
  receive_utxos io s = (Ok (RuOk nicks tx), s') ->
  exists rejected s1 io',
    check_counterparties io [] s = (Ok rejected, s1) /\
    incl io' io /\ NoDup (keys io') /\
    assemble_tx io' s1 = (Ok (RuOk nicks tx), s').
Proof.
  intros Hnd Hrun. unfold receive_utxos in Hrun.
  bind_run Hrun.
  match goal with
  | E : get_state _ = (Ok _, _) |- _ =>
      unfold get_state in E; injection E as <- <-
  end.
  destruct (aborted s); [discriminate|].
  bind_run Hrun. bind_run Hrun.
  match goal with
  | E : lift _ _ = (Ok _, _) |- _ =>
      unfold lift in E; injection E as Erm <-
  end.
  destruct (remove_rejected_incl _ _ Erm Hnd) as (Hsub & Hnd').
  eauto 10.
Qed.

End Balance.

(** X15.  The balance of the transaction that [receive_utxos] builds, for a
    Taker whose outputs and fee totals are reset as [initialize] leaves
    them and answers with distinct nicks, shuffling being a permutation.
    With a change output, the outputs and the larger of the estimated fee
    and the makers' [txfee] contributions add up to the value of the
    Taker's inputs and of the inputs of the accepted makers.  Without
    one, the outputs are worth the accepted makers' inputs, plus their
    coinjoin fees, minus their [txfee] contributions, plus the coinjoin
    amount. *)
Theorem receive_utxos_balance {W H : Type} {TW : World W H}
    (io : dict string nickdata) (s s' : taker W) (nicks : list string)
    (tx : H) :
  (forall l, Permutation l (shuffle_outputs l)) ->
  NoDup (keys io) ->
  outputs s = [] -> cjfee_total s = 0 -> maker_txfee_contributions s = 0 ->
  receive_utxos io s = (Ok (RuOk nicks tx), s') ->
  (forall a, my_change_addr s' = Some a ->
     outputs_total s'
     + Z.max (total_txfee s') (maker_txfee_contributions s')
     = own_total_in s' + makers_total_in s') /\
  (my_change_addr s' = None ->
     outputs_total s'
     = makers_total_in s' + cjfee_total s' - maker_txfee_contributions s'
       + cjamount s').
Proof.
  intros Hperm Hnd Ho Hf Ht Hrun.
  destruct (@receive_utxos_parts _ _ _ io s s' nicks tx Hnd Hrun)
    as (rejected & s1 & io' & Echk & Hsub & Hnd' & Hasm).
  pose proof (keeps_run (check_counterparties_keeps_totals io []) Echk)
    as Hk.
  unfold same in Hk. injection Hk as K1 K2 K3.
  destruct (@assemble_tx_effect _ _ _ io' s1 s' nicks tx Hnd' Hasm)
    as (_ & _ & _ & _ & _ & extra & Hout & _ & Hsome & Hnone & _).
  rewrite K1, Ho in Hout. cbn [app] in Hout.
  assert (Htot : outputs_total s' = sum (map o_value extra)).
  { unfold outputs_total. rewrite Hout. symmetry.
    apply sum_perm, Permutation_map, Hperm. }
  rewrite K2, K3, Hf, Ht in *. rewrite Htot. split.
  - intros a Ha. rewrite (Hsome a Ha). lia.
  - intros Hn. rewrite (Hnone Hn). lia.
Qed.

Lemma receive_utxos_balance_witness :
  let TW := Demo.world (Demo.chain 5000000) false in
  let s' := snd (receive_utxos [Demo.answer_A] (Demo.ready 5000000 false)) in
  outputs_total s' + Z.max (total_txfee s') (maker_txfee_contributions s')
  = own_total_in s' + makers_total_in s'.
Proof.
  intros TW s'.
  assert (Hrun : exists tx,
             receive_utxos [Demo.answer_A] (Demo.ready 5000000 false)
             = (Ok (RuOk ["A"] tx), s')).
  { eexists. vm_compute. reflexivity. }
  destruct Hrun as (tx & Hrun).
  refine (proj1 (@receive_utxos_balance _ _ TW [Demo.answer_A]
                   (Demo.ready 5000000 false) s' ["A"] tx
                   (@Permutation_rev output) _ _ _ _ Hrun)
            "internal0" _).
  - repeat constructor. intros [].
  - vm_compute. reflexivity.
  - vm_compute. reflexivity.
  - vm_compute. reflexivity.
  - vm_compute. reflexivity.
Defined.

(** X16.  Who is in the transaction that [receive_utxos] builds, for answers
    with distinct nicks, shuffling being a permutation: the makers it
    returns are the accepted ones and at least [minimum_makers], and they
    are the ones whose signatures are awaited; the transaction is made of
    [self.utxo_tx] and [self.outputs]; the Taker's coinjoin output is
    among the outputs; and each accepted maker answered, has an offer in
    the orderbook, and is paid the coinjoin amount at its coinjoin address
    and, at its change address, the value of its inputs minus the
    coinjoin amount and its [txfee] plus its coinjoin fee, which is not
    below [DUST_THRESHOLD]. *)
Theorem receive_utxos_pays_makers {W H : Type} {TW : World W H}
    (io : dict string nickdata) (s s' : taker W) (nicks : list string)
    (tx : H) :
  (forall l, Permutation l (shuffle_outputs l)) ->
  NoDup (keys io) ->
  receive_utxos io s = (Ok (RuOk nicks tx), s') ->
  nicks = keys (maker_utxo_data s') /\
  nonrespondants s' = nicks /\
  minimum_makers <= Z.of_nat (List.length nicks) /\
  mktx (utxo_tx s') (outputs s') = Ok tx /\
  In {| o_address := my_cj_addr s'; o_value := cjamount s' |} (outputs s') /\
  forall nick ud, In (nick, ud) (maker_utxo_data s') ->
    exists d ob o,
      In (nick, d) io /\ orderbook s' = ObDict ob /\ get nick ob = Some o /\
      DUST_THRESHOLD
      <= maker_change_amount (sum (map u_value ud)) (cjamount s') o /\
      In {| o_address := change_addr d;
            o_value := maker_change_amount (sum (map u_value ud))
                         (cjamount s') o |} (outputs s') /\
      In {| o_address := cj_addr d; o_value := cjamount s' |} (outputs s').
Proof.
  intros Hperm Hnd Hrun.
  destruct (@receive_utxos_parts _ _ _ io s s' nicks tx Hnd Hrun)
    as (rejected & s1 & io' & Echk & Hsub & Hnd' & Hasm).
  destruct (@assemble_tx_effect _ _ _ io' s1 s' nicks tx Hnd' Hasm)
    as (Hn & Hnr & Hmin & Hmk & _ & extra & Hout & Hcj & _ & _ & Hmem).
  assert (Hin : forall o, In o extra -> In o (outputs s')).
  { intros o Ho. rewrite Hout.
    apply (Permutation_in _ (Hperm _)). apply in_or_app. now right. }
  repeat (split; [assumption|]).
  split; [now apply Hin|].
  intros nick ud Hud.
  destruct (Hmem _ _ Hud) as (d & ob & o & A1 & A2 & A3 & A4 & A5 & A6).
  exists d, ob, o. repeat split; auto.
Qed.

Lemma receive_utxos_pays_makers_witness :
  let TW := Demo.world (Demo.chain 5000000) false in
  let s' := snd (receive_utxos [Demo.answer_A] (Demo.ready 5000000 false)) in
  nonrespondants s' = ["A"] /\
  In {| o_address := "tk_cj"; o_value := 1000000 |} (outputs s').
Proof.
  intros TW s'.
  assert (Hrun : exists tx,
             receive_utxos [Demo.answer_A] (Demo.ready 5000000 false)
             = (Ok (RuOk ["A"] tx), s')).
  { eexists. vm_compute. reflexivity. }
  destruct Hrun as (tx & Hrun).
  destruct (@receive_utxos_pays_makers _ _ TW [Demo.answer_A]
              (Demo.ready 5000000 false) s' ["A"] tx
              (@Permutation_rev output)) as (_ & Hnr & _ & _ & Hcj & _).
  - repeat constructor. intros [].
  - exact Hrun.
  - split; [exact Hnr | exact Hcj].
Defined.

Section Signing.
Context {W H : Type} {TW : World W H}.

(** The insertion loop either leaves the transaction as it is, or writes
    one signature: into a candidate input for which the utxo query has a
    record, from a message of two or three non-empty items, and only
    after [verify_tx_input] has accepted it for that input. *)
Lemma insert_signature_cases (nick sg : string) (txhex : H)
    (utxo_data : list (option utxo_record))
    (utxo : list (nat * (nat * string))) (txd : txdict) :
  forall (s s' : taker W) (r : res bool),
    latest_tx s = Some txd ->
    insert_signature nick sg txhex utxo_data utxo s = (r, s') ->
    (latest_tx s' = Some txd /\ r <> Ok true) \/
    (exists n idx key rec sd ver_sig ver_pub code,
       In (n, (idx, key)) utxo /\
       nth_error utxo_data n = Some (Some rec) /\
       deserialize_script sg = Ok sd /\ forallb item_ok sd = true /\
       (map hex_of sd = ver_sig :: ver_pub :: code) /\
       (code = [] \/ exists c, code = [c]) /\
       sig_good_for txhex idx rec ver_sig ver_pub (hd_error code)
         (option_map (fun _ => u_value rec) (hd_error code)) = true /\
       latest_tx s'
       = Some (insert_sig idx rec sg ver_sig ver_pub
                 (option_map (fun _ => u_value rec) (hd_error code)) txd)).
Proof.
  induction utxo as [|[n [idx key]] rest IH]; intros s s' r Htx;
    cbn [insert_signature].
  - intros [= <- <-]. left. split; [assumption | discriminate].
  - assert (Hrest : insert_signature nick sg txhex utxo_data rest s = (r, s')
              -> (latest_tx s' = Some txd /\ r <> Ok true) \/
                 (exists n0 idx0 key0 rec sd ver_sig ver_pub code,
                    In (n0, (idx0, key0)) ((n, (idx, key)) :: rest) /\
                    nth_error utxo_data n0 = Some (Some rec) /\
                    deserialize_script sg = Ok sd /\
                    forallb item_ok sd = true /\
                    (map hex_of sd = ver_sig :: ver_pub :: code) /\
                    (code = [] \/ exists c, code = [c]) /\
                    sig_good_for txhex idx0 rec ver_sig ver_pub (hd_error code)
                      (option_map (fun _ => u_value rec) (hd_error code))
                    = true /\
                    latest_tx s'
                    = Some (insert_sig idx0 rec sg ver_sig ver_pub
                              (option_map (fun _ => u_value rec)
                                 (hd_error code)) txd))).
    { intros Hrun. destruct (IH s s' r Htx Hrun)
        as [Hl|(n0 & idx0 & key0 & rec & sd & vs & vp & code & Hin & Hrest)];
        [now left|].
      right. exists n0, idx0, key0, rec, sd, vs, vp, code.
      split; [now right | exact Hrest]. }
    assert (Hsame : forall (b : res bool) (s0 : taker W),
              latest_tx s0 = Some txd -> b <> Ok true ->
              (latest_tx s0 = Some txd /\ b <> Ok true) \/
              (exists n0 idx0 key0 rec sd ver_sig ver_pub code,
                 In (n0, (idx0, key0)) ((n, (idx, key)) :: rest) /\
                 nth_error utxo_data n0 = Some (Some rec) /\
                 deserialize_script sg = Ok sd /\
                 forallb item_ok sd = true /\
                 (map hex_of sd = ver_sig :: ver_pub :: code) /\
                 (code = [] \/ exists c, code = [c]) /\
                 sig_good_for txhex idx0 rec ver_sig ver_pub (hd_error code)
                   (option_map (fun _ => u_value rec) (hd_error code))
                 = true /\
                 latest_tx s0
                 = Some (insert_sig idx0 rec sg ver_sig ver_pub
                           (option_map (fun _ => u_value rec)
                              (hd_error code)) txd))) by (intros; now left).
    destruct (nth_error utxo_data n) as [[rec|]|] eqn:En.
    + unfold bind at 1, lift.
      destruct (deserialize_script sg) as [sd|e] eqn:Ed.
      * destruct (forallb item_ok sd) eqn:Eok; cbn [negb].
        -- destruct (map hex_of sd) as [|vs [|vp [|sc [|x l]]]] eqn:Eh.
           ++ unfold jlog, emit, bind, modify, ret. intros [= <- <-].
              now apply Hsame.
           ++ unfold jlog, emit, bind, modify, ret. intros [= <- <-].
              now apply Hsame.
           ++ destruct (sig_good_for txhex idx rec vs vp None None) eqn:Eg.
              ** intros Hrun.
                 eapply insertion_run in Hrun; try eassumption.
                 destruct Hrun as [Ht _]. right.
                 exists n, idx, key, rec, sd, vs, vp, [].
                 repeat split; try assumption; try (now left).
              ** exact Hrest.
           ++ destruct (sig_good_for txhex idx rec vs vp (Some sc)
                          (Some (u_value rec))) eqn:Eg.
              ** intros Hrun.
                 eapply insertion_run in Hrun; try eassumption.
                 destruct Hrun as [Ht _]. right.
                 exists n, idx, key, rec, sd, vs, vp, [sc].
                 repeat split; try assumption; try (now left).
                 right. now exists sc.
              ** exact Hrest.
           ++ unfold jlog, emit, bind, modify, ret. intros [= <- <-].
              now apply Hsame.
        -- unfold jlog, emit, bind, modify, ret. intros [= <- <-].
           now apply Hsame.
      * intros [= <- <-]. now apply Hsame.
    + exact Hrest.
    + unfold raise. intros [= <- <-]. now apply Hsame.
Qed.

(** The candidates of [on_sig], with the input each one stands for. *)
Lemma unsigned_inputs_nth (tx : txdict) (n idx : nat) (key : string) :
  nth_error (unsigned_inputs tx) n = Some (idx, key) ->
  exists i, nth_error (ins tx) idx = Some i /\ in_script i = "" /\
            key = utxo_key i.
Proof.
  intros Hn. apply nth_error_In in Hn.
  unfold unsigned_inputs in Hn. apply in_flat_map in Hn.
  destruct Hn as ([m i] & Hen & Hin).
  destruct (String.eqb_spec (in_script i) ""); [|contradiction].
  destruct Hin as [E|[]]. injection E as -> <-.
  exists i. split; [now apply enumerate_In | auto].
Qed.

(** The part of [on_sig] that inserts: the cases of the loop, for the
    candidates and the query of [on_sig]. *)
Lemma insert_sigs_cases (nick sigb64 : string) (s s' : taker W)
    (r : res unit) (txd : txdict) :
  latest_tx s = Some txd ->
  insert_sigs nick sigb64 s = (r, s') ->
  latest_tx s' = Some txd \/
  exists raw n idx i rec sd ver_sig ver_pub code,
    b64decode sigb64 = Ok raw /\
    nth_error (unsigned_inputs txd) n = Some (idx, utxo_key i) /\
    nth_error (ins txd) idx = Some i /\ in_script i = "" /\
    nth_error (query_utxo_set (map snd (unsigned_inputs txd)) false) n
    = Some (Some rec) /\
    deserialize_script (hexlify raw) = Ok sd /\
    forallb item_ok sd = true /\
    map hex_of sd = ver_sig :: ver_pub :: code /\
    (code = [] \/ exists c, code = [c]) /\
    sig_good_for (serialize txd) idx rec ver_sig ver_pub (hd_error code)
      (option_map (fun _ => u_value rec) (hd_error code)) = true /\
    latest_tx s'
    = Some (insert_sig idx rec (hexlify raw) ver_sig ver_pub
              (option_map (fun _ => u_value rec) (hd_error code)) txd).
Proof.
  intros Htx. unfold insert_sigs, bind at 1, get_state.
  unfold bind at 1, lift.
  destruct (b64decode sigb64) as [raw|e]; [|intros [= _ <-]; now left].
  rewrite Htx. unfold bind at 1.
  destruct (insert_signature _ _ _ _ _ s) as [b s1] eqn:Eloop.
  apply insert_signature_cases with (txd := txd) in Eloop; [|assumption].
  intros H0.
  assert (Hs : latest_tx s' = latest_tx s1).
  { destruct b as [[|]|e]; unfold jlog, emit, modify, ret in H0;
      cbn in H0; injection H0 as _ <-; reflexivity. }
  rewrite Hs.
  destruct Eloop as [[Hl _]|(n & idx & key & rec & sd & vs & vp & code
                             & Hin & Hq & Hd & Hok & Hh & Hc & Hg & Hl)];
    [now left|].
  right. apply enumerate_In in Hin.
  destruct (unsigned_inputs_nth _ _ Hin) as (i & Hi & Hemp & ->).
  exists raw, n, idx, i, rec, sd, vs, vp, code.
  repeat split; assumption.
Qed.

Lemma update_nth_length {A} (f : A -> A) (l : list A) (i : nat) :
  List.length (update_nth i f l) = List.length l.
Proof.
  revert i. induction l as [|x l IH]; intros [|i]; cbn; auto.
Qed.

Lemma update_nth_other {A} (f : A -> A) (l : list A) (i j : nat) :
  j <> i -> nth_error (update_nth i f l) j = nth_error l j.
Proof.
  revert i j. induction l as [|x l IH]; intros [|i] [|j] Hne; cbn; auto.
  contradiction.
Qed.

(** An insertion leaves everything of the transaction but one input. *)
Lemma insert_sig_frame (idx : nat) (rec : utxo_record)
    (sg ver_sig ver_pub : string) (ver_amt : option Z) (txd : txdict) :
  outs (insert_sig idx rec sg ver_sig ver_pub ver_amt txd) = outs txd /\
  locktime (insert_sig idx rec sg ver_sig ver_pub ver_amt txd)
  = locktime txd /\
  version (insert_sig idx rec sg ver_sig ver_pub ver_amt txd) = version txd /\
  List.length (ins (insert_sig idx rec sg ver_sig ver_pub ver_amt txd))
  = List.length (ins txd) /\
  forall j, j <> idx ->
    nth_error (ins (insert_sig idx rec sg ver_sig ver_pub ver_amt txd)) j
    = nth_error (ins txd) j.
Proof.
  unfold insert_sig, write_witness, write_script.
  destruct ver_amt as [amt|]; [destruct (negb (amt =? 0))|];
    cbn [outs locktime version ins];
    repeat split; try apply update_nth_length;
    intros j Hj; now apply update_nth_other.
Qed.

End Signing.

(** X17.  A signature message changes the transaction only by an insertion
    that [verify_tx_input] has accepted: the message decodes to two or
    three non-empty items, the input is one whose script is empty and for
    whose outpoint the utxo query has a record, and the signature was
    verified for that input against the script of that record (with the
    record's value for a message of three items). *)
Theorem on_sig_inserts_verified {W H : Type} {TW : World W H}
    (nick sigb64 : string) (s s' : taker W) (r : res unit)
    (txd txd' : txdict) :
  latest_tx s = Some txd ->
  insert_sigs nick sigb64 s = (r, s') ->
  latest_tx s' = Some txd' -> txd' <> txd ->
  exists raw n idx i rec sd ver_sig ver_pub code,
    b64decode sigb64 = Ok raw /\
    nth_error (unsigned_inputs txd) n = Some (idx, utxo_key i) /\
    nth_error (ins txd) idx = Some i /\ in_script i = "" /\
    nth_error (query_utxo_set (map snd (unsigned_inputs txd)) false) n
    = Some (Some rec) /\
    deserialize_script (hexlify raw) = Ok sd /\
    forallb item_ok sd = true /\
    map hex_of sd = ver_sig :: ver_pub :: code /\
    (code = [] \/ exists c, code = [c]) /\
    sig_good_for (serialize txd) idx rec ver_sig ver_pub (hd_error code)
      (option_map (fun _ => u_value rec) (hd_error code)) = true /\
    txd' = insert_sig idx rec (hexlify raw) ver_sig ver_pub
             (option_map (fun _ => u_value rec) (hd_error code)) txd.
Proof.
  intros Htx Hrun Htx' Hne.
  destruct (insert_sigs_cases _ _ _ Htx Hrun)
    as [Hl|(raw & n & idx & i & rec & sd & vs & vp & code & A)].
  - congruence.
  - exists raw, n, idx, i, rec, sd, vs, vp, code.
    destruct A as (A1 & A2 & A3 & A4 & A5 & A6 & A7 & A8 & A9 & A10 & A11).
    repeat split; try assumption. congruence.
Qed.

Lemma on_sig_inserts_verified_witness :
  let TW := Demo.world (Demo.chain 5000000) true in
  exists txd txd' idx rec,
    latest_tx Demo.awaiting_sigs = Some txd /\
    latest_tx (snd (insert_sigs "A" "sig1|PA|code" Demo.awaiting_sigs))
    = Some txd' /\
    sig_good_for (serialize txd) idx rec "sig1" "PA" (Some "code")
      (Some (u_value rec)) = true.
Proof.
  intros TW.
  destruct (latest_tx Demo.awaiting_sigs) as [txd|] eqn:Et;
    [|vm_compute in Et; discriminate].
  destruct (latest_tx (snd (insert_sigs "A" "sig1|PA|code"
                              Demo.awaiting_sigs))) as [txd'|] eqn:Et';
    [|vm_compute in Et'; discriminate].
  assert (Hne : txd' <> txd).
  { intros E. rewrite E in Et'. vm_compute in Et, Et'.
    injection Et as <-. discriminate. }
  destruct (@on_sig_inserts_verified _ _ TW "A" "sig1|PA|code"
              Demo.awaiting_sigs _ _ txd txd' Et (surjective_pairing _)
              Et' Hne)
    as (raw & n & idx & i & rec & sd & vs & vp & code & A1 & _ & _ & _ & _
        & A6 & _ & A8 & _ & A10 & _).
  injection A1 as <-. vm_compute in A6. injection A6 as <-.
  vm_compute in A8. injection A8 as <- <- <-.
  exists txd, txd', idx, rec. repeat split. exact A10.
Defined.

(** X18.  A signature message leaves the outputs, the lock time, the version
    and the number of inputs of the transaction as they are, and changes
    at most one input. *)
Theorem on_sig_one_input {W H : Type} {TW : World W H}
    (nick sigb64 : string) (s s' : taker W) (r : res unit) (txd : txdict) :
  latest_tx s = Some txd ->
  insert_sigs nick sigb64 s = (r, s') ->
  exists txd',
    latest_tx s' = Some txd' /\
    outs txd' = outs txd /\ locktime txd' = locktime txd /\
    version txd' = version txd /\
    List.length (ins txd') = List.length (ins txd) /\
    exists idx, forall j, j <> idx ->
      nth_error (ins txd') j = nth_error (ins txd) j.
Proof.
  intros Htx Hrun.
  destruct (insert_sigs_cases _ _ _ Htx Hrun)
    as [Hl|(raw & n & idx & i & rec & sd & vs & vp & code & A)].
  - exists txd. repeat split; try assumption. now exists 0%nat.
  - destruct A as (_ & _ & _ & _ & _ & _ & _ & _ & _ & _ & Hl).
    eexists. split; [exact Hl|].
    destruct (insert_sig_frame idx rec (hexlify raw) vs vp
                (option_map (fun _ => u_value rec) (hd_error code)) txd)
      as (F1 & F2 & F3 & F4 & F5).
    repeat split; try assumption. now exists idx.
Qed.

Lemma on_sig_one_input_witness :
  let TW := Demo.world (Demo.chain 5000000) true in
  exists txd txd',
    latest_tx Demo.awaiting_sigs = Some txd /\
    latest_tx (snd (insert_sigs "A" "sig1|PA|code" Demo.awaiting_sigs))
    = Some txd' /\
    outs txd' = outs txd.
Proof.
  intros TW.
  destruct (latest_tx Demo.awaiting_sigs) as [txd|] eqn:Et;
    [|vm_compute in Et; discriminate].
  destruct (@on_sig_one_input _ _ TW "A" "sig1|PA|code" Demo.awaiting_sigs
              _ _ txd Et (surjective_pairing _))
    as (txd' & Ht' & Ho & _).
  exists txd, txd'. auto.
Defined.

#[local] Instance only_drops_refl {W} (nick : string) :
  Reflexive (@only_drops W nick).
Proof. intros s x. tauto. Qed.

#[local] Instance only_drops_trans {W} (nick : string) :
  Transitive (@only_drops W nick).
Proof.
  intros a b c Hab Hbc x. destruct (Hab x) as [A1 A2].
  destruct (Hbc x) as [B1 B2]. split.
  - intros Hne. rewrite (B1 Hne). now apply A1.
  - auto.
Qed.

Lemma list_remove_drops (nick : string) (l l' : list string) :
  list_remove nick l = Some l' ->
  forall x, (x <> nick -> (In x l' <-> In x l)) /\ (In x l' -> In x l).
Proof.
  revert l'. induction l as [|y l IH]; cbn; intros l'; [discriminate|].
  destruct (String.eqb_spec nick y) as [->|Hne].
  - intros [= <-] x. split; [|now right].
    intros Hx. split; [now right|]. intros [E|Hin]; [congruence | assumption].
  - destruct (list_remove nick l) as [l0|]; cbn; [|discriminate].
    intros [= <-] x. destruct (IH l0 eq_refl x) as [I1 I2]. split.
    + intros Hx. cbn. rewrite (I1 Hx). tauto.
    + intros [E|Hin]; [now left | right; auto].
Qed.

Section Awaited.
Context {W H : Type} {TW : World W H}.

Ltac keeps_drops :=
  repeat first
    [ keeps_step
    | progress unfold_actions ];
  try (intros x; cbn; tauto).

Lemma note_signed_drops (nick utxo : string) :
  keeps (only_drops nick) (@note_signed W nick utxo).
Proof.
  unfold note_signed. keeps_drops.
  intros x. cbn.
  destruct (list_remove nick (nonrespondants _)) as [l'|] eqn:E; cbn;
    [now apply list_remove_drops | tauto].
Qed.

Lemma insert_signature_drops (nick sg : string) (txhex : H)
    (utxo_data : list (option utxo_record))
    (utxo : list (nat * (nat * string))) :
  keeps (only_drops nick) (insert_signature nick sg txhex utxo_data utxo).
Proof.
  induction utxo as [|[n [idx key]] rest IH]; cbn [insert_signature].
  - apply keeps_ret; exact _.
  - keeps_drops; try apply IH; apply note_signed_drops.
Qed.

Lemma finish_if_signed_keeps_awaited :
  keeps (same (@nonrespondants W)) finish_if_signed.
Proof.
  unfold finish_if_signed, self_sign_and_push, self_sign, push, broadcast.
  keeps_more.
Qed.

Lemma on_sig_drops (nick sigb64 : string) :
  keeps (only_drops nick) (on_sig nick sigb64).
Proof.
  unfold on_sig, insert_sigs. keeps_drops;
    try apply insert_signature_drops.
  intros s0 x. rewrite (finish_if_signed_keeps_awaited s0). tauto.
Qed.

End Awaited.

(** X19.  A signature message can take nobody but its sender off the list of
    awaited makers, and puts nobody on it; from a maker that is not
    awaited it is answered [None] and changes nothing (but the log). *)
Theorem on_sig_only_sender_leaves {W H : Type} {TW : World W H}
    (nick sigb64 : string) (s s' : taker W) (r : res (sig_result H)) :
  on_sig nick sigb64 s = (r, s') ->
  (forall x, x <> nick ->
     (In x (nonrespondants s') <-> In x (nonrespondants s))) /\
  incl (nonrespondants s') (nonrespondants s) /\
  (aborted s = false -> ~ In nick (nonrespondants s) ->
   r = Ok SigNone /\ set_trace [] s' = set_trace [] s).
Proof.
  intros Hrun.
  pose proof (keeps_run (on_sig_drops nick sigb64) Hrun) as Hd.
  split; [intros x Hx; now apply (Hd x)|].
  split; [intros x Hx; now apply (Hd x)|].
  intros Hab Hnot. apply mem_false in Hnot.
  unfold on_sig, bind at 1, get_state in Hrun. rewrite Hab, Hnot in Hrun.
  cbn [negb] in Hrun. unfold jlog, emit, bind, modify, ret in Hrun.
  injection Hrun as <- <-. split; reflexivity.
Qed.

Lemma on_sig_only_sender_leaves_witness :
  let TW := Demo.world (Demo.chain 5000000) true in
  fst (on_sig "B" "sig1|PB|code" Demo.awaiting_sigs) = Ok SigNone.
Proof.
  intros TW.
  destruct (@on_sig_only_sender_leaves _ _ TW "B" "sig1|PB|code"
              Demo.awaiting_sigs _ _ (surjective_pairing _))
    as (_ & _ & Hnone).
  destruct Hnone as [Hr _].
  - reflexivity.
  - vm_compute. intuition discriminate.
  - exact Hr.
Defined.

(** X20.  When [on_sig] for an awaited maker returns anything but [False], the
    insertion had left no input with an empty script and no maker
    awaited; the wallet then signed the transaction, and its hash is the
    [txid]. *)
Theorem on_sig_completes {W H : Type} {TW : World W H}
    (nick sigb64 : string) (s s' : taker W) (res : sig_result H) :
  aborted s = false -> In nick (nonrespondants s) ->
  on_sig nick sigb64 s = (Ok res, s') -> res <> SigFalse ->
  exists s1 txd1 txs ours,
    insert_sigs nick sigb64 s = (Ok tt, s1) /\
    latest_tx s1 = Some txd1 /\
    (forall i, In i (ins txd1) -> in_script i <> "") /\
    nonrespondants s1 = [] /\
    sign_tx (wallet s1) txd1 ours = Ok txs /\
    latest_tx s' = Some txs /\
    txid s' = Some (txhash (serialize txs)) /\
    nonrespondants s' = [].
Proof.
  intros Hab Hin Hrun Hres. apply mem_In in Hin.
  unfold on_sig, bind at 1, get_state in Hrun. rewrite Hab, Hin in Hrun.
  cbn [negb] in Hrun. bind_run Hrun.
  match goal with
  | E : insert_sigs _ _ _ = (Ok ?u, ?x) |- _ =>
      destruct u; rename x into s1; rename E into Eins
  end.
  pose proof (keeps_run finish_if_signed_keeps_awaited Hrun) as Hnr.
  unfold same in Hnr.
  unfold finish_if_signed, bind at 1, get_state in Hrun.
  destruct (forallb _ _) eqn:Eall; cbn [negb] in Hrun;
    [|unfold ret in Hrun; injection Hrun as <- _; contradiction].
  destruct (Z.eqb_spec (Z.of_nat (List.length (nonrespondants s1))) 0)
    as [Hlen|Hlen]; cbn [negb] in Hrun; [|discriminate].
  assert (Hempty : nonrespondants s1 = [])
    by (destruct (nonrespondants s1); [reflexivity | cbn in Hlen; lia]).
  do 2 bind_run Hrun.
  repeat match goal with
         | E : jlog _ _ _ = (Ok _, _) |- _ =>
             unfold jlog, emit, modify in E; injection E as _ <-
         | E : taker_info_callback _ _ _ = (Ok _, _) |- _ =>
             unfold taker_info_callback, emit, modify in E;
             injection E as _ <-
         end.
  destruct (item _ _); [|discriminate].
  bind_run Hrun.
  match goal with
  | E : jlog _ _ _ = (Ok _, _) |- _ =>
      unfold jlog, emit, modify in E; injection E as _ <-
  end.
  unfold self_sign_and_push in Hrun. bind_run Hrun.
  match goal with
  | E : self_sign _ = (Ok _, ?x) |- _ => rename E into Esign
  end.
  unfold self_sign, bind at 1, get_state in Esign.
  cbn [latest_tx set_trace] in Esign.
  destruct (latest_tx s1) as [txd1|] eqn:Etx; [|discriminate].
  bind_run Esign.
  match goal with
  | E : lift _ _ = (Ok ?t, _) |- _ =>
      unfold lift in E; injection E as Esg <-; rename t into txs
  end.
  unfold modify in Esign. injection Esign as _ <-.
  unfold push, bind at 1, get_state in Hrun.
  cbn [latest_tx set_latest_tx] in Hrun.
  do 2 bind_run Hrun.
  repeat match goal with
         | E : jlog _ _ _ = (Ok _, _) |- _ =>
             unfold jlog, emit, modify in E; injection E as _ <-
         | E : modify _ _ = (Ok _, _) |- _ =>
             unfold modify in E; injection E as _ <-
         end.
  match type of Hrun with
  | ?m ?x = _ =>
      assert (Hk : keeps (same (fun s : taker W => (latest_tx s, txid s))) m)
  end.
  { unfold broadcast. keeps_more. }
  pose proof (keeps_run Hk Hrun) as Hkeep. unfold same in Hkeep.
  cbn in Hkeep. injection Hkeep as K1 K2.
  exists s1, txd1, txs. eexists.
  split; [exact Eins|]. split; [exact Etx|].
  split.
  { intros i Hi. rewrite forallb_forall in Eall.
    specialize (Eall i Hi). apply negb_true_iff, String.eqb_neq in Eall.
    exact Eall. }
  split; [assumption|].
  cbn [wallet set_trace] in Esg.
  split; [exact Esg|]. split; [assumption|]. split; [assumption|].
  now rewrite Hnr.
Qed.

Lemma on_sig_completes_witness :
  let TW := Demo.world (Demo.chain 5000000) false in
  let s' := snd (on_sig "A" "sig1|PA|code" Demo.awaiting_one) in
  nonrespondants s' = [] /\ txid s' <> None.
Proof.
  intros TW s'.
  assert (Er : on_sig "A" "sig1|PA|code" Demo.awaiting_one
               = (Ok SigNone, s')) by (vm_compute; reflexivity).
  destruct (@on_sig_completes _ _ TW "A" "sig1|PA|code" Demo.awaiting_one
              s' SigNone)
    as (s1 & txd1 & txs & ours & _ & _ & _ & _ & _ & _ & Hid & Hnr).
  - reflexivity.
  - vm_compute. auto.
  - exact Er.
  - discriminate.
  - split; [exact Hnr | rewrite Hid; discriminate].
Defined.

(** X21.  Unless the policy [tx_broadcast] is ['random-peer'] or ['not-self'],
    [push] broadcasts the transaction itself and hands it to no peer: it
    returns [None], [txid] is the hash of the serialized transaction, the
    transaction is registered for notification, and
    [on_finished_callback(False, fromtx=True)] is called exactly when
    [pushtx] fails. *)
Theorem push_own_broadcast {W H : Type} {TW : World W H}
    (s : taker W) (txd : txdict) :
  mem tx_broadcast ["random-peer"; "not-self"] = false ->
  latest_tx s = Some txd ->
  exists s' log notify_addr,
    push s = (Ok SigNone, s') /\
    txid s' = Some (txhash (serialize txd)) /\
    set_trace [] (set_txid None s') = set_trace [] (set_txid None s) /\
    trace s' = (trace s ++ log
                ++ (if pushtx (serialize txd) then []
                    else [OnFinished false (Some "True")]))%list /\
    In (AddTxNotify txd notify_addr) log /\
    (forall r ft, ~ In (OnFinished r ft) log).
Proof.
  intros Hpol Htx.
  unfold push, bind at 1, get_state. rewrite Htx.
  unfold broadcast, jlog, emit, on_finished_callback, emit, bind, modify,
    get_state, ret.
  rewrite Hpol.
  set (na := if mem (substring 0 2 (lower (my_cj_addr s))) ["bc"; "tb"]
             then address_to_script (my_cj_addr s) else my_cj_addr s).
  pose (log := fun b : bool =>
          ([Log "debug" "tx";
            Log "info" ("txid = " ++ txhash (serialize txd));
            AddTxNotify txd na]
           ++ (if b then []
               else [Log "info"
                       ("Only self, random-peer and not-self broadcast "
                        ++ "methods supported. Reverting to self-broadcast.")
                    ]))%list).
  destruct (String.eqb tx_broadcast "self") eqn:Eown;
    destruct (pushtx (serialize txd));
    cbn [fst snd negb truthy];
    eexists; [exists (log true), na | exists (log true), na
              | exists (log false), na | exists (log false), na];
    (split; [reflexivity|]);
    cbn [txid trace set_trace set_txid fst snd negb];
    (split; [reflexivity|]); (split; [reflexivity|]);
    (split; [unfold log; cbn [app]; rewrite <- ?app_assoc; reflexivity|]);
    (split; [unfold log; cbn [app In]; auto|]);
    intros r ft Hin; unfold log in Hin; cbn [app In] in Hin;
    repeat (destruct Hin as [Hin|Hin]; [discriminate Hin|]);
    exact Hin.
Qed.

Lemma push_own_broadcast_witness :
  let TW := Demo.world (Demo.chain 5000000) false in
  let s := snd (self_sign (snd (insert_sigs "A" "sig1|PA|code"
                                  Demo.awaiting_one))) in
  fst (push s) = Ok SigNone.
Proof.
  intros TW s.
  destruct (latest_tx s) as [txd|] eqn:Et; [|vm_compute in Et; discriminate].
  destruct (@push_own_broadcast _ _ TW s txd eq_refl Et)
    as (s' & log & a & Hp & _).
  rewrite Hp. reflexivity.
Defined.

(** X22.  With the policy ['not-self'] and no maker in [maker_utxo_data],
    [push] raises [ValueError] (the empty range of [randrange]), after it
    has set [txid] and registered the transaction for notification. *)
Theorem push_no_peer {W H : Type} {TW : World W H}
    (s : taker W) (txd : txdict) :
  tx_broadcast = "not-self" ->
  maker_utxo_data s = [] ->
  latest_tx s = Some txd ->
  exists s' notify_addr,
    push s = (Raise (ValueError "empty range for randrange()"), s') /\
    txid s' = Some (txhash (serialize txd)) /\
    In (AddTxNotify txd notify_addr) (trace s').
Proof.
  intros Hpol Hm Htx.
  unfold push, bind at 1, get_state. rewrite Htx.
  unfold broadcast, jlog, emit, bind, modify, get_state, ret, raise.
  rewrite Hpol. cbn [maker_utxo_data set_trace set_txid].
  rewrite Hm. cbn.
  do 2 eexists. split; [reflexivity|]. split; [reflexivity|].
  cbn. rewrite !in_app_iff. cbn. eauto 8.
Qed.
Lemma push_no_peer_witness :
  let TW := Demo.with_broadcast "not-self"
              (Demo.world (Demo.chain 5000000) false) in
  let s := set_latest_tx (Some (Demo.mk_tx [] []))
             (Demo.new_taker 5000000 []) in
  fst (push s) = Raise (ValueError "empty range for randrange()") /\
  txid (snd (push s)) = Some "txid".
Proof.
  intros TW s.
  destruct (@push_no_peer _ _ TW s (Demo.mk_tx [] []) eq_refl eq_refl
              eq_refl) as (s' & a & Hp & Hid & _).
  rewrite Hp. split; [reflexivity | exact Hid].
Defined.

Section Settling.
Context {W H : Type} {TW : World W H}.

(** The first loop of [receive_utxos] changes nothing but
    [ignored_makers] and the log. *)
Lemma check_counterparties_frame (l : dict string nickdata) :
  forall rejected,
    keeps (same (fun s : taker W => set_trace [] (set_ignored_makers [] s)))
      (check_counterparties l rejected).
Proof.
  induction l as [|[nick d] l IH]; intros rejected; cbn.
  - apply keeps_ret; exact _.
  - apply keeps_bind; [exact _ | | intros rej; apply IH].
    unfold check_counterparty, auth_counterparty. keeps_more.
Qed.

(** [settle_change], by the change address and the value of the change,
    with the fee it leaves in [total_txfee] and the lines it logs. *)
Lemma settle_change_run (s : taker W) :
  (forall a, my_change_addr s = Some a -> a <> "" ->
     (0 < taker_change s <= BITCOIN_DUST_THRESHOLD ->
      exists s',
        settle_change s = (Ok tt, s') /\
        outputs s' = outputs s /\
        my_change_addr s' = None /\
        total_txfee s' = final_txfee s /\
        trace s' = (trace s ++ [log_estimate s;
                                log_dropping (taker_change s);
                                log_breakdown 0])%list) /\
     (0 < taker_change s -> BITCOIN_DUST_THRESHOLD < taker_change s ->
      exists s',
        settle_change s = (Ok tt, s') /\
        outputs s' = (outputs s ++ [{| o_address := a;
                                       o_value := taker_change s |}])%list /\
        my_change_addr s' = Some a /\
        total_txfee s' = final_txfee s /\
        trace s' = (trace s ++ [log_estimate s;
                                log_breakdown (taker_change s)])%list)) /\
  (my_change_addr s = None ->
   exists s',
     settle_change s = (Ok tt, s') /\
     outputs s' = outputs s /\
     my_change_addr s' = None /\
     total_txfee s' = final_txfee s /\
     trace s' = (trace s ++ log_breakdown (taker_change s)
                 :: (if (taker_change s =? 0)
                        || (Z.abs (taker_change s) =? 1) then []
                     else [log_not_used (taker_change s)]))%list).
Proof.
  split.
  - intros a Ha Hne.
    assert (Ht : truthy (my_change_addr s) = true).
    { rewrite Ha. simpl. apply String.eqb_neq in Hne. now rewrite Hne. }
    unfold settle_change, bind, get_state, jlog, emit, modify, raise, ret.
    rewrite Ht. simpl. rewrite Ht. simpl.
    match goal with
    | |- context [my_change_value ?x] =>
        assert (Hc : my_change_value x = taker_change s)
          by (unfold my_change_value, taker_change, final_txfee;
              rewrite Ht; reflexivity);
        rewrite !Hc
    end.
    unfold log_estimate, log_dropping, log_breakdown, final_txfee.
    rewrite Ht.
    split.
    + intros [Hpos Hdust].
      assert (E1 : (taker_change s <=? 0) = false) by (apply Z.leb_gt; lia).
      apply Z.leb_le in Hdust. rewrite E1, Hdust. simpl.
      eexists. split; [reflexivity|]. simpl.
      split; [reflexivity|]. split; [reflexivity|]. split; [reflexivity|].
      rewrite <- !app_assoc. reflexivity.
    + intros Hpos Hdust.
      assert (E1 : (taker_change s <=? 0) = false) by (apply Z.leb_gt; lia).
      assert (E2 : (taker_change s <=? BITCOIN_DUST_THRESHOLD) = false)
        by (apply Z.leb_gt; lia).
      rewrite E1, E2. simpl. rewrite Ha.
      eexists. split; [reflexivity|]. simpl. rewrite Ha.
      split; [reflexivity|]. split; [reflexivity|]. split; [reflexivity|].
      rewrite <- !app_assoc. reflexivity.
  - intros Hn.
    assert (Hc : my_change_value s = taker_change s).
    { unfold my_change_value, taker_change, final_txfee.
      rewrite Hn. reflexivity. }
    unfold settle_change, bind, get_state, jlog, emit, modify, raise, ret.
    unfold final_txfee, truthy. rewrite Hn. repeat (cbn; rewrite ?Hn, ?Hc).
    unfold log_breakdown, log_not_used.
    destruct (taker_change s =? 0); cbn.
    + eexists. split; [reflexivity|]. cbn. auto.
    + destruct (Z.abs (taker_change s) =? 1); cbn.
      * eexists. split; [reflexivity|]. cbn. auto.
      * eexists. split; [reflexivity|]. cbn.
        split; [reflexivity|]. split; [assumption|].
        split; [reflexivity|]. rewrite <- app_assoc. reflexivity.
Qed.

(** [build_tx] when [mktx] and [deserialize] return. *)
Lemma build_tx_run (s : taker W) (tx : H) (txd : txdict) :
  my_cj_addr s <> "" ->
  mktx (shuffle_utxo_tx (all_utxos s))
    (shuffle_outputs (outputs s ++ [{| o_address := my_cj_addr s;
                                       o_value := cjamount s |}])%list)
  = Ok tx ->
  deserialize tx = Ok txd ->
  exists s',
    build_tx s = (Ok (RuOk (keys (maker_utxo_data s)) tx), s') /\
    utxo_tx s' = shuffle_utxo_tx (all_utxos s) /\
    outputs s'
    = shuffle_outputs (outputs s ++ [{| o_address := my_cj_addr s;
                                        o_value := cjamount s |}])%list /\
    my_change_addr s' = my_change_addr s /\
    total_txfee s' = total_txfee s /\
    latest_tx s' = Some (mark_own_inputs (keys (input_utxos s)) txd) /\
    trace s'
    = (trace s ++ [Log "info" "obtained tx";
                   TakerInfo "INFO" "Built tx, sending to counterparties."]
      )%list.
Proof.
  intros Hne Hmk Hde.
  unfold build_tx, coinjoin_address, taker_info_callback, jlog, emit, bind,
    get_state, modify, lift, ret, raise.
  apply String.eqb_neq in Hne. cbn. rewrite Hne. cbn.
  rewrite Hmk. cbn. rewrite Hde. cbn.
  eexists. split; [reflexivity|]. cbn.
  repeat (split; [reflexivity|]).
  rewrite <- app_assoc. reflexivity.
Qed.

(** [receive_utxos] up to the point where the change is settled: both
    loops have run to their end and enough makers are accepted. *)
Lemma receive_utxos_reaches_settling (io io' : dict string nickdata)
    (s s0 s1 : taker W) (rejected : list string) :
  aborted s = false ->
  check_counterparties io [] s = (Ok rejected, s0) ->
  remove_rejected rejected io = Ok io' ->
  process_makers io' (set_maker_utxo_data [] s0) = (Ok tt, s1) ->
  minimum_makers <= Z.of_nat (List.length (maker_utxo_data s1)) ->
  receive_utxos io s
  = (settle_change ;;; build_tx)
      (set_nonrespondants (keys (maker_utxo_data s1))
         (set_trace
            (trace s1 ++ [TakerInfo "INFO"
                            "Got all parts, enough to build a tx"])%list
            s1)).
Proof.
  intros Hab Hchk Hrem Hpm Hmin.
  unfold receive_utxos, bind at 1, get_state. rewrite Hab.
  unfold bind at 1. rewrite Hchk.
  unfold bind at 1, lift. rewrite Hrem.
  unfold assemble_tx, bind at 1, modify.
  unfold bind at 1. rewrite Hpm.
  unfold bind at 1, get_state.
  destruct (Z.ltb_spec (Z.of_nat (List.length (maker_utxo_data s1)))
              minimum_makers) as [Hlt|_]; [lia|].
  unfold taker_info_callback, emit.
  unfold bind at 1, modify. unfold bind at 1, modify. reflexivity.
Qed.

(** What [settle_change] and [build_tx] leave of a state in which the
    change is settled with the outputs [outs]. *)
Lemma settled_then_built (s2 s3 : taker W) (tx : H) (txd : txdict) :
  settle_change s2 = (Ok tt, s3) ->
  my_cj_addr s2 <> "" ->
  mktx (shuffle_utxo_tx (all_utxos s2))
    (shuffle_outputs (outputs s3 ++ [{| o_address := my_cj_addr s2;
                                        o_value := cjamount s2 |}])%list)
  = Ok tx ->
  deserialize tx = Ok txd ->
  exists s',
    (settle_change ;;; build_tx) s2
    = (Ok (RuOk (keys (maker_utxo_data s2)) tx), s') /\
    utxo_tx s' = shuffle_utxo_tx (all_utxos s2) /\
    outputs s'
    = shuffle_outputs (outputs s3 ++ [{| o_address := my_cj_addr s2;
                                         o_value := cjamount s2 |}])%list /\
    my_change_addr s' = my_change_addr s3 /\
    total_txfee s' = total_txfee s3 /\
    trace s'
    = (trace s3 ++ [Log "info" "obtained tx";
                    TakerInfo "INFO" "Built tx, sending to counterparties."]
      )%list.
Proof.
  intros Hset Hne Hmk Hde.
  pose proof (keeps_run settle_change_keeps_settled Hset) as Hk.
  unfold same, settled in Hk.
  injection Hk as K1 K2 K3 K4 K5 K6 K7 K8 K9.
  assert (Hall : all_utxos s3 = all_utxos s2)
    by (unfold all_utxos; now rewrite K8).
  destruct (@build_tx_run s3 tx txd) as (s' & Hb & B1 & B2 & B3 & B4 & _ & B6).
  - now rewrite K6.
  - now rewrite Hall, K6, K1.
  - assumption.
  - exists s'. unfold bind at 1. rewrite Hset, Hb.
    rewrite K4, B1, B2, B3, B4, B6, Hall, K6, K1. repeat split.
Qed.

End Settling.

(** C4, as the code has it.  When both loops of [receive_utxos] have run
    and enough makers are accepted, [cjfee_total] and
    [maker_txfee_contributions] have grown by the sums of [real_cjfee]
    and of [txfee] over the accepted makers, and the taker's change is
    [total_taker_in - cjamount - cjfee_total - max(fee -
    maker_txfee_contributions, 0)].  With a change address, [fee] is
    the fee estimated again, and: for a change of zero or less
    [receive_utxos] raises [ValueError]; for a positive change of at
    most [BITCOIN_DUST_THRESHOLD] it returns the transaction made of the
    makers' outputs and the taker's coinjoin output alone, with the
    change address cleared and nothing logged as unused; for a larger
    change it returns the transaction with the change output as well.
    Without a change address (a sweep), [fee] is the earlier
    [total_txfee], the transaction has no change output, and the value is
    logged as unused unless it is 0, 1 or -1. *)
Theorem receive_utxos_settles_change {W H : Type} {TW : World W H}
    (ob : dict string offer) (io io' : dict string nickdata)
    (s s0 s1 : taker W) (rejected : list string) :
  aborted s = false -> NoDup (keys io) -> orderbook s = ObDict ob ->
  check_counterparties io [] s = (Ok rejected, s0) ->
  remove_rejected rejected io = Ok io' ->
  process_makers io' (set_maker_utxo_data [] s0) = (Ok tt, s1) ->
  minimum_makers <= Z.of_nat (List.length (maker_utxo_data s1)) ->
  let accepted := keys (maker_utxo_data s1) in
  let change :=
    sum (map value (values (input_utxos s))) - cjamount s - cjfee_total s1
    - Z.max (final_txfee s1 - maker_txfee_contributions s1) 0 in
  let cj_out := {| o_address := my_cj_addr s; o_value := cjamount s |} in
  let returns (outs : list output) (addr : option string)
        (log : list event) :=
    forall tx txd,
      my_cj_addr s <> "" ->
      mktx (shuffle_utxo_tx (all_utxos s1))
        (shuffle_outputs (outs ++ [cj_out])%list) = Ok tx ->
      deserialize tx = Ok txd ->
      exists s',
        receive_utxos io s = (Ok (RuOk accepted tx), s') /\
        utxo_tx s' = shuffle_utxo_tx (all_utxos s1) /\
        outputs s' = shuffle_outputs (outs ++ [cj_out])%list /\
        my_change_addr s' = addr /\
        total_txfee s' = final_txfee s1 /\
        trace s'
        = (trace s1
           ++ TakerInfo "INFO" "Got all parts, enough to build a tx"
           :: log
           ++ [Log "info" "obtained tx";
               TakerInfo "INFO" "Built tx, sending to counterparties."]
          )%list in
  cjfee_total s1
  = cjfee_total s + sum (map (fee_of ob (cjamount s)) accepted) /\
  maker_txfee_contributions s1
  = maker_txfee_contributions s + sum (map (txfee_of ob) accepted) /\
  my_change_addr s1 = my_change_addr s /\
  (forall a, my_change_addr s = Some a -> a <> "" ->
     (change <= 0 ->
      exists msg s', receive_utxos io s = (Raise (ValueError msg), s')) /\
     (0 < change <= BITCOIN_DUST_THRESHOLD ->
      returns (outputs s1) None
        [log_estimate s1; log_dropping change; log_breakdown 0]) /\
     (0 < change -> BITCOIN_DUST_THRESHOLD < change ->
      returns (outputs s1 ++ [{| o_address := a; o_value := change |}])%list
        (Some a) [log_estimate s1; log_breakdown change])) /\
  (my_change_addr s = None ->
   returns (outputs s1) None
     (log_breakdown change
      :: (if (change =? 0) || (Z.abs change =? 1) then []
          else [log_not_used change]))).
Proof.
  intros Hab Hnd Hob Hchk Hrem Hpm Hmin accepted change cj_out returns.
  pose proof (keeps_run (check_counterparties_frame io []) Hchk) as Hf0.
  unfold same in Hf0.
  assert (F0 : tx_terms s0 = tx_terms s /\ cjfee_total s0 = cjfee_total s
               /\ maker_txfee_contributions s0 = maker_txfee_contributions s).
  { repeat split.
    - apply (f_equal (@tx_terms W)) in Hf0. exact Hf0.
    - apply (f_equal (@cjfee_total W)) in Hf0. exact Hf0.
    - apply (f_equal (@maker_txfee_contributions W)) in Hf0. exact Hf0. }
  destruct F0 as (Ft0 & Fc0 & Fm0).
  destruct (remove_rejected_incl rejected io Hrem Hnd) as (_ & Hnd').
  assert (Hfresh : forall k,
             In k (keys (maker_utxo_data (set_maker_utxo_data [] s0))) ->
             ~ In k (keys io')) by (intros k []).
  destruct (@process_makers_effect _ _ _ io' Hnd'
              (set_maker_utxo_data [] s0) s1 (Ok tt) Hfresh Hpm)
    as (Ft1 & _).
  assert (Ft : tx_terms s1 = tx_terms s) by (rewrite Ft1; exact Ft0).
  unfold tx_terms in Ft. injection Ft as T1 T2 T3 T4 T5 T6.
  assert (Hob0 : orderbook (set_maker_utxo_data [] s0) = ObDict ob).
  { unfold tx_terms in Ft0. injection Ft0 as O1 _ _ _ _ _. cbn.
    now rewrite O1. }
  destruct (@process_makers_totals _ _ _ ob io' Hnd'
              (set_maker_utxo_data [] s0) s1 (Ok tt) Hob0 Hfresh Hpm)
    as (new & Hkeys & _ & Hfee & Htx).
  cbn in Hkeys, Hfee, Htx.
  assert (Hcj0 : cjamount s0 = cjamount s)
    by (unfold tx_terms in Ft0; now injection Ft0).
  rewrite Hcj0, Fc0 in Hfee. rewrite Fm0 in Htx.
  fold accepted in Hkeys. rewrite <- Hkeys in Hfee, Htx.
  pose proof (@receive_utxos_reaches_settling _ _ _ io io' s s0 s1 rejected Hab Hchk Hrem Hpm Hmin) as Hr.
  set (s2 := set_nonrespondants (keys (maker_utxo_data s1))
               (set_trace
                  (trace s1 ++ [TakerInfo "INFO"
                                  "Got all parts, enough to build a tx"])
                  s1)) in Hr.
  assert (Hchange : taker_change s2 = change).
  { unfold change, taker_change. cbn. now rewrite T3, T2. }
  split; [exact Hfee|]. split; [exact Htx|]. split; [assumption|].
  assert (Hret : forall s3 outs addr log,
             settle_change s2 = (Ok tt, s3) ->
             outputs s3 = outs -> my_change_addr s3 = addr ->
             total_txfee s3 = final_txfee s1 ->
             trace s3 = (trace s2 ++ log)%list ->
             returns outs addr log).
  { intros s3 outs addr log Hset Ho Ha Hfe Htr tx txd Hne Hmk Hde.
    destruct (@settled_then_built _ _ _ s2 s3 tx txd Hset)
      as (s' & Hrun & B1 & B2 & B3 & B4 & B5).
    - cbn. now rewrite T6.
    - cbn. rewrite T6, T2, Ho. exact Hmk.
    - assumption.
    - exists s'. rewrite Hr, Hrun. cbn in B1, B2.
      rewrite T6, T2, Ho in B2.
      rewrite B1, B2, B3, B4, B5, Ha, Hfe, Htr. cbn.
      rewrite <- !app_assoc. repeat split. }
  split.
  - intros a Ha Hne.
    assert (Ha2 : my_change_addr s2 = Some a) by (cbn; now rewrite T4).
    split; [|split].
    + intros Hle.
      destruct (proj1 (settle_change_cases s2) a Ha2 Hne) as (Hraise & _).
      rewrite Hchange in Hraise. destruct (Hraise Hle) as (msg & s' & E).
      exists msg, s'. rewrite Hr. unfold bind. now rewrite E.
    + intros Hdust.
      destruct (proj1 (settle_change_run s2) a Ha2 Hne) as (Hdrop & _).
      rewrite Hchange in Hdrop.
      destruct (Hdrop Hdust) as (s3 & Hset & Ho & Hadr & Hfe & Htr).
      apply (Hret s3); assumption.
    + intros Hpos Hbig.
      destruct (proj1 (settle_change_run s2) a Ha2 Hne) as (_ & Hkeep).
      rewrite Hchange in Hkeep.
      destruct (Hkeep Hpos Hbig) as (s3 & Hset & Ho & Hadr & Hfe & Htr).
      apply (Hret s3); assumption.
  - intros Hn.
    assert (Hn2 : my_change_addr s2 = None) by (cbn; now rewrite T4).
    pose proof (proj2 (settle_change_run s2) Hn2) as Hsweep.
    rewrite Hchange in Hsweep.
    destruct Hsweep as (s3 & Hset & Ho & Hadr & Hfe & Htr).
    apply (Hret s3); assumption.
Qed.

(** An instance of [receive_utxos_settles_change]: maker A is accepted
    for a coinjoin of 1000000 sat from a wallet of 5000000 sat, and the
    change of 3994000 sat is an output of the transaction returned. *)
Lemma receive_utxos_settles_change_witness :
  let TW := Demo.world (Demo.chain 5000000) false in
  let s := Demo.ready 5000000 false in
  exists tx s',
    receive_utxos [Demo.answer_A] s = (Ok (RuOk ["A"] tx), s') /\
    In {| o_address := "internal0"; o_value := 3994000 |} (outputs s') /\
    my_change_addr s' = Some "internal0" /\
    cjfee_total s' = 3000 /\ maker_txfee_contributions s' = 1000.
Proof.
  intros TW s.
  pose (io := [Demo.answer_A]).
  pose (s0 := snd (check_counterparties io [] s)).
  pose (s1 := snd (process_makers io (set_maker_utxo_data [] s0))).
  pose (outs := (outputs s1 ++ [{| o_address := "internal0";
                                   o_value := 3994000 |};
                                {| o_address := "tk_cj";
                                   o_value := 1000000 |}])%list).
  pose (tx := match mktx (shuffle_utxo_tx (all_utxos s1))
                      (shuffle_outputs outs) with
              | Ok t => t
              | Raise _ => Demo.mk_tx [] []
              end).
  assert (Hnd : NoDup (keys io)) by (repeat constructor; intros []).
  assert (Hob : orderbook s
                = ObDict [("A", Demo.mk_offer "A" 3000);
                          ("B", Demo.mk_offer "B" 500)])
    by (vm_compute; reflexivity).
  assert (Hchk : check_counterparties io [] s = (Ok [], s0))
    by (vm_compute; reflexivity).
  assert (Hpm : process_makers io (set_maker_utxo_data [] s0) = (Ok tt, s1))
    by (vm_compute; reflexivity).
  assert (Hmin : minimum_makers
                 <= Z.of_nat (List.length (maker_utxo_data s1)))
    by (vm_compute; discriminate).
  destruct (@receive_utxos_settles_change _ _ TW _ io io s s0 s1 []
              eq_refl Hnd Hob Hchk eq_refl Hpm Hmin)
    as (Hfee & Htx & _ & Hsome & _).
  destruct (Hsome "internal0") as (_ & _ & Hbig);
    [vm_compute; reflexivity | discriminate |].
  destruct (Hbig) with (tx := tx) (txd := tx)
    as (s' & Hrun & _ & Hout & Haddr & _);
    [vm_compute; reflexivity | vm_compute; reflexivity | discriminate
    | vm_compute; reflexivity | vm_compute; reflexivity |].
  exists tx, s'. split; [exact Hrun|].
  split; [rewrite Hout; vm_compute; tauto|].
  split; [exact Haddr|].
  pose proof (f_equal snd Hrun) as Hs'. cbn [snd] in Hs'. rewrite <- Hs'.
  split; vm_compute; reflexivity.
Defined.




Section Rejected.
Context {W H : Type} {TW : World W H}.












End Rejected.



End TakerProps.
